(** * solo-ui CLI: a shallow embedding of the [add] / [init] / [list] commands

    Two source files implement the CLI:
    - [packages/cli/src/index.ts]   (module [CliPkg] below), and
    - [unnamed/part_001]            (module [CliSrc] below), the variant that
      installs under [src/] and filters the catalog in [list].

    The runtime they run on (fs-extra, simple-git, prompts, ora) is modelled
    as a state/error monad over a directory tree rooted at the working
    directory.  Every path is relative to [process.cwd()], so
    [path.join(process.cwd(), "x")] and ["x"] denote the same path. *)

From Stdlib Require Import String Ascii List Bool ZArith NArith Lia.
Import ListNotations.
Set Warnings "-register-all".
Open Scope string_scope.
Open Scope list_scope.

Infix "+++" := String.append (at level 60, right associativity).

(** ** JavaScript strings *)

(** [s.startsWith(pre)] *)
Fixpoint starts_with (pre s : string) : bool :=
  match pre, s with
  | EmptyString, _ => true
  | String a pre', String b s' => Ascii.eqb a b && starts_with pre' s'
  | String _ _, EmptyString => false
  end.

(** [s.includes(sub)]: [sub] occurs in [s] at some position. *)
Fixpoint includes (s sub : string) : bool :=
  starts_with sub s ||
  match s with
  | EmptyString => false
  | String _ s' => includes s' sub
  end.

(** Number of positions of [s] at which [sub] starts (overlapping count). *)
Fixpoint occurrences (sub s : string) : nat :=
  (if starts_with sub s then 1 else 0) +
  match s with
  | EmptyString => 0
  | String _ s' => occurrences sub s'
  end.

(** [arr.includes(x)] on an array of strings. *)
Definition str_mem (x : string) (l : list string) : bool :=
  existsb (String.eqb x) l.

(** Decimal rendering of a natural number. *)
Fixpoint digits_aux (fuel : nat) (n : N) (acc : string) : string :=
  match fuel with
  | O => acc
  | S fuel' =>
      let acc' := String (Ascii.ascii_of_N (48 + N.modulo n 10)) acc in
      if N.ltb n 10 then acc' else digits_aux fuel' (N.div n 10) acc'
  end.

Definition N_to_string (n : N) : string := digits_aux (S (N.size_nat n)) n EmptyString.

Definition nat_to_string (n : nat) : string := N_to_string (N.of_nat n).

Definition Z_to_string (z : Z) : string :=
  if Z.ltb z 0 then "-" +++ N_to_string (Z.to_N (Z.opp z)) else N_to_string (Z.to_N z).

(** The newline character, ["\n"] in the source. *)
Definition nl : string := String (Ascii.ascii_of_nat 10) EmptyString.

(** ** Association lists: directory entries and JavaScript object fields *)

Section Assoc.
Context {A : Type}.

(** First binding of [x]. *)
Fixpoint assoc (x : string) (l : list (string * A)) : option A :=
  match l with
  | [] => None
  | (y, v) :: l' => if String.eqb x y then Some v else assoc x l'
  end.

(** Assignment: replace the first binding of [x] in place, or append it. *)
Fixpoint set_entry (x : string) (v : A) (l : list (string * A)) : list (string * A) :=
  match l with
  | [] => [(x, v)]
  | (y, w) :: l' => if String.eqb x y then (y, v) :: l' else (y, w) :: set_entry x v l'
  end.

(** Removal of every binding of [x]. *)
Definition del_entry (x : string) (l : list (string * A)) : list (string * A) :=
  filter (fun yw => negb (String.eqb x (fst yw))) l.

End Assoc.

(** ** JSON values, as [readJson] returns them *)

Inductive json : Type :=
| JNull
| JBool (b : bool)
| JNum (n : Z)
| JStr (s : string)
| JArr (items : list json)
| JObj (fields : list (string * json)).

(** JavaScript truthiness of a property read ([None] is [undefined]). *)
Definition truthy (v : option json) : bool :=
  match v with
  | None | Some JNull => false
  | Some (JBool b) => b
  | Some (JNum n) => negb (Z.eqb n 0)
  | Some (JStr s) => negb (String.eqb s EmptyString)
  | Some (JArr _) | Some (JObj _) => true
  end.

Fixpoint indexed {A} (i : nat) (l : list A) : list (string * A) :=
  match l with
  | [] => []
  | x :: l' => (nat_to_string i, x) :: indexed (S i) l'
  end.

Fixpoint string_chars (s : string) : list json :=
  match s with
  | EmptyString => []
  | String a s' => JStr (String a EmptyString) :: string_chars s'
  end.

(** Own enumerable properties copied by an object spread [{...v}]. *)
Definition spread (v : option json) : list (string * json) :=
  match v with
  | Some (JObj fs) => fs
  | Some (JArr l) => indexed 0 l
  | Some (JStr s) => indexed 0 (string_chars s)
  | _ => []
  end.

(** Assign every property of [l], in order, onto the object [into]. *)
Definition assign_all (l : list (string * json)) (into : list (string * json)) :=
  fold_left (fun acc kv => set_entry (fst kv) (snd kv) acc) l into.

(** ** The directory tree *)

Definition path := list string.

(** A directory entry.  A JSON document ([package.json]) is kept in the
    parsed form [readJson] / [writeJson] exchange; the CLI never reads it as
    text. *)
Inductive node : Type :=
| File (text : string)
| Json (value : json)
| Dir (entries : list (string * node)).

Definition entries := list (string * node).

Fixpoint lookup (p : path) (n : node) : option node :=
  match p with
  | [] => Some n
  | x :: p' =>
      match n with
      | Dir es => match assoc x es with Some c => lookup p' c | None => None end
      | _ => None
      end
  end.

(** Lookup relative to the working directory, whose listing is [es]. *)
Definition lookup_in (p : path) (es : entries) : option node := lookup p (Dir es).

(** Write ([Some n]) or unlink ([None]) the entry at [p]; nothing happens when
    the parent directory is missing (callers check it first). *)
Fixpoint put_in (p : path) (v : option node) (es : entries) : entries :=
  match p with
  | [] => es
  | x :: p' =>
      match p' with
      | [] => match v with Some n => set_entry x n es | None => del_entry x es end
      | _ :: _ =>
          match assoc x es with
          | Some (Dir ces) => set_entry x (Dir (put_in p' v ces)) es
          | _ => es
          end
      end
  end.

(** [p] is a prefix of [q]. *)
Fixpoint is_prefix (p q : path) : bool :=
  match p, q with
  | [], _ => true
  | x :: p', y :: q' => String.eqb x y && is_prefix p' q'
  | _ :: _, [] => false
  end.

Definition is_dir (v : option node) : bool :=
  match v with Some (Dir _) => true | _ => false end.

(** [path.join(base, rel)]: [rel] is split at ['/'], empty and ["."]
    segments are dropped and [".."] removes the last segment.  A [".."]
    climbing above the working directory stays at it (the tree below models
    nothing above the working directory). *)
Fixpoint split_slash_aux (s : string) (cur : string) : list string :=
  match s with
  | EmptyString => [cur]
  | String a s' =>
      if Ascii.eqb a "/"%char then cur :: split_slash_aux s' EmptyString
      else split_slash_aux s' (cur +++ String a EmptyString)
  end.

Definition split_slash (s : string) : list string := split_slash_aux s EmptyString.

Definition norm_step (acc : list string) (seg : string) : list string :=
  if String.eqb seg EmptyString || String.eqb seg "." then acc
  else if String.eqb seg ".." then tl acc
  else seg :: acc.

Definition join (base : path) (rel : string) : path :=
  rev (fold_left norm_step (split_slash rel) (rev base)).

(** A component name that is one plain path segment. *)
Definition valid_segment (c : string) : bool :=
  negb (String.eqb c EmptyString) && negb (String.eqb c ".") && negb (String.eqb c "..")
  && negb (existsb (fun a => Ascii.eqb a "/"%char) (list_ascii_of_string c)).

Definition show_path (p : path) : string := String.concat "/" p.

(** ** Errors *)

Inductive err : Type :=
| ENOENT (syscall : string) (p : path)
| EEXIST (p : path)
| ENOTDIR (p : path)
| EISDIR (p : path)
| EPERM (p : path)              (** a recursive removal that failed *)
| JsonParseError (p : path)
| CopyError (msg : string)      (** fs-extra's own copy checks *)
| GitError (msg : string)       (** simple-git: git exited with an error *)
| NetworkError (url : string)
| TypeError (msg : string)
| Thrown (msg : string).        (** [new Error(msg)] in the CLI *)

(** [error.message]; every value the CLI can catch is an [Error]. *)
Definition message (e : err) : string :=
  match e with
  | ENOENT sc p => "ENOENT: no such file or directory, " +++ sc +++ " '" +++ show_path p +++ "'"
  | EEXIST p => "EEXIST: file already exists, mkdir '" +++ show_path p +++ "'"
  | ENOTDIR p => "ENOTDIR: not a directory, '" +++ show_path p +++ "'"
  | EISDIR p => "EISDIR: illegal operation on a directory, read '" +++ show_path p +++ "'"
  | EPERM p => "EPERM: operation not permitted, rmdir '" +++ show_path p +++ "'"
  | JsonParseError p => show_path p +++ ": Unexpected token in JSON"
  | CopyError m | GitError m | TypeError m | Thrown m => m
  | NetworkError url => "fatal: unable to access '" +++ url +++ "'"
  end.

(** [error instanceof Error ? error.message : "Unknown error occurred"] *)
Definition errorMessage (e : err) : string := message e.

(** ** Observable events: network, prompt, spinner and console output *)

Inductive event : Type :=
| SpinStart (text : string)
| SpinSucceed (text : string)
| SpinFail (text : string)
| SpinInfo (text : string)
| SpinStop
| Warn (text : string)
| Log (text : string)
| Net (url : string)
| Prompt (choices : list string).

(** ** The runtime monad

    [env] fixes what the command cannot influence: the remote repository's
    tree, whether the network is reachable, whether a recursive removal
    succeeds, and the user's answer to the select prompt (an index into the
    offered choices, [None] for a cancelled prompt). *)

Record env : Type := mkEnv {
  remote : entries;
  network_up : bool;
  remove_ok : bool;
  answer : option nat
}.

Record state : Type := mkState {
  fs : entries;
  log : list event
}.

Inductive res (A : Type) : Type :=
| Ok (a : A)
| Err (e : err).
Arguments Ok {A} a.
Arguments Err {A} e.

Definition M (A : Type) : Type := env -> state -> res A * state.

Definition ret {A} (a : A) : M A := fun _ st => (Ok a, st).

Definition bind {A B} (m : M A) (k : A -> M B) : M B :=
  fun E st =>
    match m E st with
    | (Ok a, st') => k a E st'
    | (Err e, st') => (Err e, st')
    end.

Definition throw {A} (e : err) : M A := fun _ st => (Err e, st).

Notation "x <- m ;; k" := (bind m (fun x => k))
  (at level 61, m at next level, right associativity).
Notation "m ;; k" := (bind m (fun _ => k)) (at level 61, right associativity).

(** [try { m } catch (e) { h(e) }] *)
Definition tryCatch {A} (m : M A) (h : err -> M A) : M A :=
  fun E st =>
    match m E st with
    | (Err e, st') => h e E st'
    | r => r
    end.

(** [try { m } finally { f }]: a throwing [finally] wins. *)
Definition tryFinally {A} (m : M A) (f : M unit) : M A :=
  fun E st =>
    let '(r, st1) := m E st in
    match f E st1 with
    | (Ok _, st2) => (r, st2)
    | (Err e, st2) => (Err e, st2)
    end.

Definition ask : M env := fun E st => (Ok E, st).
Definition get_fs : M entries := fun _ st => (Ok (fs st), st).
Definition set_fs (es : entries) : M unit := fun _ st => (Ok tt, mkState es (log st)).
Definition emit (ev : event) : M unit := fun _ st => (Ok tt, mkState (fs st) (log st ++ [ev])).

(** *** ora *)
Definition spinStart (t : string) : M unit := emit (SpinStart t).
Definition spinSucceed (t : string) : M unit := emit (SpinSucceed t).
Definition spinFail (t : string) : M unit := emit (SpinFail t).
Definition spinInfo (t : string) : M unit := emit (SpinInfo t).
Definition spinStop : M unit := emit SpinStop.
Definition consoleWarn (t : string) : M unit := emit (Warn t).
Definition consoleLog (t : string) : M unit := emit (Log t).

(** *** JSON text, for a [readFile] / [appendFile] on a JSON document
    (only the double quote and the backslash are escaped). *)
Definition dquote : ascii := Ascii.ascii_of_nat 34.
Definition backslash : ascii := Ascii.ascii_of_nat 92.

Fixpoint escape (s : string) : string :=
  match s with
  | EmptyString => EmptyString
  | String a s' =>
      if Ascii.eqb a dquote || Ascii.eqb a backslash
      then String backslash (String a (escape s'))
      else String a (escape s')
  end.

Definition quote (s : string) : string :=
  String dquote (escape s +++ String dquote EmptyString).

Fixpoint json_text (j : json) : string :=
  match j with
  | JNull => "null"
  | JBool true => "true"
  | JBool false => "false"
  | JNum n => Z_to_string n
  | JStr s => quote s
  | JArr l => "[" +++ String.concat "," (map json_text l) +++ "]"
  | JObj fs =>
      "{" +++ String.concat "," (map (fun '(k, v) => quote k +++ ":" +++ json_text v) fs) +++ "}"
  end.

(** *** fs-extra *)

(** [fs.pathExists(p)] *)
Definition pathExists (p : path) : M bool :=
  es <- get_fs ;;
  ret (match lookup_in p es with Some _ => true | None => false end).

(** [mkdir -p]: walk the prefixes of [rest] below [pre], creating the
    missing ones; a file on the way is an error. *)
Fixpoint mkdirp (pre rest : path) (es : entries) : res entries :=
  match rest with
  | [] => Ok es
  | x :: rest' =>
      let q := pre ++ [x] in
      match lookup_in q es with
      | Some (Dir _) => mkdirp q rest' es
      | Some _ => Err (match rest' with [] => EEXIST q | _ => ENOTDIR q end)
      | None => mkdirp q rest' (put_in q (Some (Dir [])) es)
      end
  end.

(** [fs.ensureDir(p)] *)
Definition ensureDir (p : path) : M unit :=
  es <- get_fs ;;
  match mkdirp [] p es with
  | Ok es' => set_fs es'
  | Err e => throw e
  end.

(** [fs.readFile(p, "utf-8")] *)
Definition readFile (p : path) : M string :=
  es <- get_fs ;;
  match lookup_in p es with
  | Some (File t) => ret t
  | Some (Json j) => ret (json_text j)
  | Some (Dir _) => throw (EISDIR p)
  | None => throw (ENOENT "open" p)
  end.

(** [fs.appendFile(p, s)]: creates the file when it is missing. *)
Definition appendFile (p : path) (s : string) : M unit :=
  es <- get_fs ;;
  match lookup_in p es with
  | Some (File t) => set_fs (put_in p (Some (File (t +++ s))) es)
  | Some (Json j) => set_fs (put_in p (Some (File (json_text j +++ s))) es)
  | Some (Dir _) => throw (EISDIR p)
  | None =>
      if is_dir (lookup_in (removelast p) es)
      then set_fs (put_in p (Some (File s)) es)
      else throw (ENOENT "open" p)
  end.

(** Write the node [n] at [p] as [fs.writeFile] / [fs.writeJson] do. *)
Definition write_node (p : path) (n : node) : M unit :=
  es <- get_fs ;;
  match lookup_in p es with
  | Some (Dir _) => throw (EISDIR p)
  | _ =>
      if is_dir (lookup_in (removelast p) es)
      then set_fs (put_in p (Some n) es)
      else throw (ENOENT "open" p)
  end.

Definition writeFile (p : path) (s : string) : M unit := write_node p (File s).

(** [fs.readJson(p)]: JSON documents are stored parsed; a text file is
    not parsed by this model. *)
Definition readJson (p : path) : M json :=
  es <- get_fs ;;
  match lookup_in p es with
  | Some (Json j) => ret j
  | Some (File _) => throw (JsonParseError p)
  | Some (Dir _) => throw (EISDIR p)
  | None => throw (ENOENT "open" p)
  end.

(** [fs.writeJson(p, j, { spaces: 2 })] *)
Definition writeJson (p : path) (j : json) : M unit := write_node p (Json j).

(** [fs.readdir(p)]: names in directory order. *)
Definition readdir (p : path) : M (list string) :=
  es <- get_fs ;;
  match lookup_in p es with
  | Some (Dir ces) => ret (map fst ces)
  | Some _ => throw (ENOTDIR p)
  | None => throw (ENOENT "scandir" p)
  end.

(** [fs.statSync(p).isDirectory()]; throws when [p] is missing. *)
Definition statIsDirectory (p : path) : M bool :=
  es <- get_fs ;;
  match lookup_in p es with
  | Some n => ret (is_dir (Some n))
  | None => throw (ENOENT "stat" p)
  end.

(** [fs.remove(p)]: recursive removal; a missing path is not an error.
    Whether the removal succeeds is fixed by the environment. *)
Definition remove (p : path) : M unit :=
  E <- ask ;;
  if remove_ok E
  then (es <- get_fs ;; set_fs (put_in p None es))
  else throw (EPERM p).

(** Recursive copy of the node [s] onto what is at the destination ([d]):
    directories are merged entry by entry, files overwrite.  The result is
    the new destination and the error that stopped the copy, if any; the
    entries copied before an error stay. *)
Fixpoint copy_node (s : node) (d : option node) {struct s} : option node * option err :=
  match s with
  | Dir ses =>
      let fix go (ses : entries) (des : entries) : entries * option err :=
        match ses with
        | [] => (des, None)
        | (x, c) :: ses' =>
            let '(r, e) := copy_node c (assoc x des) in
            let des' := match r with Some n => set_entry x n des | None => des end in
            match e with
            | Some _ => (des', e)
            | None => go ses' des'
            end
        end in
      match d with
      | Some (Dir des) => let '(des', e) := go ses des in (Some (Dir des'), e)
      | None => let '(des', e) := go ses [] in (Some (Dir des'), e)
      | Some _ => (d, Some (CopyError "Cannot overwrite non-directory with directory"))
      end
  | _ =>
      match d with
      | Some (Dir _) => (d, Some (CopyError "Cannot overwrite directory with non-directory"))
      | _ => (Some s, None)
      end
  end.

(** [fs.copy(src, dst)] (overwrite on): the source must exist and must not
    contain the destination; a type clash at the top is refused before any
    write; the parent of [dst] is created. *)
Definition copy (src dst : path) : M unit :=
  es <- get_fs ;;
  match lookup_in src es with
  | None => throw (ENOENT "lstat" src)
  | Some sn =>
      if is_prefix src dst
      then throw (CopyError ("Cannot copy '" +++ show_path src +++ "' to a subdirectory of itself"))
      else
        match sn, lookup_in dst es with
        | Dir _, Some (File _) | Dir _, Some (Json _) =>
            throw (CopyError "Cannot overwrite non-directory with directory")
        | File _, Some (Dir _) | Json _, Some (Dir _) =>
            throw (CopyError "Cannot overwrite directory with non-directory")
        | _, _ =>
            ensureDir (removelast dst) ;;
            es' <- get_fs ;;
            let '(r, e) := copy_node sn (lookup_in dst es') in
            set_fs (match r with Some n => put_in dst (Some n) es' | None => es' end) ;;
            match e with Some e => throw e | None => ret tt end
        end
  end.

(** *** simple-git: [git.clone(url, dst, ["--depth", "1"])]

    git refuses a destination that exists and is not an empty directory
    before it contacts the remote; otherwise it fetches the remote tree into
    [dst]. *)
Definition gitClone (url : string) (dst : path) : M unit :=
  E <- ask ;;
  es <- get_fs ;;
  match lookup_in dst es with
  | Some (Dir (_ :: _)) | Some (File _) | Some (Json _) =>
      throw (GitError ("fatal: destination path '" +++ show_path dst
                       +++ "' already exists and is not an empty directory."))
  | _ =>
      emit (Net url) ;;
      if network_up E
      then (es' <- get_fs ;; set_fs (put_in dst (Some (Dir (remote E))) es'))
      else throw (NetworkError url)
  end.

(** *** prompts: a select prompt; the answer is the chosen value. *)
Definition promptSelect (choices : list string) : M (option string) :=
  E <- ask ;;
  emit (Prompt choices) ;;
  ret (match answer E with Some i => nth_error choices i | None => None end).

(** ** Functions shared by both CLI sources *)

Definition REPO_URL : string := "https://github.com/irychen/solo-ui.git".

(** [path.join(process.cwd(), ".solo-ui-temp")] *)
Definition TEMP_DIR : path := [".solo-ui-temp"].

Definition notAProjectMessage : string :=
  "No package.json found. Please run this command in a Node.js project.".

Definition checkProjectConfig : M unit :=
  hasPackageJson <- pathExists ["package.json"] ;;
  if negb hasPackageJson then throw (Thrown notAProjectMessage) else ret tt.

(** The dependency analysis is a TODO in both sources: the file is read and
    its content dropped. *)
Definition checkComponentDependencies (component : string) : M unit :=
  let componentPath := join (TEMP_DIR ++ ["components"]) component in
  let typesPath := componentPath ++ ["types.ts"] in
  b <- pathExists typesPath ;;
  if b then (_ <- readFile typesPath ;; ret tt) else ret tt.

(** [mergeStyles] of both sources; they differ only in the global
    stylesheet's path. *)
Definition mergeStylesAt (globalStylePath componentPath : path) : M unit :=
  let componentStylePath := componentPath ++ ["styles.css"] in
  b <- pathExists componentStylePath ;;
  if b then
    componentStyles <- readFile componentStylePath ;;
    globalStyles <- readFile globalStylePath ;;
    if negb (includes globalStyles componentStyles)
    then appendFile globalStylePath (nl +++ componentStyles)
    else ret tt
  else ret tt.

Definition cleanupTemp : M unit :=
  tryCatch
    (b <- pathExists TEMP_DIR ;; if b then remove TEMP_DIR else ret tt)
    (fun _ => consoleWarn "Failed to clean up temporary directory").

(** The skeleton of each command's [.action]:
    [const spinner = ora(startText).start();
     try { body } catch (error) { spinner.fail(failPrefix + message) }
     finally { await cleanupTemp(); }] *)
Definition action (startText failPrefix : string) (body : M unit) : M unit :=
  spinStart startText ;;
  tryFinally
    (tryCatch body (fun e => spinFail (failPrefix +++ errorMessage e)))
    cleanupTemp.

(** The [package.json] update of [init]:
    [if (!packageJson.dependencies) packageJson.dependencies = {};
     if (!packageJson.devDependencies) packageJson.devDependencies = {};
     packageJson.devDependencies = { ...packageJson.devDependencies,
       tailwindcss: "^3.4.0", postcss: "^8.4.0", autoprefixer: "^10.4.0" };]
    Property order of integer-like keys is not modelled. *)
Definition devPins : list (string * json) :=
  [("tailwindcss", JStr "^3.4.0"); ("postcss", JStr "^8.4.0"); ("autoprefixer", JStr "^10.4.0")].

Definition updateManifest (packageJson : json) : res json :=
  match packageJson with
  | JObj fs0 =>
      let fs1 := if truthy (assoc "dependencies" fs0) then fs0
                 else set_entry "dependencies" (JObj []) fs0 in
      let fs2 := if truthy (assoc "devDependencies" fs1) then fs1
                 else set_entry "devDependencies" (JObj []) fs1 in
      let dev := assign_all devPins (assign_all (spread (assoc "devDependencies" fs2)) []) in
      Ok (JObj (set_entry "devDependencies" (JObj dev) fs2))
  | JNull => Err (TypeError "Cannot read properties of null (reading 'dependencies')")
  | JArr l => Ok (JArr l)  (** the properties set on an array are not serialized *)
  | _ => Err (TypeError "Cannot create property 'dependencies' on a primitive")
  end.

Definition writeManifest (packageJson : json) : M unit :=
  match updateManifest packageJson with
  | Ok j => writeJson ["package.json"] j
  | Err e => throw e
  end.

(** [if (component)] on the prompt's answer. *)
Definition truthy_str (v : option string) : bool :=
  match v with Some s => negb (String.eqb s EmptyString) | None => false end.

(** JavaScript [!==] on two property reads; objects are compared by
    reference, and two parsed documents never share one. *)
Definition js_strict_neq (a b : option json) : bool :=
  match a, b with
  | None, None => false
  | Some JNull, Some JNull => false
  | Some (JBool x), Some (JBool y) => negb (Bool.eqb x y)
  | Some (JNum x), Some (JNum y) => negb (Z.eqb x y)
  | Some (JStr x), Some (JStr y) => negb (String.eqb x y)
  | _, _ => true
  end.

(** [`${v}`] *)
Fixpoint js_string (j : json) : string :=
  match j with
  | JNull => "null"
  | JBool true => "true"
  | JBool false => "false"
  | JNum n => Z_to_string n
  | JStr s => s
  | JArr l => String.concat "," (map (fun x => match x with JNull => EmptyString | _ => js_string x end) l)
  | JObj _ => "[object Object]"
  end.

Definition js_template (v : option json) : string :=
  match v with Some j => js_string j | None => "undefined" end.

(** [obj.version] *)
Definition prop (j : json) (k : string) : M (option json) :=
  match j with
  | JObj fs => ret (assoc k fs)
  | JNull => throw (TypeError ("Cannot read properties of null (reading '" +++ k +++ "')"))
  | _ => ret None
  end.

(** ** [packages/cli/src/index.ts] *)
Module CliPkg.

Definition checkVersion : M unit :=
  tryCatch
    (packageJson <- readJson (TEMP_DIR ++ ["package.json"]) ;;
     localPackageJson <- readJson ["package.json"] ;;
     remoteVersion <- prop packageJson "version" ;;
     localVersion <- prop localPackageJson "version" ;;
     if js_strict_neq remoteVersion localVersion
     then consoleWarn ("Warning: Your local version (" +++ js_template localVersion
                       +++ ") differs from the remote version (" +++ js_template remoteVersion +++ ")")
     else ret tt)
    (fun _ => consoleWarn "Unable to check versions").

(** [path.join(process.cwd(), "styles/globals.css")] *)
Definition globalStylePath : path := ["styles"; "globals.css"].

Definition mergeStyles (componentPath : path) : M unit :=
  mergeStylesAt globalStylePath componentPath.

Definition addBody (component : string) : M unit :=
  checkProjectConfig ;;
  ensureDir TEMP_DIR ;;
  gitClone REPO_URL TEMP_DIR ;;
  checkVersion ;;
  checkComponentDependencies component ;;
  let componentPath := join (TEMP_DIR ++ ["components"]) component in
  let targetPath := join ["components"] component in
  found <- pathExists componentPath ;;
  if negb found then throw (Thrown ("Component " +++ component +++ " not found")) else
  copy componentPath targetPath ;;
  mergeStyles componentPath ;;
  spinSucceed ("Successfully added " +++ component +++ " component").

Definition add (component : string) : M unit :=
  action "Fetching component..." "Failed to add component: " (addBody component).

Definition initBody : M unit :=
  checkProjectConfig ;;
  ensureDir ["styles"] ;;
  ensureDir ["components"] ;;
  gitClone REPO_URL TEMP_DIR ;;
  checkVersion ;;
  copy (TEMP_DIR ++ ["packages"; "components"; "styles"; "globals.css"]) ["styles"; "globals.css"] ;;
  copy (TEMP_DIR ++ ["tailwind.config.js"]) ["tailwind.config.js"] ;;
  copy (TEMP_DIR ++ ["postcss.config.js"]) ["postcss.config.js"] ;;
  packageJson <- readJson ["package.json"] ;;
  writeManifest packageJson ;;
  spinSucceed "Successfully initialized solo-ui!" ;;
  consoleLog (nl +++ "Next steps:") ;;
  consoleLog "1. Run 'npm install' or 'pnpm install' to install dependencies" ;;
  consoleLog "2. Import 'styles/globals.css' in your main application file" ;;
  consoleLog "3. Start using solo-ui components with 'solo-ui add <component>'".

Definition init : M unit :=
  action "Initializing solo-ui..." "Failed to initialize: " initBody.

Definition listBody : M unit :=
  ensureDir TEMP_DIR ;;
  gitClone REPO_URL TEMP_DIR ;;
  let componentsDir := TEMP_DIR ++ ["packages"; "components"] in
  components <- readdir componentsDir ;;
  spinStop ;;
  component <- promptSelect components ;;
  match component with
  | Some c =>
      if truthy_str component then
        let componentPath := join componentsDir c in
        let targetPath := join ["components"] c in
        copy componentPath targetPath ;;
        mergeStyles componentPath ;;
        spinSucceed ("Successfully added " +++ c +++ " component")
      else ret tt
  | None => ret tt
  end.

Definition list : M unit :=
  action "Fetching components..." "Failed to fetch components: " listBody.

End CliPkg.

(** ** [unnamed/part_001] *)
Module CliSrc.

(** The match of [/content:\s*\[[^]*?\]/] starting at the head of [s]: the
    text after it.  [\s] is read as ASCII white space. *)
Definition is_space (a : ascii) : bool :=
  match Ascii.nat_of_ascii a with 9 | 10 | 11 | 12 | 13 | 32 => true | _ => false end.

Fixpoint skip_spaces (s : string) : string :=
  match s with
  | String a s' => if is_space a then skip_spaces s' else s
  | EmptyString => s
  end.

Fixpoint after_close (s : string) : option string :=
  match s with
  | EmptyString => None
  | String a s' => if Ascii.eqb a "]"%char then Some s' else after_close s'
  end.

Fixpoint drop_chars (n : nat) (s : string) : string :=
  match n, s with
  | S n', String _ s' => drop_chars n' s'
  | _, _ => s
  end.

Definition match_content_at (s : string) : option string :=
  if starts_with "content:" s then
    match skip_spaces (drop_chars 8 s) with
    | String a r => if Ascii.eqb a "["%char then after_close r else None
    | EmptyString => None
    end
  else None.

Definition contentReplacement : string := "content: [" +++ String dquote ("./src/**/*.{js,ts,jsx,tsx}" +++ String dquote "]").

(** [config.replace(/content:\s*\[[^]*?\]/, 'content: ["./src/**/*.{js,ts,jsx,tsx}"]')]:
    the first match only. *)
Fixpoint replace_content (s : string) : string :=
  match match_content_at s with
  | Some rest => contentReplacement +++ rest
  | None =>
      match s with
      | EmptyString => s
      | String a s' => String a (replace_content s')
      end
  end.

Definition modifyTailwindConfig (configPath : path) : M unit :=
  config <- readFile configPath ;;
  writeFile configPath (replace_content config).

(** [path.join(process.cwd(), "src/styles/globals.css")] *)
Definition globalStylePath : path := ["src"; "styles"; "globals.css"].

Definition mergeStyles (componentPath : path) : M unit :=
  mergeStylesAt globalStylePath componentPath.

Definition addBody (component : string) : M unit :=
  checkProjectConfig ;;
  ensureDir TEMP_DIR ;;
  ensureDir ["src"; "components"] ;;
  gitClone REPO_URL TEMP_DIR ;;
  checkComponentDependencies component ;;
  let componentPath := join (TEMP_DIR ++ ["packages"; "components"]) component in
  let targetPath := join ["src"; "components"] component in
  found <- pathExists componentPath ;;
  if negb found
  then throw (Thrown ("Component " +++ component +++ " not found in solo-ui components")) else
  copy componentPath targetPath ;;
  mergeStyles componentPath ;;
  spinSucceed ("Successfully added " +++ component +++ " component to src/components/" +++ component).

Definition add (component : string) : M unit :=
  action "Fetching component..." "Failed to add component: " (addBody component).

Definition initBody : M unit :=
  checkProjectConfig ;;
  ensureDir ["src"; "styles"] ;;
  ensureDir ["src"; "components"] ;;
  gitClone REPO_URL TEMP_DIR ;;
  copy (TEMP_DIR ++ ["packages"; "components"; "styles"; "globals.css"]) ["src"; "styles"; "globals.css"] ;;
  copy (TEMP_DIR ++ ["tailwind.config.js"]) ["tailwind.config.js"] ;;
  modifyTailwindConfig ["tailwind.config.js"] ;;
  copy (TEMP_DIR ++ ["postcss.config.js"]) ["postcss.config.js"] ;;
  packageJson <- readJson ["package.json"] ;;
  writeManifest packageJson ;;
  spinSucceed "Successfully initialized solo-ui!" ;;
  consoleLog (nl +++ "Next steps:") ;;
  consoleLog "1. Run 'npm install' or 'pnpm install' to install dependencies" ;;
  consoleLog "2. Import 'src/styles/globals.css' in your main application file" ;;
  consoleLog "3. Start using solo-ui components with 'solo-ui add <component>'".

Definition init : M unit :=
  action "Initializing solo-ui..." "Failed to initialize: " initBody.

(** The predicate of [items.filter(...)]. *)
Definition keepItem (componentsDir : path) (name : string) : M bool :=
  if starts_with "." name then ret false
  else if str_mem name ["styles"; "package.json"; "node_modules"] then ret false
  else statIsDirectory (componentsDir ++ [name]).

Fixpoint filterM (f : string -> M bool) (l : list string) : M (list string) :=
  match l with
  | [] => ret []
  | x :: l' => b <- f x ;; r <- filterM f l' ;; ret (if b then x :: r else r)
  end.

Definition listBody : M unit :=
  ensureDir TEMP_DIR ;;
  gitClone REPO_URL TEMP_DIR ;;
  let componentsDir := TEMP_DIR ++ ["packages"; "components"] in
  items <- readdir componentsDir ;;
  components <- filterM (keepItem componentsDir) items ;;
  spinStop ;;
  if Nat.eqb (length components) 0 then spinInfo "No components available" else
  component <- promptSelect components ;;
  match component with
  | Some c =>
      if truthy_str component then
        ensureDir ["src"; "components"] ;;
        let componentPath := join componentsDir c in
        let targetPath := join ["src"; "components"] c in
        copy componentPath targetPath ;;
        mergeStyles componentPath ;;
        spinSucceed ("Successfully added " +++ c +++ " component to src/components/" +++ c)
      else ret tt
  | None => ret tt
  end.

Definition list : M unit :=
  action "Fetching components..." "Failed to fetch components: " listBody.

End CliSrc.

(** ** The six commands of the two sources *)

Inductive command : Type :=
| PkgAdd (component : string)
| PkgInit
| PkgList
| SrcAdd (component : string)
| SrcInit
| SrcList.

Definition run (cmd : command) : M unit :=
  match cmd with
  | PkgAdd c => CliPkg.add c
  | PkgInit => CliPkg.init
  | PkgList => CliPkg.list
  | SrcAdd c => CliSrc.add c
  | SrcInit => CliSrc.init
  | SrcList => CliSrc.list
  end.

Definition body_of (cmd : command) : M unit :=
  match cmd with
  | PkgAdd c => CliPkg.addBody c
  | PkgInit => CliPkg.initBody
  | PkgList => CliPkg.listBody
  | SrcAdd c => CliSrc.addBody c
  | SrcInit => CliSrc.initBody
  | SrcList => CliSrc.listBody
  end.

(** The spinner's text ([ora(...)]) and the prefix of its failure message. *)
Definition start_text (cmd : command) : string :=
  match cmd with
  | PkgAdd _ | SrcAdd _ => "Fetching component..."
  | PkgInit | SrcInit => "Initializing solo-ui..."
  | PkgList | SrcList => "Fetching components..."
  end.

Definition fail_prefix (cmd : command) : string :=
  match cmd with
  | PkgAdd _ | SrcAdd _ => "Failed to add component: "
  | PkgInit | SrcInit => "Failed to initialize: "
  | PkgList | SrcList => "Failed to fetch components: "
  end.

(** The commands that start with [checkProjectConfig]. *)
Definition needs_project (cmd : command) : bool :=
  match cmd with
  | PkgAdd _ | PkgInit | SrcAdd _ | SrcInit => true
  | PkgList | SrcList => false
  end.

(** ** Sample inputs: the solo-ui repository layout and a fresh project *)

Definition sample_catalog : entries :=
  [("button", Dir [("index.tsx", File "btn"); ("styles.css", File ".btn{}")]);
   ("styles", Dir [("globals.css", File "@tailwind base;")]);
   ("package.json", Json (JObj [("version", JStr "1.0.0")]))].

Definition sample_remote_with (catalog : entries) : entries :=
  [("packages", Dir [("components", Dir catalog)]);
   ("tailwind.config.js", File "module.exports = { content: [ './x' ], theme: {} }");
   ("postcss.config.js", File "pc");
   ("package.json", Json (JObj [("version", JStr "1.0.0")]))].

Definition sample_remote : entries := sample_remote_with sample_catalog.

(** Network up, removals succeed, the first choice is picked. *)
Definition sample_env : env := mkEnv sample_remote true true (Some 0).

Definition sample_project : entries := [("package.json", Json (JObj [("name", JStr "app")]))].

Definition sample_state : state := mkState sample_project [].

(** A fetched component whose style fragment is ["b\nb"], and a global
    stylesheet ["b"]. *)
Definition sample_fragment : string := "b" +++ nl +++ "b".

Definition sample_merge_state : state :=
  mkState [("src", Dir [("styles", Dir [("globals.css", File "b")])]);
           (".solo-ui-temp", Dir [("button", Dir [("styles.css", File sample_fragment)])])] [].

(** A repository that also keeps the catalog at the top-level [components]
    directory, which [packages/cli] copies from, and a project that already
    has both global stylesheets. *)
Definition sample_flat_remote : entries :=
  sample_remote ++ [("components", Dir [("button", Dir [("index.tsx", File "btn"); ("styles.css", File ".btn{}")])])].

Definition sample_flat_env : env := mkEnv sample_flat_remote true true (Some 0).

Definition sample_styled_state : state :=
  mkState (sample_project ++ [("src", Dir [("styles", Dir [("globals.css", File "b")])]);
                              ("styles", Dir [("globals.css", File "b")])]) [].

(** ** Predicates and transformers used by the proofs *)

(** [v] is a file, which [fs.ensureDir] cannot go through. *)
Definition blocks (v : option node) : bool :=
  match v with Some (File _) | Some (Json _) => true | _ => false end.

Definition wp {A} (E : env) (m : M A) (Q : res A -> state -> Prop) (st : state) : Prop :=
  Q (fst (m E st)) (snd (m E st)).

(** A computation [frames] the paths satisfying [P] when it leaves their
    lookups unchanged, and is [quiet] when it emits no event. *)
Definition frames {A} (m : M A) (P : path -> Prop) : Prop :=
  forall E st q, P q -> lookup_in q (fs (snd (m E st))) = lookup_in q (fs st).

Definition quiet {A} (m : M A) : Prop := forall E st, log (snd (m E st)) = log st.

Definition apart (p q : path) : Prop := is_prefix p q = false /\ is_prefix q p = false.

Definition readonly {A} (m : M A) : Prop := forall E st, fs (snd (m E st)) = fs st.

(** Where the command skeleton leaves the state: the body runs after the
    spinner starts, a failure is reported on the spinner, and the cleanup
    runs last. *)
Definition after_body (failPrefix : string) (r : res unit) (st1 : state) : state :=
  match r with
  | Ok _ => st1
  | Err e => mkState (fs st1) (log st1 ++ [SpinFail (failPrefix +++ errorMessage e)])
  end.

(** The text [readFile] gives for a node. *)
Definition text_of (n : node) : option string :=
  match n with File t => Some t | Json j => Some (json_text j) | Dir _ => None end.

(** [q] lies strictly below the directory [d]. *)
Definition below (d q : path) : Prop := exists y r, q = d ++ y :: r.

(** The component's fragment [c; styles.css] below the catalog root
    [catalog] of the fetched repository is a readable file. *)
Definition styled_in (catalog : path) (c : string) (E : env) : Prop :=
  exists n, lookup_in (catalog ++ [c; "styles.css"]) (remote E) = Some n /\ text_of n <> None.

(** A computation only ever appends to the log. *)
Definition grows {A} (m : M A) : Prop := forall E st, exists w, log (snd (m E st)) = log st ++ w.

(** No directory of the tree lists a name twice. *)
Fixpoint wf_node (n : node) : bool :=
  match n with
  | Dir es =>
      (fix wf_entries (es : entries) : bool :=
         match es with
         | [] => true
         | (x, c) :: es' => negb (str_mem x (map fst es')) && wf_node c && wf_entries es'
         end) es
  | _ => true
  end.

(** * Proofs *)

(** ** Association lists *)

Section AssocFacts.
Context {A : Type}.

Lemma assoc_set_same (x : string) (v : A) l : assoc x (set_entry x v l) = Some v.
Proof.
  induction l as [|[y w] l IH]; simpl.
  - now rewrite String.eqb_refl.
  - destruct (String.eqb_spec x y) as [->|Hne]; simpl.
    + now rewrite String.eqb_refl.
    + apply String.eqb_neq in Hne. now rewrite Hne.
Qed.

Lemma assoc_set_other (x z : string) (v : A) l :
  x <> z -> assoc z (set_entry x v l) = assoc z l.
Proof.
  intros Hxz. induction l as [|[y w] l IH]; simpl.
  - apply not_eq_sym, String.eqb_neq in Hxz. now rewrite Hxz.
  - destruct (String.eqb_spec x y) as [->|Hne]; simpl.
    + apply not_eq_sym, String.eqb_neq in Hxz. now rewrite Hxz.
    + destruct (String.eqb z y); [reflexivity | exact IH].
Qed.

Lemma assoc_del_same (x : string) (l : list (string * A)) : assoc x (del_entry x l) = None.
Proof.
  unfold del_entry. induction l as [|[y w] l IH]; simpl; [reflexivity|].
  destruct (String.eqb x y) eqn:Hxy; simpl; [exact IH|].
  now rewrite Hxy.
Qed.

Lemma assoc_del_other (x z : string) (l : list (string * A)) :
  x <> z -> assoc z (del_entry x l) = assoc z l.
Proof.
  intros Hxz. unfold del_entry. induction l as [|[y w] l IH]; simpl; [reflexivity|].
  destruct (String.eqb_spec x y) as [->|Hne]; simpl.
  - apply not_eq_sym, String.eqb_neq in Hxz. now rewrite Hxz.
  - destruct (String.eqb z y); [reflexivity | exact IH].
Qed.

End AssocFacts.

(** ** Paths *)

Lemma is_prefix_refl p : is_prefix p p = true.
Proof. induction p; simpl; [reflexivity|]. now rewrite String.eqb_refl. Qed.

Lemma is_prefix_app p q : is_prefix p (p ++ q) = true.
Proof. induction p; simpl; [reflexivity|]. now rewrite String.eqb_refl. Qed.

Lemma is_prefix_spec p q : is_prefix p q = true <-> exists r, q = p ++ r.
Proof.
  revert q. induction p as [|x p IH]; intros q; simpl.
  - split; [eauto | reflexivity].
  - destruct q as [|y q].
    + split; [discriminate | intros [r Hr]; discriminate].
    + rewrite Bool.andb_true_iff, String.eqb_eq, IH. split.
      * intros [-> [r ->]]. eauto.
      * intros [r Hr]. injection Hr as -> ->. eauto.
Qed.

Lemma is_prefix_trans p q r :
  is_prefix p q = true -> is_prefix q r = true -> is_prefix p r = true.
Proof.
  rewrite !is_prefix_spec. intros [a ->] [b ->]. exists (a ++ b). now rewrite app_assoc.
Qed.

Lemma is_prefix_antisym p q :
  is_prefix p q = true -> is_prefix q p = true -> p = q.
Proof.
  rewrite !is_prefix_spec. intros [a Ha] [b Hb].
  assert (Hl : length (p ++ a ++ b) = length p) by (rewrite app_assoc, <- Ha, <- Hb; reflexivity).
  rewrite !length_app in Hl. destruct a; [now rewrite app_nil_r in Ha|]. simpl in Hl. lia.
Qed.

Lemma lookup_app p q n :
  lookup (p ++ q) n = match lookup p n with Some m => lookup q m | None => None end.
Proof.
  revert n. induction p as [|x p IH]; intros n; simpl; [reflexivity|].
  destruct n as [t|j|es]; try reflexivity.
  destruct (assoc x es); [apply IH | reflexivity].
Qed.

Lemma join_segment base c : valid_segment c = true -> join base c = base ++ [c].
Proof.
  unfold valid_segment, join. intros Hv.
  rewrite !Bool.andb_true_iff, !Bool.negb_true_iff in Hv.
  destruct Hv as [[[He Hd] Hdd] Hs].
  assert (Hsplit : split_slash c = [c]).
  { unfold split_slash.
    assert (Hgen : forall s cur,
               existsb (fun a => Ascii.eqb a "/"%char) (list_ascii_of_string s) = false ->
               split_slash_aux s cur = [cur +++ s]).
    { induction s as [|a s IH]; intros cur Hs'; simpl in *.
      - f_equal. clear. induction cur; simpl; congruence.
      - apply Bool.orb_false_iff in Hs' as [Ha Hs'].
        rewrite Ha, IH by exact Hs'. f_equal.
        clear. induction cur; simpl; congruence. }
    now rewrite Hgen. }
  rewrite Hsplit. simpl. unfold norm_step. rewrite He, Hd, Hdd. simpl.
  now rewrite rev_involutive.
Qed.

(** ** The directory tree *)

Lemma put_frame p q v es :
  is_prefix p q = false -> is_prefix q p = false ->
  lookup_in q (put_in p v es) = lookup_in q es.
Proof.
  revert q es. induction p as [|x p IH]; intros q es H1 H2; [discriminate|].
  destruct q as [|y q]; [discriminate|].
  unfold lookup_in. simpl in H1, H2 |- *.
  destruct (String.eqb_spec x y) as [<-|Hne].
  - rewrite ?String.eqb_refl in H1; rewrite ?String.eqb_refl in H2. simpl in H1, H2.
    destruct p as [|z p']; [discriminate|].
    simpl.
    destruct (assoc x es) as [[t|j|ces]|] eqn:Ha; try (rewrite ?Ha; reflexivity).
    rewrite assoc_set_same. exact (IH q ces H1 H2).
  - destruct p as [|z p'].
    + destruct v as [n|].
      * now rewrite assoc_set_other.
      * now rewrite assoc_del_other.
    + destruct (assoc x es) as [[t|j|ces]|]; try reflexivity.
      now rewrite assoc_set_other.
Qed.

Lemma put_in_deep x z p v es :
  put_in (x :: z :: p) v es =
  match assoc x es with
  | Some (Dir ces) => set_entry x (Dir (put_in (z :: p) v ces)) es
  | _ => es
  end.
Proof. reflexivity. Qed.

Lemma lookup_in_cons x p es :
  lookup_in (x :: p) es = match assoc x es with Some c => lookup p c | None => None end.
Proof. reflexivity. Qed.

Lemma put_none_same p es : p <> [] -> lookup_in p (put_in p None es) = None.
Proof.
  revert es. induction p as [|x p IH]; intros es Hp; [congruence|].
  destruct p as [|z p'].
  - unfold lookup_in. simpl. now rewrite assoc_del_same.
  - rewrite put_in_deep, lookup_in_cons.
    destruct (assoc x es) as [[t|j|ces]|] eqn:Ha; try (rewrite Ha; reflexivity).
    rewrite assoc_set_same. apply (IH ces). discriminate.
Qed.

Lemma put_some_self p n es :
  p <> [] ->
  lookup_in p (put_in p (Some n) es) = Some n \/
  (put_in p (Some n) es = es /\ lookup_in p es = None).
Proof.
  revert es. induction p as [|x p IH]; intros es Hp; [congruence|].
  destruct p as [|z p'].
  - left. unfold lookup_in. simpl. now rewrite assoc_set_same.
  - rewrite put_in_deep, !lookup_in_cons.
    destruct (assoc x es) as [[t|j|ces]|] eqn:Ha; try (right; rewrite ?Ha; auto; fail).
    rewrite assoc_set_same.
    destruct (IH ces) as [H|[H1 H2]]; [discriminate| left; exact H |].
    rewrite H1. right. split; [|exact H2].
    clear -Ha. induction es as [|[y w] es IHes]; simpl in *; [discriminate|].
    destruct (String.eqb x y); [congruence | now rewrite IHes].
Qed.

(** Creating a directory where nothing was changes no lookup except at the
    prefixes of the new directory. *)
Lemma put_fresh_frame p q es :
  lookup_in p es = None -> is_prefix q p = false ->
  lookup_in q (put_in p (Some (Dir [])) es) = lookup_in q es.
Proof.
  intros Hp Hqp. destruct (is_prefix p q) eqn:Hpq.
  - apply is_prefix_spec in Hpq as [r ->].
    assert (Hpn : p <> []) by (intros ->; discriminate).
    destruct r as [|y r]; [rewrite app_nil_r, is_prefix_refl in Hqp; discriminate|].
    unfold lookup_in in *. rewrite !lookup_app, Hp.
    destruct (put_some_self p (Dir []) es Hpn) as [H|[H1 _]].
    + unfold lookup_in in H. now rewrite H.
    + rewrite H1, Hp. reflexivity.
  - now apply put_frame.
Qed.

(** ** Directory creation *)

Lemma mkdirp_cons pre x rest es :
  mkdirp pre (x :: rest) es =
  match lookup_in (pre ++ [x]) es with
  | Some (Dir _) => mkdirp (pre ++ [x]) rest es
  | Some _ => Err (match rest with [] => EEXIST (pre ++ [x]) | _ => ENOTDIR (pre ++ [x]) end)
  | None => mkdirp (pre ++ [x]) rest (put_in (pre ++ [x]) (Some (Dir [])) es)
  end.
Proof. reflexivity. Qed.

Lemma is_prefix_length p q : is_prefix p q = true -> length p <= length q.
Proof. rewrite is_prefix_spec. intros [r ->]. rewrite length_app. lia. Qed.

Lemma is_prefix_snoc pre x rest :
  is_prefix (pre ++ [x]) (pre ++ x :: rest) = true.
Proof.
  rewrite is_prefix_spec. exists rest. now rewrite <- app_assoc.
Qed.

Lemma mkdirp_frame rest : forall pre es es',
  mkdirp pre rest es = Ok es' ->
  forall q, is_prefix q (pre ++ rest) = false -> lookup_in q es' = lookup_in q es.
Proof.
  induction rest as [|x rest IH]; intros pre es es' H q Hq.
  - simpl in H. injection H as <-. reflexivity.
  - rewrite mkdirp_cons in H.
    assert (Hq' : is_prefix q ((pre ++ [x]) ++ rest) = false) by now rewrite <- app_assoc.
    destruct (lookup_in (pre ++ [x]) es) as [[t|j|ces]|] eqn:Hl; try discriminate.
    + exact (IH _ _ _ H q Hq').
    + rewrite (IH _ _ _ H q Hq'). apply put_fresh_frame; [exact Hl|].
      destruct (is_prefix q (pre ++ [x])) eqn:Hqx; [|reflexivity].
      rewrite (is_prefix_trans _ _ _ Hqx (is_prefix_snoc pre x rest)) in Hq. discriminate.
Qed.

Lemma mkdirp_ok rest : forall pre es,
  (forall q, is_prefix q (pre ++ rest) = true -> is_prefix pre q = true -> q <> pre ->
             blocks (lookup_in q es) = false) ->
  exists es', mkdirp pre rest es = Ok es'.
Proof.
  induction rest as [|x rest IH]; intros pre es Hb; [now exists es|].
  rewrite mkdirp_cons.
  assert (Hlen : forall q, is_prefix (pre ++ [x]) q = true -> q <> pre).
  { intros q Hq ->. apply is_prefix_length in Hq. rewrite length_app in Hq. simpl in Hq. lia. }
  assert (Hpx : is_prefix pre (pre ++ [x]) = true) by apply is_prefix_app.
  assert (Hx := Hb (pre ++ [x]) (is_prefix_snoc pre x rest) Hpx (Hlen _ (is_prefix_refl _))).
  assert (Hsub : forall q, is_prefix q ((pre ++ [x]) ++ rest) = true ->
                 is_prefix (pre ++ [x]) q = true -> q <> pre ++ [x] ->
                 blocks (lookup_in q es) = false).
  { intros q H1 H2 H3. rewrite <- app_assoc in H1. apply Hb; [exact H1| |exact (Hlen _ H2)].
    exact (is_prefix_trans _ _ _ Hpx H2). }
  destruct (lookup_in (pre ++ [x]) es) as [[t|j|ces]|] eqn:Hl; try discriminate.
  - exact (IH _ _ Hsub).
  - apply IH. intros q H1 H2 H3.
    rewrite put_fresh_frame; [exact (Hsub q H1 H2 H3) | exact Hl |].
    destruct (is_prefix q (pre ++ [x])) eqn:Hq; [|reflexivity].
    exfalso. exact (H3 (is_prefix_antisym _ _ Hq H2)).
Qed.

(** ** A weakest-precondition calculus for the runtime monad *)

Section Wp.
Context (E : env).

Lemma wp_bind {A B} (m : M A) (k : A -> M B) Q st :
  wp E m (fun r st' => match r with Ok a => wp E (k a) Q st' | Err e => Q (Err e) st' end) st ->
  wp E (bind m k) Q st.
Proof. unfold wp, bind. destruct (m E st) as [[a|e] st']; simpl; auto. Qed.

Lemma wp_ret {A} (a : A) Q st : Q (Ok a) st -> wp E (ret a) Q st.
Proof. auto. Qed.

Lemma wp_throw {A} e (Q : res A -> state -> Prop) st : Q (Err e) st -> wp E (throw e) Q st.
Proof. auto. Qed.

Lemma wp_emit ev Q st : Q (Ok tt) (mkState (fs st) (log st ++ [ev])) -> wp E (emit ev) Q st.
Proof. auto. Qed.

Lemma wp_get_fs Q st : Q (Ok (fs st)) st -> wp E get_fs Q st.
Proof. auto. Qed.

Lemma wp_set_fs es Q st : Q (Ok tt) (mkState es (log st)) -> wp E (set_fs es) Q st.
Proof. auto. Qed.

Lemma wp_ask Q st : Q (Ok E) st -> wp E ask Q st.
Proof. auto. Qed.

Lemma wp_tryCatch {A} (m : M A) h Q st :
  wp E m (fun r st' => match r with Err e => wp E (h e) Q st' | Ok a => Q (Ok a) st' end) st ->
  wp E (tryCatch m h) Q st.
Proof. unfold wp, tryCatch. destruct (m E st) as [[a|e] st']; simpl; auto. Qed.

Lemma wp_tryFinally {A} (m : M A) f Q st :
  wp E m (fun r st1 =>
    wp E f (fun r2 st2 => match r2 with Ok _ => Q r st2 | Err e => Q (Err e) st2 end) st1) st ->
  wp E (tryFinally m f) Q st.
Proof.
  unfold wp, tryFinally. destruct (m E st) as [r st1]; simpl.
  destruct (f E st1) as [[u|e] st2]; simpl; auto.
Qed.

Lemma wp_conseq {A} (m : M A) (Q1 Q2 : res A -> state -> Prop) st :
  (forall r st', Q1 r st' -> Q2 r st') -> wp E m Q1 st -> wp E m Q2 st.
Proof. unfold wp. auto. Qed.

Lemma wp_if {A} (b : bool) (m1 m2 : M A) Q st :
  (b = true -> wp E m1 Q st) -> (b = false -> wp E m2 Q st) ->
  wp E (if b then m1 else m2) Q st.
Proof. destruct b; auto. Qed.

End Wp.

Lemma wp_frame {A} E (m : M A) P (Q : res A -> state -> Prop) st :
  frames m P -> quiet m ->
  (forall r st', (forall q, P q -> lookup_in q (fs st') = lookup_in q (fs st)) ->
                 log st' = log st -> Q r st') ->
  wp E m Q st.
Proof. intros Hf Hq HQ. unfold wp. apply HQ; [intros q Hp; exact (Hf E st q Hp) | apply Hq]. Qed.

Lemma frames_bind {A B} (m : M A) (k : A -> M B) P :
  frames m P -> (forall a, frames (k a) P) -> frames (bind m k) P.
Proof.
  intros Hm Hk E st q Hq. unfold bind. specialize (Hm E st q Hq).
  destruct (m E st) as [[a|e] st'] eqn:H; simpl in *; [rewrite (Hk a E st' q Hq)|]; exact Hm.
Qed.

Lemma quiet_bind {A B} (m : M A) (k : A -> M B) :
  quiet m -> (forall a, quiet (k a)) -> quiet (bind m k).
Proof.
  intros Hm Hk E st. unfold bind. specialize (Hm E st).
  destruct (m E st) as [[a|e] st'] eqn:H; simpl in *; [rewrite (Hk a E st')|]; exact Hm.
Qed.

Lemma frames_weaken {A} (m : M A) (P P' : path -> Prop) :
  frames m P -> (forall q, P' q -> P q) -> frames m P'.
Proof. intros H Hi E st q Hq. exact (H E st q (Hi q Hq)). Qed.

Lemma frames_wp {A} (m : M A) (P : path -> Prop) :
  (forall E st q, P q -> wp E m (fun _ st' => lookup_in q (fs st') = lookup_in q (fs st)) st) ->
  frames m P.
Proof. unfold frames, wp. auto. Qed.

Lemma quiet_wp {A} (m : M A) :
  (forall E st, wp E m (fun _ st' => log st' = log st) st) -> quiet m.
Proof. unfold quiet, wp. auto. Qed.

Ltac unfold_m :=
  cbv [wp bind ret throw get_fs set_fs emit ask tryCatch tryFinally fst snd].

Ltac destruct_matches :=
  repeat match goal with
         | |- context [match ?x with _ => _ end] => destruct x
         end.

(** ** The primitives, one rule each *)

Section Rules.
Context (E : env).

Lemma wp_pathExists p Q st :
  Q (Ok (match lookup_in p (fs st) with Some _ => true | None => false end)) st ->
  wp E (pathExists p) Q st.
Proof. auto. Qed.

Lemma wp_readFile p Q st :
  match lookup_in p (fs st) with
  | Some (File t) => Q (Ok t) st
  | Some (Json j) => Q (Ok (json_text j)) st
  | Some (Dir _) => Q (Err (EISDIR p)) st
  | None => Q (Err (ENOENT "open" p)) st
  end -> wp E (readFile p) Q st.
Proof. unfold readFile. unfold_m. destruct (lookup_in p (fs st)) as [[]|]; auto. Qed.

Lemma wp_readJson p Q st :
  match lookup_in p (fs st) with
  | Some (Json j) => Q (Ok j) st
  | Some (File _) => Q (Err (JsonParseError p)) st
  | Some (Dir _) => Q (Err (EISDIR p)) st
  | None => Q (Err (ENOENT "open" p)) st
  end -> wp E (readJson p) Q st.
Proof. unfold readJson. unfold_m. destruct (lookup_in p (fs st)) as [[]|]; auto. Qed.

Lemma wp_readdir p Q st :
  match lookup_in p (fs st) with
  | Some (Dir ces) => Q (Ok (map fst ces)) st
  | Some _ => Q (Err (ENOTDIR p)) st
  | None => Q (Err (ENOENT "scandir" p)) st
  end -> wp E (readdir p) Q st.
Proof. unfold readdir. unfold_m. destruct (lookup_in p (fs st)) as [[]|]; auto. Qed.

Lemma wp_statIsDirectory p Q st :
  match lookup_in p (fs st) with
  | Some n => Q (Ok (is_dir (Some n))) st
  | None => Q (Err (ENOENT "stat" p)) st
  end -> wp E (statIsDirectory p) Q st.
Proof. unfold statIsDirectory. unfold_m. destruct (lookup_in p (fs st)); auto. Qed.

Lemma wp_ensureDir p Q st :
  match mkdirp [] p (fs st) with
  | Ok es' => Q (Ok tt) (mkState es' (log st))
  | Err e => Q (Err e) st
  end -> wp E (ensureDir p) Q st.
Proof. unfold ensureDir. unfold_m. destruct (mkdirp [] p (fs st)); auto. Qed.

Lemma wp_remove p Q st :
  (if remove_ok E then Q (Ok tt) (mkState (put_in p None (fs st)) (log st))
   else Q (Err (EPERM p)) st) -> wp E (remove p) Q st.
Proof. unfold remove. unfold_m. destruct (remove_ok E); auto. Qed.

Lemma wp_gitClone url dst Q st :
  match lookup_in dst (fs st) with
  | Some (Dir (_ :: _)) | Some (File _) | Some (Json _) =>
      Q (Err (GitError ("fatal: destination path '" +++ show_path dst
                        +++ "' already exists and is not an empty directory."))) st
  | _ =>
      if network_up E
      then Q (Ok tt) (mkState (put_in dst (Some (Dir (remote E))) (fs st)) (log st ++ [Net url]))
      else Q (Err (NetworkError url)) (mkState (fs st) (log st ++ [Net url]))
  end -> wp E (gitClone url dst) Q st.
Proof.
  unfold gitClone. unfold_m.
  destruct (lookup_in dst (fs st)) as [[t|j|[|x es]]|]; destruct (network_up E); auto.
Qed.

Lemma wp_appendFile p s Q st :
  match lookup_in p (fs st) with
  | Some (File t) => Q (Ok tt) (mkState (put_in p (Some (File (t +++ s))) (fs st)) (log st))
  | Some (Json j) => Q (Ok tt) (mkState (put_in p (Some (File (json_text j +++ s))) (fs st)) (log st))
  | Some (Dir _) => Q (Err (EISDIR p)) st
  | None =>
      if is_dir (lookup_in (removelast p) (fs st))
      then Q (Ok tt) (mkState (put_in p (Some (File s)) (fs st)) (log st))
      else Q (Err (ENOENT "open" p)) st
  end -> wp E (appendFile p s) Q st.
Proof.
  unfold appendFile. unfold_m.
  destruct (lookup_in p (fs st)) as [[]|]; [| | |destruct (is_dir (lookup_in (removelast p) (fs st)))]; auto.
Qed.

Lemma wp_promptSelect choices Q st :
  Q (Ok (match answer E with Some i => nth_error choices i | None => None end))
    (mkState (fs st) (log st ++ [Prompt choices])) ->
  wp E (promptSelect choices) Q st.
Proof. auto. Qed.

End Rules.

(** ** Read-only computations *)

Lemma readonly_frames {A} (m : M A) P : readonly m -> frames m P.
Proof. intros H E st q _. now rewrite H. Qed.

Lemma readonly_bind {A B} (m : M A) (k : A -> M B) :
  readonly m -> (forall a, readonly (k a)) -> readonly (bind m k).
Proof.
  intros Hm Hk E st. unfold bind. specialize (Hm E st).
  destruct (m E st) as [[a|e] st'] eqn:H; simpl in *; [rewrite (Hk a E st')|]; exact Hm.
Qed.

Lemma readonly_ret {A} (a : A) : readonly (ret a).
Proof. intros E st. reflexivity. Qed.

Lemma readonly_throw {A} e : readonly (@throw A e).
Proof. intros E st. reflexivity. Qed.

Lemma readonly_emit ev : readonly (emit ev).
Proof. intros E st. reflexivity. Qed.

Lemma readonly_get_fs : readonly get_fs.
Proof. intros E st. reflexivity. Qed.

Lemma readonly_ask : readonly ask.
Proof. intros E st. reflexivity. Qed.

Lemma readonly_tryCatch {A} (m : M A) h :
  readonly m -> (forall e, readonly (h e)) -> readonly (tryCatch m h).
Proof.
  intros Hm Hh E st. unfold tryCatch. specialize (Hm E st).
  destruct (m E st) as [[a|e] st'] eqn:H; simpl in *; [|rewrite (Hh e E st')]; exact Hm.
Qed.

Ltac solve_readonly :=
  repeat first
    [ apply readonly_bind; [|intros ?]
    | apply readonly_tryCatch; [|intros ?]
    | apply readonly_ret | apply readonly_throw | apply readonly_emit
    | apply readonly_get_fs | apply readonly_ask
    | match goal with
      | |- readonly (match ?x with _ => _ end) => destruct x
      | |- readonly (if ?b then _ else _) => destruct b
      end ].

Lemma readonly_pathExists p : readonly (pathExists p).
Proof. unfold pathExists. solve_readonly. Qed.

Lemma readonly_readFile p : readonly (readFile p).
Proof. unfold readFile. solve_readonly. Qed.

Lemma readonly_readJson p : readonly (readJson p).
Proof. unfold readJson. solve_readonly. Qed.

Lemma readonly_readdir p : readonly (readdir p).
Proof. unfold readdir. solve_readonly. Qed.

Lemma readonly_statIsDirectory p : readonly (statIsDirectory p).
Proof. unfold statIsDirectory. solve_readonly. Qed.

Lemma readonly_promptSelect l : readonly (promptSelect l).
Proof. unfold promptSelect. solve_readonly. Qed.

Lemma readonly_prop j k : readonly (prop j k).
Proof. unfold prop. solve_readonly. Qed.

Lemma readonly_checkProjectConfig : readonly checkProjectConfig.
Proof.
  unfold checkProjectConfig. apply readonly_bind; [apply readonly_pathExists|intros b].
  solve_readonly.
Qed.

Lemma readonly_checkComponentDependencies c : readonly (checkComponentDependencies c).
Proof.
  unfold checkComponentDependencies. apply readonly_bind; [apply readonly_pathExists|intros b].
  destruct b; [apply readonly_bind; [apply readonly_readFile|intros ?]|]; solve_readonly.
Qed.

Lemma readonly_checkVersion : readonly CliPkg.checkVersion.
Proof.
  unfold CliPkg.checkVersion, consoleWarn. apply readonly_tryCatch; [|intros; apply readonly_emit].
  apply readonly_bind; [apply readonly_readJson|intros j1].
  apply readonly_bind; [apply readonly_readJson|intros j2].
  apply readonly_bind; [apply readonly_prop|intros v1].
  apply readonly_bind; [apply readonly_prop|intros v2].
  solve_readonly.
Qed.

Lemma wp_readonly {A} E (m : M A) (Q : res A -> state -> Prop) st :
  readonly m -> (forall r st', fs st' = fs st -> Q r st') -> wp E m Q st.
Proof. intros H HQ. apply HQ, H. Qed.

(** ** The cleanup and the command skeleton *)

Lemma wp_cleanupTemp E Q st :
  match lookup_in TEMP_DIR (fs st) with
  | None => Q (Ok tt) st
  | Some _ =>
      if remove_ok E then Q (Ok tt) (mkState (put_in TEMP_DIR None (fs st)) (log st))
      else Q (Ok tt) (mkState (fs st) (log st ++ [Warn "Failed to clean up temporary directory"]))
  end -> wp E cleanupTemp Q st.
Proof.
  unfold cleanupTemp, pathExists, remove, consoleWarn. unfold_m.
  destruct (lookup_in TEMP_DIR (fs st)); [destruct (remove_ok E)|]; auto.
Qed.

Lemma cleanupTemp_ok E st : fst (cleanupTemp E st) = Ok tt.
Proof.
  apply (wp_cleanupTemp E (fun r _ => r = Ok tt)).
  destruct (lookup_in TEMP_DIR (fs st)); [destruct (remove_ok E)|]; reflexivity.
Qed.

Lemma cleanupTemp_eq E st : cleanupTemp E st = (Ok tt, snd (cleanupTemp E st)).
Proof. rewrite <- (cleanupTemp_ok E st). apply surjective_pairing. Qed.

Lemma action_eq s p body E st :
  action s p body E st =
  cleanupTemp E (let '(r, st1) := body E (mkState (fs st) (log st ++ [SpinStart s])) in
                 after_body p r st1).
Proof.
  unfold action, spinStart, spinFail, bind, emit, tryFinally, tryCatch.
  destruct (body E (mkState (fs st) (log st ++ [SpinStart s]))) as [[[]|e] st1]; simpl;
    rewrite cleanupTemp_eq; reflexivity.
Qed.

Lemma run_action cmd : run cmd = action (start_text cmd) (fail_prefix cmd) (body_of cmd).
Proof. destruct cmd; reflexivity. Qed.

Lemma bind_err {A B} (m : M A) (k : A -> M B) E st e st' :
  m E st = (Err e, st') -> bind m k E st = (Err e, st').
Proof. intros H. unfold bind. now rewrite H. Qed.

Lemma bind_ok {A B} (m : M A) (k : A -> M B) E st a st' :
  m E st = (Ok a, st') -> bind m k E st = k a E st'.
Proof. intros H. unfold bind. now rewrite H. Qed.

Lemma checkProjectConfig_missing E st :
  lookup_in ["package.json"] (fs st) = None ->
  checkProjectConfig E st = (Err (Thrown notAProjectMessage), st).
Proof. intros H. unfold checkProjectConfig, pathExists. unfold_m. now rewrite H. Qed.

Lemma checkProjectConfig_present E st :
  lookup_in ["package.json"] (fs st) <> None ->
  checkProjectConfig E st = (Ok tt, st).
Proof.
  intros H. unfold checkProjectConfig, pathExists. unfold_m.
  destruct (lookup_in ["package.json"] (fs st)); [reflexivity|congruence].
Qed.

Lemma body_needs_project cmd E st :
  needs_project cmd = true -> lookup_in ["package.json"] (fs st) = None ->
  body_of cmd E st = (Err (Thrown notAProjectMessage), st).
Proof.
  intros Hc Hp. destruct cmd; try discriminate; simpl;
    apply bind_err; apply checkProjectConfig_missing; exact Hp.
Qed.

Lemma cleanupTemp_end E st :
  lookup_in TEMP_DIR (fs (snd (cleanupTemp E st))) = None \/
  (remove_ok E = false /\
   fs (snd (cleanupTemp E st)) = fs st /\
   log (snd (cleanupTemp E st)) = log st ++ [Warn "Failed to clean up temporary directory"]).
Proof.
  apply (wp_cleanupTemp E (fun _ st' =>
           lookup_in TEMP_DIR (fs st') = None \/
           (remove_ok E = false /\ fs st' = fs st /\
            log st' = log st ++ [Warn "Failed to clean up temporary directory"]))).
  destruct (lookup_in TEMP_DIR (fs st)) eqn:H; [|left; reflexivity].
  destruct (remove_ok E) eqn:Hr.
  - left. simpl. apply put_none_same. discriminate.
  - right. simpl. auto.
Qed.

Lemma cleanupTemp_removed E st :
  remove_ok E = true -> lookup_in TEMP_DIR (fs (snd (cleanupTemp E st))) = None.
Proof.
  intros Hr. destruct (cleanupTemp_end E st) as [H|[H _]]; [exact H|congruence].
Qed.

Lemma cleanupTemp_absent E st :
  lookup_in TEMP_DIR (fs st) = None -> cleanupTemp E st = (Ok tt, st).
Proof. intros H. unfold cleanupTemp, pathExists. unfold_m. now rewrite H. Qed.

Lemma cleanupTemp_frames : frames cleanupTemp (apart TEMP_DIR).
Proof.
  apply frames_wp. intros E st q [H1 H2]. apply wp_cleanupTemp.
  destruct (lookup_in TEMP_DIR (fs st)); [destruct (remove_ok E)|]; cbn [fs]; try reflexivity.
  now apply put_frame.
Qed.

Lemma cleanupTemp_log E st :
  log (snd (cleanupTemp E st)) = log st \/
  log (snd (cleanupTemp E st)) = log st ++ [Warn "Failed to clean up temporary directory"].
Proof.
  apply (wp_cleanupTemp E (fun _ st' => log st' = log st \/
           log st' = log st ++ [Warn "Failed to clean up temporary directory"])).
  destruct (lookup_in TEMP_DIR (fs st)); [destruct (remove_ok E)|]; simpl; auto.
Qed.

(** * The claims *)

(** ** C9 *)

(** C9: whatever stage of [init], [add] or [list] fails, the error is
    caught at the command boundary: the command itself always returns
    normally, and a failure [e] of the pipeline becomes the spinner's
    failure message (the command's prefix followed by [e]'s message), after
    which the cleanup of the scratch directory runs. *)
Theorem commands_catch_errors cmd E st :
  fst (run cmd E st) = Ok tt /\
  (forall e st1,
     body_of cmd E (mkState (fs st) (log st ++ [SpinStart (start_text cmd)])) = (Err e, st1) ->
     run cmd E st =
     cleanupTemp E (mkState (fs st1) (log st1 ++ [SpinFail (fail_prefix cmd +++ errorMessage e)]))).
Proof.
  rewrite run_action, action_eq. split; [apply cleanupTemp_ok|].
  intros e st1 H. now rewrite H.
Qed.

Lemma commands_catch_errors_witness :
  body_of (SrcAdd "button") sample_env (mkState [] [SpinStart "Fetching component..."]) =
    (Err (Thrown notAProjectMessage), mkState [] [SpinStart "Fetching component..."]) /\
  run (SrcAdd "button") sample_env (mkState [] []) =
    cleanupTemp sample_env
      (mkState [] [SpinStart "Fetching component...";
                   SpinFail ("Failed to add component: " +++ notAProjectMessage)]).
Proof.
  split; [vm_compute; reflexivity|].
  refine (proj2 (commands_catch_errors (SrcAdd "button") sample_env (mkState [] []))
            (Thrown notAProjectMessage) (mkState [] [SpinStart "Fetching component..."]) _).
  vm_compute. reflexivity.
Defined.

(** ** C2 *)

(** C2 (as the code has it): at the end of every command the scratch
    directory is gone, unless removing it failed; the cleanup swallows that
    failure, so the directory then stays and the last output is the warning
    "Failed to clean up temporary directory". *)
Theorem commands_cleanup cmd E st :
  lookup_in TEMP_DIR (fs (snd (run cmd E st))) = None \/
  (remove_ok E = false /\
   exists l, log (snd (run cmd E st)) = l ++ [Warn "Failed to clean up temporary directory"]).
Proof.
  rewrite run_action, action_eq.
  destruct (cleanupTemp_end E (let '(r, st1) := body_of cmd E
                                  (mkState (fs st) (log st ++ [SpinStart (start_text cmd)])) in
                               after_body (fail_prefix cmd) r st1)) as [H|[Hr [_ Hl]]].
  - left. exact H.
  - right. split; [exact Hr|]. eexists. exact Hl.
Qed.

(** C2, a counterexample: when the removal fails, [list] ends with the
    scratch directory it created still present. *)
Lemma commands_cleanup_counterexample :
  lookup_in TEMP_DIR
    (fs (snd (run SrcList (mkEnv sample_remote false false None) (mkState [] [])))) = Some (Dir []).
Proof. vm_compute. reflexivity. Qed.

(** ** C4 *)

(** C4 (as the code has it): in a project with no [package.json], [add] and
    [init] fail with the NotAProject message before any network access or
    any other write; the only change to the file system is the unconditional
    cleanup, which removes a scratch directory left there, and nothing else:
    without one the file system is unchanged. *)
Theorem commands_require_project cmd E st :
  needs_project cmd = true -> lookup_in ["package.json"] (fs st) = None ->
  run cmd E st =
    cleanupTemp E (mkState (fs st) (log st ++ [SpinStart (start_text cmd);
                                              SpinFail (fail_prefix cmd +++ notAProjectMessage)])) /\
  (forall q, apart TEMP_DIR q -> lookup_in q (fs (snd (run cmd E st))) = lookup_in q (fs st)) /\
  (lookup_in TEMP_DIR (fs st) = None ->
   run cmd E st = (Ok tt, mkState (fs st) (log st ++ [SpinStart (start_text cmd);
                                                    SpinFail (fail_prefix cmd +++ notAProjectMessage)]))).
Proof.
  intros Hc Hp.
  assert (Hrun : run cmd E st =
    cleanupTemp E (mkState (fs st) (log st ++ [SpinStart (start_text cmd);
                                              SpinFail (fail_prefix cmd +++ notAProjectMessage)]))).
  { rewrite run_action, action_eq, body_needs_project by exact Hp || exact Hc.
    cbn [after_body fs log]. now rewrite <- app_assoc. }
  split; [exact Hrun|split].
  - intros q Hq. rewrite Hrun. exact (cleanupTemp_frames E _ q Hq).
  - intros Ht. rewrite Hrun. apply cleanupTemp_absent. exact Ht.
Qed.

Lemma commands_require_project_witness :
  needs_project SrcInit = true /\ lookup_in ["package.json"] (fs (mkState [] [])) = None /\
  run SrcInit sample_env (mkState [] []) =
    cleanupTemp sample_env (mkState [] [SpinStart "Initializing solo-ui...";
                                        SpinFail ("Failed to initialize: " +++ notAProjectMessage)]).
Proof.
  split; [reflexivity|split; [reflexivity|]].
  apply (commands_require_project SrcInit sample_env (mkState [] [])); reflexivity.
Defined.

(** C4, a counterexample: a scratch directory left by an earlier run is
    removed by the failed [init], so the file system does change. *)
Lemma commands_require_project_counterexample :
  fs (snd (run SrcInit sample_env (mkState [(".solo-ui-temp", Dir [("stale", File "x")])] []))) = [].
Proof. vm_compute. reflexivity. Qed.

(** ** C6 *)

Lemma assoc_not_in {A} k (l : list (string * A)) : ~ In k (map fst l) -> assoc k l = None.
Proof.
  induction l as [|[y w] l IH]; simpl; intros H; [reflexivity|].
  destruct (String.eqb_spec k y) as [->|]; [tauto|]. apply IH. tauto.
Qed.

Lemma assoc_assign_all_other l into k :
  ~ In k (map fst l) -> assoc k (assign_all l into) = assoc k into.
Proof.
  unfold assign_all. revert into. induction l as [|[x v] l IH]; intros into H; simpl in *; [reflexivity|].
  rewrite IH by tauto. apply assoc_set_other. intros ->. tauto.
Qed.

Lemma assoc_assign_all_nodup l into k :
  NoDup (map fst l) ->
  assoc k (assign_all l into) = match assoc k l with Some v => Some v | None => assoc k into end.
Proof.
  unfold assign_all. revert into. induction l as [|[x v] l IH]; intros into Hnd; simpl in *; [reflexivity|].
  inversion Hnd as [|? ? Hx Hnd']; subst.
  rewrite IH by exact Hnd'.
  destruct (String.eqb_spec k x) as [->|Hne].
  - rewrite assoc_not_in by exact Hx. apply assoc_set_same.
  - destruct (assoc k l); [reflexivity|]. apply assoc_set_other. congruence.
Qed.

Lemma assign_devPins into :
  assign_all devPins into =
  set_entry "autoprefixer" (JStr "^10.4.0")
    (set_entry "postcss" (JStr "^8.4.0") (set_entry "tailwindcss" (JStr "^3.4.0") into)).
Proof. reflexivity. Qed.

Lemma devPins_values into :
  assoc "tailwindcss" (assign_all devPins into) = Some (JStr "^3.4.0") /\
  assoc "postcss" (assign_all devPins into) = Some (JStr "^8.4.0") /\
  assoc "autoprefixer" (assign_all devPins into) = Some (JStr "^10.4.0").
Proof.
  rewrite assign_devPins.
  split; [|split]; [rewrite !assoc_set_other by discriminate | | ]; try apply assoc_set_same.
  - rewrite assoc_set_other by discriminate. apply assoc_set_same.
Qed.

(** C6 (as the code has it): the manifest update of [init] sets
    [devDependencies] to the old entries (a falsy value counts as [{}])
    followed by the three pinned entries, keeps every field other than
    [dependencies] and [devDependencies], and keeps [dependencies] when it is
    truthy but otherwise sets it to [{}], a field that is added to a
    manifest that had none. *)
Theorem updateManifest_fields fs0 :
  exists fs',
    updateManifest (JObj fs0) = Ok (JObj fs') /\
    (forall k, k <> "dependencies" -> k <> "devDependencies" -> assoc k fs' = assoc k fs0) /\
    assoc "dependencies" fs' =
      (if truthy (assoc "dependencies" fs0) then assoc "dependencies" fs0 else Some (JObj [])) /\
    exists dev,
      assoc "devDependencies" fs' = Some (JObj dev) /\
      assoc "tailwindcss" dev = Some (JStr "^3.4.0") /\
      assoc "postcss" dev = Some (JStr "^8.4.0") /\
      assoc "autoprefixer" dev = Some (JStr "^10.4.0") /\
      (forall k, ~ In k (map fst devPins) ->
         (truthy (assoc "devDependencies" fs0) = false -> assoc k dev = None) /\
         (forall d, assoc "devDependencies" fs0 = Some (JObj d) -> NoDup (map fst d) ->
            assoc k dev = assoc k d)).
Proof.
  unfold updateManifest.
  set (fs1 := if truthy (assoc "dependencies" fs0) then fs0
              else set_entry "dependencies" (JObj []) fs0).
  set (fs2 := if truthy (assoc "devDependencies" fs1) then fs1
              else set_entry "devDependencies" (JObj []) fs1).
  assert (H1 : forall k, k <> "dependencies" -> assoc k fs1 = assoc k fs0).
  { intros k Hk. unfold fs1. destruct (truthy (assoc "dependencies" fs0)); [reflexivity|].
    apply assoc_set_other. congruence. }
  assert (H2 : forall k, k <> "devDependencies" -> assoc k fs2 = assoc k fs1).
  { intros k Hk. unfold fs2. destruct (truthy (assoc "devDependencies" fs1)); [reflexivity|].
    apply assoc_set_other. congruence. }
  assert (Hdev1 : assoc "devDependencies" fs1 = assoc "devDependencies" fs0) by (apply H1; discriminate).
  eexists. split; [reflexivity|]. split; [|split].
  - intros k Hk1 Hk2. rewrite assoc_set_other by congruence. rewrite H2 by exact Hk2. exact (H1 k Hk1).
  - rewrite assoc_set_other by discriminate. rewrite H2 by discriminate.
    unfold fs1. destruct (truthy (assoc "dependencies" fs0)); [reflexivity|]. apply assoc_set_same.
  - eexists. split; [apply assoc_set_same|].
    destruct (devPins_values (assign_all (spread (assoc "devDependencies" fs2)) [])) as [Ht [Hp Ha]].
    split; [exact Ht|split; [exact Hp|split; [exact Ha|]]].
    intros k Hk. rewrite assoc_assign_all_other by exact Hk.
    assert (Hfs2 : assoc "devDependencies" fs2 =
              if truthy (assoc "devDependencies" fs0) then assoc "devDependencies" fs0
              else Some (JObj [])).
    { unfold fs2. rewrite Hdev1. destruct (truthy (assoc "devDependencies" fs0)); [exact Hdev1|].
      apply assoc_set_same. }
    rewrite Hfs2. split.
    + intros Hf. rewrite Hf. reflexivity.
    + intros d Hd Hnd. rewrite Hd. simpl.
      rewrite assoc_assign_all_nodup by exact Hnd. now destruct (assoc k d).
Qed.

(** C6, a counterexample: [init] on a manifest with no [dependencies] field
    adds one, so not every other field is left as it was. *)
Lemma updateManifest_fields_counterexample :
  lookup_in ["package.json"] (fs (snd (run SrcInit sample_env sample_state))) =
  Some (Json (JObj [("name", JStr "app"); ("dependencies", JObj []); ("devDependencies", JObj devPins)])).
Proof. vm_compute. reflexivity. Qed.

(** ** C1 *)

Lemma str_app_assoc a b c : (a +++ b) +++ c = a +++ (b +++ c).
Proof. induction a as [|x a IH]; simpl; congruence. Qed.

Lemma starts_with_refl s : starts_with s s = true.
Proof. induction s as [|a s IH]; simpl; [reflexivity|]. now rewrite Ascii.eqb_refl, IH. Qed.

Lemma includes_suffix a b : includes (a +++ b) b = true.
Proof.
  induction a as [|x a IH]; simpl.
  - destruct b; simpl; [reflexivity|]. now rewrite Ascii.eqb_refl, starts_with_refl.
  - rewrite IH. apply Bool.orb_true_r.
Qed.

Lemma includes_refl s : includes s s = true.
Proof. exact (includes_suffix EmptyString s). Qed.

Lemma lookup_below_text n x y r : text_of n = Some x -> lookup (y :: r) n = None.
Proof. destruct n; simpl; congruence. Qed.

Lemma mergeStylesAt_eq g cp E st :
  mergeStylesAt g cp E st =
  match lookup_in (cp ++ ["styles.css"]) (fs st) with
  | None => (Ok tt, st)
  | Some ns =>
      match text_of ns with
      | None => (Err (EISDIR (cp ++ ["styles.css"])), st)
      | Some f =>
          match lookup_in g (fs st) with
          | None => (Err (ENOENT "open" g), st)
          | Some ng =>
              match text_of ng with
              | None => (Err (EISDIR g), st)
              | Some t =>
                  if includes t f then (Ok tt, st)
                  else (Ok tt, mkState (put_in g (Some (File (t +++ nl +++ f))) (fs st)) (log st))
              end
          end
      end
  end.
Proof.
  match goal with |- _ = ?rhs => set (R := rhs) end.
  assert (H : wp E (mergeStylesAt g cp) (fun r st' => (r, st') = R) st).
  { unfold mergeStylesAt, R. apply wp_bind, wp_pathExists.
    destruct (lookup_in (cp ++ ["styles.css"]) (fs st)) as [ns|] eqn:Hs; [|reflexivity].
    apply wp_bind, wp_readFile. rewrite Hs.
    destruct ns as [f|jf|ds]; cbn [text_of]; try reflexivity;
    apply wp_bind, wp_readFile;
    destruct (lookup_in g (fs st)) as [[t|jt|dg]|] eqn:Hg; cbn [text_of]; try reflexivity;
    match goal with |- context [includes ?t ?f] => destruct (includes t f) end;
    try reflexivity; apply wp_appendFile; rewrite Hg; reflexivity. }
  unfold wp in H. now rewrite <- surjective_pairing in H.
Qed.

(** Merging the same fragment a second time changes nothing. *)
Lemma mergeStylesAt_idem g cp E st :
  (mergeStylesAt g cp ;; mergeStylesAt g cp) E st = mergeStylesAt g cp E st.
Proof.
  set (s := cp ++ ["styles.css"]).
  destruct (mergeStylesAt g cp E st) as [r st1] eqn:Hm.
  destruct r as [[]|e]; [|exact (bind_err _ _ _ _ _ _ Hm)].
  rewrite (bind_ok _ _ _ _ _ _ Hm).
  rewrite mergeStylesAt_eq in Hm. fold s in Hm.
  destruct (lookup_in s (fs st)) as [ns|] eqn:Hs.
  2: { injection Hm as <-. rewrite mergeStylesAt_eq. fold s. now rewrite Hs. }
  destruct (text_of ns) as [f|] eqn:Hf; [|discriminate].
  destruct (lookup_in g (fs st)) as [ng|] eqn:Hg; [|discriminate].
  destruct (text_of ng) as [t|] eqn:Ht; [|discriminate].
  destruct (includes t f) eqn:Hi.
  { injection Hm as <-. rewrite mergeStylesAt_eq. fold s. now rewrite Hs, Hf, Hg, Ht, Hi. }
  injection Hm as <-.
  assert (Hgs : is_prefix g s = false).
  { destruct (is_prefix g s) eqn:H; [|reflexivity]. exfalso.
    apply is_prefix_spec in H as [[|y r] Hr].
    - rewrite app_nil_r in Hr. subst g. rewrite Hs in Hg. injection Hg as ->.
      rewrite Hf in Ht. injection Ht as ->. now rewrite includes_refl in Hi.
    - unfold lookup_in in Hs, Hg. rewrite Hr, lookup_app, Hg in Hs.
      now rewrite (lookup_below_text _ _ y r Ht) in Hs. }
  assert (Hsg : is_prefix s g = false).
  { destruct (is_prefix s g) eqn:H; [|reflexivity]. exfalso.
    apply is_prefix_spec in H as [[|y r] Hr].
    - rewrite app_nil_r in Hr. subst g. rewrite is_prefix_refl in Hgs. discriminate.
    - unfold lookup_in in Hs, Hg. rewrite Hr, lookup_app, Hs in Hg.
      now rewrite (lookup_below_text _ _ y r Hf) in Hg. }
  assert (Hgn : g <> []) by (intros ->; discriminate).
  rewrite mergeStylesAt_eq. fold s. cbn [fs log].
  rewrite (put_frame g s) by assumption. rewrite Hs, Hf.
  destruct (put_some_self g (File (t +++ nl +++ f)) (fs st) Hgn) as [Hp|[_ Hp]]; [|congruence].
  change (String (ascii_of_nat 10) f) with (nl +++ f).
  rewrite Hp. cbn [text_of]. rewrite <- str_app_assoc, includes_suffix. reflexivity.
Qed.

(** C1 (as the code has it): when the fragment's text is already a
    substring of the global stylesheet the merge is a no-op, otherwise the
    fragment is appended after a newline; either way the fragment is then a
    substring of the stylesheet, and merging a second time changes nothing.
    The number of occurrences of the fragment is not brought to one. *)
Theorem mergeStyles_guard g cp E st :
  (mergeStylesAt g cp ;; mergeStylesAt g cp) E st = mergeStylesAt g cp E st /\
  (forall f t,
     lookup_in (cp ++ ["styles.css"]) (fs st) = Some (File f) ->
     lookup_in g (fs st) = Some (File t) ->
     mergeStylesAt g cp E st =
       (Ok tt, if includes t f then st
               else mkState (put_in g (Some (File (t +++ nl +++ f))) (fs st)) (log st)) /\
     exists t', lookup_in g (fs (snd (mergeStylesAt g cp E st))) = Some (File t') /\
                includes t' f = true).
Proof.
  split; [apply mergeStylesAt_idem|].
  intros f t Hs Hg.
  assert (Heq : mergeStylesAt g cp E st =
       (Ok tt, if includes t f then st
               else mkState (put_in g (Some (File (t +++ nl +++ f))) (fs st)) (log st))).
  { rewrite mergeStylesAt_eq, Hs, Hg. cbn [text_of]. now destruct (includes t f). }
  split; [exact Heq|]. rewrite Heq. cbn [snd].
  destruct (includes t f) eqn:Hi.
  - exists t. split; assumption.
  - exists (t +++ nl +++ f). cbn [fs]. split.
    + assert (Hgn : g <> []) by (intros ->; discriminate).
      destruct (put_some_self g (File (t +++ nl +++ f)) (fs st) Hgn) as [H|[_ H]]; congruence.
    + rewrite <- str_app_assoc. apply includes_suffix.
Qed.

Lemma mergeStyles_guard_witness :
  lookup_in ((TEMP_DIR ++ ["button"]) ++ ["styles.css"]) (fs sample_merge_state) = Some (File sample_fragment) /\
  lookup_in CliSrc.globalStylePath (fs sample_merge_state) = Some (File "b") /\
  mergeStylesAt CliSrc.globalStylePath (TEMP_DIR ++ ["button"]) sample_env sample_merge_state =
    (Ok tt, mkState (put_in CliSrc.globalStylePath (Some (File ("b" +++ nl +++ sample_fragment)))
                           (fs sample_merge_state)) []).
Proof.
  split; [reflexivity|split; [reflexivity|]].
  exact (proj1 (proj2 (mergeStyles_guard CliSrc.globalStylePath (TEMP_DIR ++ ["button"])
                         sample_env sample_merge_state) sample_fragment "b" eq_refl eq_refl)).
Defined.

(** C1, a counterexample: merging the fragment ["b\nb"] into the stylesheet
    ["b"], twice, leaves two occurrences of the fragment ("b\nb\nb"). *)
Lemma mergeStyles_guard_counterexample :
  match lookup_in CliSrc.globalStylePath
          (fs (snd ((CliSrc.mergeStyles (TEMP_DIR ++ ["button"]) ;;
                     CliSrc.mergeStyles (TEMP_DIR ++ ["button"])) sample_env sample_merge_state))) with
  | Some (File t) => occurrences sample_fragment t
  | _ => 0
  end = 2.
Proof. vm_compute. reflexivity. Qed.

(** ** C7 *)

(** C7: [list] of [packages/cli/src/index.ts] offers every entry of the
    catalog root, the [styles] directory and the [package.json] manifest
    included; [list] of [unnamed/part_001] filters them out. *)
Theorem list_offers_catalog_root :
  log (snd (CliPkg.list (mkEnv sample_remote true true None) sample_state)) =
    [SpinStart "Fetching components..."; Net REPO_URL; SpinStop;
     Prompt ["button"; "styles"; "package.json"]] /\
  log (snd (CliSrc.list (mkEnv sample_remote true true None) sample_state)) =
    [SpinStart "Fetching components..."; Net REPO_URL; SpinStop; Prompt ["button"]].
Proof. split; vm_compute; reflexivity. Qed.

(** ** C8 *)

(** C8: on a catalog holding only excluded entries, [list] of
    [packages/cli/src/index.ts] opens the prompt with them and never reports
    that no component is available; [list] of [unnamed/part_001] reports it
    and stops. *)
Theorem list_empty_catalog :
  let E := mkEnv (sample_remote_with [("styles", Dir [("globals.css", File "@tailwind base;")]);
                                      ("package.json", Json (JObj []))]) true true None in
  log (snd (CliPkg.list E sample_state)) =
    [SpinStart "Fetching components..."; Net REPO_URL; SpinStop; Prompt ["styles"; "package.json"]] /\
  log (snd (CliSrc.list E sample_state)) =
    [SpinStart "Fetching components..."; Net REPO_URL; SpinStop; SpinInfo "No components available"].
Proof. split; vm_compute; reflexivity. Qed.

(** ** Running the [add] pipeline *)

Lemma lookup_put_top x n r es : lookup_in (x :: r) (put_in [x] (Some n) es) = lookup r n.
Proof. unfold lookup_in. simpl. now rewrite assoc_set_same. Qed.

Lemma mkdirp_top x es :
  lookup_in [x] es = None -> mkdirp [] [x] es = Ok (put_in [x] (Some (Dir [])) es).
Proof. intros H. rewrite mkdirp_cons. simpl. now rewrite H. Qed.

Lemma checkVersion_ok E st : fst (CliPkg.checkVersion E st) = Ok tt.
Proof.
  unfold CliPkg.checkVersion, tryCatch, consoleWarn, emit.
  match goal with |- context [match ?m E st with _ => _ end] => destruct (m E st) as [[[]|e] st'] end;
    reflexivity.
Qed.

Lemma wp_checkVersion E Q st :
  (forall st', fs st' = fs st -> Q (Ok tt) st') -> wp E CliPkg.checkVersion Q st.
Proof.
  intros H. unfold wp. rewrite checkVersion_ok. apply H, readonly_checkVersion.
Qed.

Lemma below_not_prefix d q : below d q -> is_prefix q d = false.
Proof.
  intros [y [r ->]]. destruct (is_prefix (d ++ y :: r) d) eqn:H; [|reflexivity].
  apply is_prefix_length in H. rewrite length_app in H. simpl in H. lia.
Qed.

Lemma below_components_apart q : below ["components"] q -> apart TEMP_DIR q.
Proof. intros [y [r ->]]. split; reflexivity. Qed.

Lemma below_src_components_apart q : below ["src"; "components"] q -> apart TEMP_DIR q.
Proof. intros [y [r ->]]. split; reflexivity. Qed.

(** [add] of [unnamed/part_001], for a component missing from the fetched
    catalog, fails without touching anything below [src/components]. *)
Lemma src_addBody_absent c E st0 :
  valid_segment c = true ->
  lookup_in ["packages"; "components"; c] (remote E) = None ->
  wp E (CliSrc.addBody c)
    (fun r st' => (exists e, r = Err e) /\
       forall q, below ["src"; "components"] q -> lookup_in q (fs st') = lookup_in q (fs st0)) st0.
Proof.
  intros Hv Hc. unfold CliSrc.addBody. rewrite !join_segment by exact Hv.
  apply wp_bind, wp_readonly; [apply readonly_checkProjectConfig|]. intros r1 st1 H1.
  destruct r1 as [[]|e1]; [|split; [eauto|intros q _; now rewrite H1]].
  apply wp_bind, wp_ensureDir.
  destruct (mkdirp [] TEMP_DIR (fs st1)) as [es2|e2] eqn:H2;
    [|split; [eauto|intros q _; now rewrite H1]].
  assert (F2 : forall q, below ["src"; "components"] q -> lookup_in q es2 = lookup_in q (fs st0)).
  { intros q Hq. rewrite <- H1. apply (mkdirp_frame _ _ _ _ H2).
    exact (proj2 (below_src_components_apart q Hq)). }
  apply wp_bind, wp_ensureDir. cbn [fs log].
  destruct (mkdirp [] ["src"; "components"] es2) as [es3|e3] eqn:H3; [|split; [eauto|exact F2]].
  assert (F3 : forall q, below ["src"; "components"] q -> lookup_in q es3 = lookup_in q (fs st0)).
  { intros q Hq. rewrite <- (F2 q Hq). apply (mkdirp_frame _ _ _ _ H3). exact (below_not_prefix _ _ Hq). }
  apply wp_bind, wp_gitClone. cbn [fs log].
  destruct (lookup_in TEMP_DIR es3) as [[t|j|[|x l]]|] eqn:H4;
    try (split; [eauto|exact F3]);
    (destruct (network_up E); [|split; [eauto|exact F3]]);
    (assert (F4 : forall q, below ["src"; "components"] q ->
                  lookup_in q (put_in TEMP_DIR (Some (Dir (remote E))) es3) = lookup_in q (fs st0))
     by (intros q Hq; destruct (below_src_components_apart q Hq);
         rewrite put_frame by assumption; exact (F3 q Hq)));
    (apply wp_bind, wp_readonly; [apply readonly_checkComponentDependencies|]);
    intros r5 st5 H5; cbn [fs] in H5;
    (destruct r5 as [[]|e5]; [|split; [eauto|intros q Hq; rewrite H5; exact (F4 q Hq)]]);
    (apply wp_bind, wp_pathExists);
    (assert (Hl : lookup_in ((TEMP_DIR ++ ["packages"; "components"]) ++ [c])
                    (put_in TEMP_DIR (Some (Dir (remote E))) es3) = None)
     by (exact (eq_trans (lookup_put_top _ _ _ _) Hc)));
    rewrite H5, Hl; apply wp_throw; (split; [eauto|intros q Hq; rewrite H5; exact (F4 q Hq)]).
Qed.

(** The same for [add] of [packages/cli/src/index.ts], whose catalog is the
    [components] directory of the fetched tree. *)
Lemma pkg_addBody_absent c E st0 :
  valid_segment c = true ->
  lookup_in ["components"; c] (remote E) = None ->
  wp E (CliPkg.addBody c)
    (fun r st' => (exists e, r = Err e) /\
       forall q, below ["components"] q -> lookup_in q (fs st') = lookup_in q (fs st0)) st0.
Proof.
  intros Hv Hc. unfold CliPkg.addBody. rewrite !join_segment by exact Hv.
  apply wp_bind, wp_readonly; [apply readonly_checkProjectConfig|]. intros r1 st1 H1.
  destruct r1 as [[]|e1]; [|split; [eauto|intros q _; now rewrite H1]].
  apply wp_bind, wp_ensureDir.
  destruct (mkdirp [] TEMP_DIR (fs st1)) as [es3|e2] eqn:H2;
    [|split; [eauto|intros q _; now rewrite H1]].
  assert (F3 : forall q, below ["components"] q -> lookup_in q es3 = lookup_in q (fs st0)).
  { intros q Hq. rewrite <- H1. apply (mkdirp_frame _ _ _ _ H2).
    exact (proj2 (below_components_apart q Hq)). }
  apply wp_bind, wp_gitClone. cbn [fs log].
  destruct (lookup_in TEMP_DIR es3) as [[t|j|[|x l]]|] eqn:H4;
    try (split; [eauto|exact F3]);
    (destruct (network_up E); [|split; [eauto|exact F3]]);
    (assert (F4 : forall q, below ["components"] q ->
                  lookup_in q (put_in TEMP_DIR (Some (Dir (remote E))) es3) = lookup_in q (fs st0))
     by (intros q Hq; destruct (below_components_apart q Hq);
         rewrite put_frame by assumption; exact (F3 q Hq)));
    (apply wp_bind, wp_checkVersion); intros st4 H4'; cbn [fs] in H4';
    (apply wp_bind, wp_readonly; [apply readonly_checkComponentDependencies|]);
    intros r5 st5 H5; rewrite H4' in H5;
    (destruct r5 as [[]|e5]; [|split; [eauto|intros q Hq; rewrite H5; exact (F4 q Hq)]]);
    (apply wp_bind, wp_pathExists);
    (assert (Hl : lookup_in ((TEMP_DIR ++ ["components"]) ++ [c])
                    (put_in TEMP_DIR (Some (Dir (remote E))) es3) = None)
     by (exact (eq_trans (lookup_put_top _ _ _ _) Hc)));
    rewrite H5, Hl; apply wp_throw; (split; [eauto|intros q Hq; rewrite H5; exact (F4 q Hq)]).
Qed.

Lemma wp_eq {A} E (m : M A) Q st r st' : m E st = (r, st') -> Q r st' -> wp E m Q st.
Proof. intros H HQ. unfold wp. now rewrite H. Qed.

Lemma mkdirp_temp es :
  lookup_in TEMP_DIR es = None -> mkdirp [] TEMP_DIR es = Ok (put_in TEMP_DIR (Some (Dir [])) es).
Proof. exact (mkdirp_top ".solo-ui-temp" es). Qed.

Lemma lookup_app_none p r es : lookup_in p es = None -> lookup_in (p ++ r) es = None.
Proof. unfold lookup_in. rewrite lookup_app. intros ->. reflexivity. Qed.

Lemma checkComponentDependencies_ok c E st :
  is_dir (lookup_in (join (TEMP_DIR ++ ["components"]) c ++ ["types.ts"]) (fs st)) = false ->
  checkComponentDependencies c E st = (Ok tt, st).
Proof.
  intros H.
  assert (Hw : wp E (checkComponentDependencies c) (fun r st' => (r, st') = (Ok tt, st)) st).
  { unfold checkComponentDependencies. apply wp_bind, wp_pathExists.
    destruct (lookup_in (join (TEMP_DIR ++ ["components"]) c ++ ["types.ts"]) (fs st))
      as [[t|j|ds]|] eqn:Hl; cbv beta iota; try (apply wp_ret; reflexivity);
      apply wp_bind, wp_readFile; rewrite Hl; try discriminate; apply wp_ret; reflexivity. }
  unfold wp in Hw. now rewrite <- surjective_pairing in Hw.
Qed.

(** Creating [src/components] succeeds unless [src] or [src/components] is
    a file. *)
Lemma mkdirp_src_components es :
  blocks (lookup_in ["src"] es) = false -> blocks (lookup_in ["src"; "components"] es) = false ->
  exists es', mkdirp [] ["src"; "components"] es = Ok es'.
Proof.
  intros H1 H2. apply mkdirp_ok. intros q Hq _ Hne. simpl in Hq.
  destruct q as [|a [|b [|d q']]]; [congruence| | |].
  - simpl in Hq. rewrite Bool.andb_true_r in Hq. apply String.eqb_eq in Hq. now subst.
  - simpl in Hq. rewrite Bool.andb_true_r in Hq. apply Bool.andb_true_iff in Hq as [Ha Hb].
    apply String.eqb_eq in Ha, Hb. now subst.
  - simpl in Hq. rewrite !Bool.andb_false_r in Hq. discriminate.
Qed.

(** [add] of [unnamed/part_001] in a project, with a free scratch
    directory, a creatable [src/components] and the network up, reaches the
    catalog check and fails there for a missing component. *)
Lemma src_addBody_not_found c E st0 :
  valid_segment c = true ->
  lookup_in ["packages"; "components"; c] (remote E) = None ->
  is_dir (lookup_in ["components"; c; "types.ts"] (remote E)) = false ->
  lookup_in ["package.json"] (fs st0) <> None ->
  lookup_in TEMP_DIR (fs st0) = None ->
  blocks (lookup_in ["src"] (fs st0)) = false ->
  blocks (lookup_in ["src"; "components"] (fs st0)) = false ->
  network_up E = true ->
  fst (CliSrc.addBody c E st0) = Err (Thrown ("Component " +++ c +++ " not found in solo-ui components")).
Proof.
  intros Hv Hc Ht Hp Htmp Hs1 Hs2 Hn.
  apply (wp_bind E checkProjectConfig _ (fun r _ => r = _)).
  eapply wp_eq; [exact (checkProjectConfig_present E st0 Hp)|]. cbv beta iota.
  apply wp_bind, wp_ensureDir. rewrite (mkdirp_temp _ Htmp). cbv beta iota. cbn [fs log].
  set (es2 := put_in TEMP_DIR (Some (Dir [])) (fs st0)).
  assert (Hs1' : blocks (lookup_in ["src"] es2) = false)
    by (unfold es2; rewrite put_frame by reflexivity; exact Hs1).
  assert (Hs2' : blocks (lookup_in ["src"; "components"] es2) = false)
    by (unfold es2; rewrite put_frame by reflexivity; exact Hs2).
  destruct (mkdirp_src_components es2 Hs1' Hs2') as [es3 H3].
  apply wp_bind, wp_ensureDir. cbn [fs log]. rewrite H3. cbv beta iota. cbn [fs log].
  assert (Ht3 : lookup_in TEMP_DIR es3 = Some (Dir [])).
  { rewrite (mkdirp_frame _ _ _ _ H3) by reflexivity. exact (lookup_put_top _ _ [] _). }
  apply wp_bind, wp_gitClone. cbn [fs log]. rewrite Ht3, Hn. cbv beta iota.
  set (es4 := put_in TEMP_DIR (Some (Dir (remote E))) es3).
  apply wp_bind. eapply wp_eq.
  { apply checkComponentDependencies_ok. cbn [fs]. rewrite join_segment by exact Hv.
    exact (eq_trans (f_equal is_dir (lookup_put_top _ _ ["components"; c; "types.ts"] _)) Ht). }
  cbv beta iota. unfold CliSrc.addBody. rewrite !join_segment by exact Hv.
  apply wp_bind, wp_pathExists. cbn [fs].
  assert (Hl : lookup_in ((TEMP_DIR ++ ["packages"; "components"]) ++ [c]) es4 = None)
    by (exact (eq_trans (lookup_put_top _ _ _ _) Hc)).
  rewrite Hl. apply wp_throw. reflexivity.
Qed.

(** The same for [add] of [packages/cli/src/index.ts]. *)
Lemma pkg_addBody_not_found c E st0 :
  valid_segment c = true ->
  lookup_in ["components"; c] (remote E) = None ->
  lookup_in ["package.json"] (fs st0) <> None ->
  lookup_in TEMP_DIR (fs st0) = None ->
  network_up E = true ->
  fst (CliPkg.addBody c E st0) = Err (Thrown ("Component " +++ c +++ " not found")).
Proof.
  intros Hv Hc Hp Htmp Hn.
  apply (wp_bind E checkProjectConfig _ (fun r _ => r = _)).
  eapply wp_eq; [exact (checkProjectConfig_present E st0 Hp)|]. cbv beta iota.
  apply wp_bind, wp_ensureDir. rewrite (mkdirp_temp _ Htmp). cbv beta iota. cbn [fs log].
  assert (Ht3 : lookup_in TEMP_DIR (put_in TEMP_DIR (Some (Dir [])) (fs st0)) = Some (Dir []))
    by exact (lookup_put_top _ _ [] _).
  apply wp_bind, wp_gitClone. cbn [fs log]. rewrite Ht3, Hn. cbv beta iota.
  set (es4 := put_in TEMP_DIR (Some (Dir (remote E))) (put_in TEMP_DIR (Some (Dir [])) (fs st0))).
  apply wp_bind, wp_checkVersion. intros st5 H5. cbn [fs] in H5. cbv beta iota.
  apply wp_bind. eapply wp_eq.
  { apply checkComponentDependencies_ok. rewrite H5, join_segment by exact Hv.
    refine (eq_trans (f_equal is_dir (lookup_put_top _ _ ["components"; c; "types.ts"] _)) _).
    change ["components"; c; "types.ts"] with (["components"; c] ++ ["types.ts"]).
    unfold lookup_in in Hc. unfold lookup_in. rewrite lookup_app, Hc. reflexivity. }
  cbv beta iota. rewrite !join_segment by exact Hv.
  apply wp_bind, wp_pathExists. rewrite H5.
  assert (Hl : lookup_in ((TEMP_DIR ++ ["components"]) ++ [c]) es4 = None)
    by (exact (eq_trans (lookup_put_top _ _ _ _) Hc)).
  rewrite Hl. apply wp_throw. reflexivity.
Qed.

Lemma action_frame s p body E st (P : path -> Prop) :
  (forall q, P q -> apart TEMP_DIR q) ->
  wp E body (fun _ st' => forall q, P q -> lookup_in q (fs st') = lookup_in q (fs st))
     (mkState (fs st) (log st ++ [SpinStart s])) ->
  forall q, P q -> lookup_in q (fs (snd (action s p body E st))) = lookup_in q (fs st).
Proof.
  intros Hap Hw q Hq. rewrite action_eq. unfold wp in Hw.
  destruct (body E (mkState (fs st) (log st ++ [SpinStart s]))) as [r st1]. cbn [fst snd] in Hw.
  rewrite (cleanupTemp_frames E _ q (Hap q Hq)).
  destruct r; cbn [after_body fs]; exact (Hw q Hq).
Qed.

Lemma action_fail s p body E st e :
  fst (body E (mkState (fs st) (log st ++ [SpinStart s]))) = Err e ->
  In (SpinFail (p +++ errorMessage e)) (log (snd (action s p body E st))).
Proof.
  intros H. rewrite action_eq.
  destruct (body E (mkState (fs st) (log st ++ [SpinStart s]))) as [r st1].
  cbn [fst] in H. subst r. cbn [after_body].
  destruct (cleanupTemp_log E (mkState (fs st1) (log st1 ++ [SpinFail (p +++ errorMessage e)])))
    as [Hl|Hl]; rewrite Hl; cbn [log]; apply in_or_app;
    [right; left; reflexivity | left; apply in_or_app; right; left; reflexivity].
Qed.

(** ** C3 *)

(** C3: [add c] for a component [c] missing from the fetched catalog
    creates, changes or removes nothing below the project's components
    directory ([components] for [packages/cli/src/index.ts],
    [src/components] for [unnamed/part_001]); and when the pipeline reaches
    the catalog check (a [package.json], no scratch directory left, the
    network up, the components directory creatable and, for
    [unnamed/part_001], no directory at the [types.ts] its dependency check
    reads), the command fails with the component-not-found message. *)
Theorem add_absent_component c E st :
  valid_segment c = true ->
  (lookup_in ["components"; c] (remote E) = None ->
     (forall q, below ["components"] q ->
        lookup_in q (fs (snd (CliPkg.add c E st))) = lookup_in q (fs st)) /\
     (lookup_in ["package.json"] (fs st) <> None -> lookup_in TEMP_DIR (fs st) = None ->
      network_up E = true ->
      In (SpinFail ("Failed to add component: " +++ "Component " +++ c +++ " not found"))
         (log (snd (CliPkg.add c E st))))) /\
  (lookup_in ["packages"; "components"; c] (remote E) = None ->
     (forall q, below ["src"; "components"] q ->
        lookup_in q (fs (snd (CliSrc.add c E st))) = lookup_in q (fs st)) /\
     (is_dir (lookup_in ["components"; c; "types.ts"] (remote E)) = false ->
      lookup_in ["package.json"] (fs st) <> None -> lookup_in TEMP_DIR (fs st) = None ->
      blocks (lookup_in ["src"] (fs st)) = false ->
      blocks (lookup_in ["src"; "components"] (fs st)) = false ->
      network_up E = true ->
      In (SpinFail ("Failed to add component: " +++ "Component " +++ c
                    +++ " not found in solo-ui components"))
         (log (snd (CliSrc.add c E st))))).
Proof.
  intros Hv. split; intros Hc; split.
  - apply action_frame; [exact below_components_apart|].
    eapply wp_conseq; [|exact (pkg_addBody_absent c E _ Hv Hc)].
    intros r st' [_ H]. exact H.
  - intros Hp Ht Hn.
    apply (action_fail "Fetching component..." "Failed to add component: " (CliPkg.addBody c) E st
             (Thrown ("Component " +++ c +++ " not found"))).
    exact (pkg_addBody_not_found c E (mkState (fs st) (log st ++ [SpinStart "Fetching component..."]))
             Hv Hc Hp Ht Hn).
  - apply action_frame; [exact below_src_components_apart|].
    eapply wp_conseq; [|exact (src_addBody_absent c E _ Hv Hc)].
    intros r st' [_ H]. exact H.
  - intros Hd Hp Ht Hs1 Hs2 Hn.
    apply (action_fail "Fetching component..." "Failed to add component: " (CliSrc.addBody c) E st
             (Thrown ("Component " +++ c +++ " not found in solo-ui components"))).
    exact (src_addBody_not_found c E (mkState (fs st) (log st ++ [SpinStart "Fetching component..."]))
             Hv Hc Hd Hp Ht Hs1 Hs2 Hn).
Qed.

Lemma add_absent_component_witness :
  valid_segment "card" = true /\
  lookup_in ["packages"; "components"; "card"] (remote sample_env) = None /\
  is_dir (lookup_in ["components"; "card"; "types.ts"] (remote sample_env)) = false /\
  lookup_in ["package.json"] (fs sample_state) <> None /\
  lookup_in TEMP_DIR (fs sample_state) = None /\
  blocks (lookup_in ["src"] (fs sample_state)) = false /\
  blocks (lookup_in ["src"; "components"] (fs sample_state)) = false /\
  network_up sample_env = true /\
  In (SpinFail ("Failed to add component: " +++ "Component card not found in solo-ui components"))
     (log (snd (CliSrc.add "card" sample_env sample_state))) /\
  lookup_in ["components"; "card"] (remote sample_env) = None /\
  In (SpinFail ("Failed to add component: " +++ "Component card not found"))
     (log (snd (CliPkg.add "card" sample_env sample_state))).
Proof.
  assert (Hv : valid_segment "card" = true) by reflexivity.
  assert (Hp : lookup_in ["package.json"] (fs sample_state) <> None) by discriminate.
  split; [exact Hv|]. split; [reflexivity|]. split; [reflexivity|]. split; [exact Hp|].
  split; [reflexivity|]. split; [reflexivity|]. split; [reflexivity|]. split; [reflexivity|].
  split.
  { exact (proj2 (proj2 (add_absent_component "card" sample_env sample_state Hv) eq_refl)
             eq_refl Hp eq_refl eq_refl eq_refl eq_refl). }
  split; [reflexivity|].
  exact (proj2 (proj1 (add_absent_component "card" sample_env sample_state Hv) eq_refl)
           Hp eq_refl eq_refl).
Defined.

(** ** [fs.copy] writes only at its destination and creates its parent *)

Lemma copy_frames src dst :
  frames (copy src dst) (fun q => apart dst q /\ is_prefix q (removelast dst) = false).
Proof.
  apply frames_wp. intros E st q [[H1 H2] H3]. unfold copy.
  apply wp_bind, wp_get_fs. cbv beta iota.
  destruct (lookup_in src (fs st)) as [sn|]; [|apply wp_throw; reflexivity].
  destruct (is_prefix src dst); [apply wp_throw; reflexivity|].
  destruct sn as [t|j|ses]; destruct (lookup_in dst (fs st)) as [[t'|j'|des]|];
    try (apply wp_throw; reflexivity);
    (apply wp_bind, wp_ensureDir;
     destruct (mkdirp [] (removelast dst) (fs st)) as [es'|e] eqn:Hm; [|reflexivity];
     apply wp_bind, wp_get_fs; cbn [fs];
     match goal with |- context [copy_node ?a ?b] => destruct (copy_node a b) as [r e] end;
     apply wp_bind, wp_set_fs;
     assert (Hf : lookup_in q (match r with Some n => put_in dst (Some n) es' | None => es' end)
                  = lookup_in q (fs st))
       by (rewrite <- (mkdirp_frame _ _ _ _ Hm q H3);
           destruct r; [apply put_frame|]; auto);
     destruct e; [apply wp_throw | apply wp_ret]; exact Hf).
Qed.

Lemma wp_frames {A} E (m : M A) P (Q : res A -> state -> Prop) st :
  frames m P ->
  (forall r st', (forall q, P q -> lookup_in q (fs st') = lookup_in q (fs st)) -> Q r st') ->
  wp E m Q st.
Proof. intros Hf HQ. apply HQ. intros q Hq. exact (Hf E st q Hq). Qed.

(** [add] of [unnamed/part_001] never creates a missing global stylesheet,
    and fails when the component has a style fragment. *)
Lemma src_addBody_global c E st0 :
  valid_segment c = true ->
  lookup_in CliSrc.globalStylePath (fs st0) = None ->
  wp E (CliSrc.addBody c)
    (fun r st' => lookup_in CliSrc.globalStylePath (fs st') = None /\
                  (styled_in ["packages"; "components"] c E -> exists e, r = Err e)) st0.
Proof.
  intros Hv Hg. unfold CliSrc.addBody, CliSrc.mergeStyles. rewrite !join_segment by exact Hv.
  apply wp_bind, wp_readonly; [apply readonly_checkProjectConfig|]. intros r1 st1 H1.
  destruct r1 as [[]|e1]; [|split; [rewrite H1; exact Hg|eauto]].
  apply wp_bind, wp_ensureDir.
  destruct (mkdirp [] TEMP_DIR (fs st1)) as [es2|e2] eqn:H2;
    [|split; [rewrite H1; exact Hg|eauto]].
  assert (G2 : lookup_in CliSrc.globalStylePath es2 = None)
    by (rewrite (mkdirp_frame _ _ _ _ H2) by reflexivity; rewrite H1; exact Hg).
  apply wp_bind, wp_ensureDir. cbn [fs log].
  destruct (mkdirp [] ["src"; "components"] es2) as [es3|e3] eqn:H3; [|split; [exact G2|eauto]].
  assert (G3 : lookup_in CliSrc.globalStylePath es3 = None)
    by (rewrite (mkdirp_frame _ _ _ _ H3) by reflexivity; exact G2).
  apply wp_bind, wp_gitClone. cbn [fs log].
  destruct (lookup_in TEMP_DIR es3) as [[t|j|[|x l]]|] eqn:H4;
    try (split; [exact G3|eauto]);
    (destruct (network_up E); [|split; [exact G3|eauto]]);
    set (es4 := put_in TEMP_DIR (Some (Dir (remote E))) es3);
    (assert (G4 : lookup_in CliSrc.globalStylePath es4 = None)
       by (unfold es4; rewrite put_frame by reflexivity; exact G3));
    (apply wp_bind, wp_readonly; [apply readonly_checkComponentDependencies|]);
    intros r5 st5 H5; cbn [fs] in H5;
    (destruct r5 as [[]|e5]; [|split; [rewrite H5; exact G4|eauto]]);
    (apply wp_bind, wp_pathExists); rewrite H5;
    (destruct (lookup_in ((TEMP_DIR ++ ["packages"; "components"]) ++ [c]) es4);
       cbv beta iota; [|apply wp_throw; split; [rewrite H5; exact G4|eauto]]);
    (apply wp_bind, (wp_frames _ _ _ _ _ (copy_frames _ _))); intros r7 st7 F7;
    (assert (G7 : lookup_in CliSrc.globalStylePath (fs st7) = None)
       by (rewrite F7 by (split; [split|]; reflexivity); rewrite H5; exact G4));
    (destruct r7 as [[]|e7]; [|split; [exact G7|eauto]]);
    (assert (S7 : lookup_in (((TEMP_DIR ++ ["packages"; "components"]) ++ [c]) ++ ["styles.css"]) (fs st7)
                  = lookup_in ["packages"; "components"; c; "styles.css"] (remote E))
       by (rewrite F7 by (split; [split|]; reflexivity); rewrite H5;
           exact (lookup_put_top _ _ ["packages"; "components"; c; "styles.css"] _)));
    apply wp_bind; unfold wp at 1; rewrite mergeStylesAt_eq, S7, G7;
    (destruct (lookup_in ["packages"; "components"; c; "styles.css"] (remote E)) as [sn|] eqn:Hsn;
       [destruct (text_of sn) eqn:Htsn|]); cbn [fst snd];
    try (split; [exact G7|solve [eauto]]);
    (apply wp_emit; split; [exact G7|]);
    unfold styled_in; cbn [app]; intros [n' [Hn' Htn']]; congruence.
Qed.

(** The same for [add] of [packages/cli/src/index.ts]. *)
Lemma pkg_addBody_global c E st0 :
  valid_segment c = true ->
  lookup_in CliPkg.globalStylePath (fs st0) = None ->
  wp E (CliPkg.addBody c)
    (fun r st' => lookup_in CliPkg.globalStylePath (fs st') = None /\
                  (styled_in ["components"] c E -> exists e, r = Err e)) st0.
Proof.
  intros Hv Hg. unfold CliPkg.addBody, CliPkg.mergeStyles. rewrite !join_segment by exact Hv.
  apply wp_bind, wp_readonly; [apply readonly_checkProjectConfig|]. intros r1 st1 H1.
  destruct r1 as [[]|e1]; [|split; [rewrite H1; exact Hg|eauto]].
  apply wp_bind, wp_ensureDir.
  destruct (mkdirp [] TEMP_DIR (fs st1)) as [es3|e2] eqn:H2;
    [|split; [rewrite H1; exact Hg|eauto]].
  assert (G3 : lookup_in CliPkg.globalStylePath es3 = None)
    by (rewrite (mkdirp_frame _ _ _ _ H2) by reflexivity; rewrite H1; exact Hg).
  apply wp_bind, wp_gitClone. cbn [fs log].
  destruct (lookup_in TEMP_DIR es3) as [[t|j|[|x l]]|] eqn:H4;
    try (split; [exact G3|solve [eauto]]);
    (destruct (network_up E); [|split; [exact G3|eauto]]);
    set (es4 := put_in TEMP_DIR (Some (Dir (remote E))) es3);
    (assert (G4 : lookup_in CliPkg.globalStylePath es4 = None)
       by (unfold es4; rewrite put_frame by reflexivity; exact G3));
    (apply wp_bind, wp_checkVersion); intros st45 H45; cbn [fs] in H45;
    (apply wp_bind, wp_readonly; [apply readonly_checkComponentDependencies|]);
    intros r5 st5 H5; rewrite H45 in H5;
    (destruct r5 as [[]|e5]; [|split; [rewrite H5; exact G4|eauto]]);
    (apply wp_bind, wp_pathExists); rewrite H5;
    (destruct (lookup_in ((TEMP_DIR ++ ["components"]) ++ [c]) es4);
       cbv beta iota; [|apply wp_throw; split; [rewrite H5; exact G4|eauto]]);
    (apply wp_bind, (wp_frames _ _ _ _ _ (copy_frames _ _))); intros r7 st7 F7;
    (assert (G7 : lookup_in CliPkg.globalStylePath (fs st7) = None)
       by (rewrite F7 by (split; [split|]; reflexivity); rewrite H5; exact G4));
    (destruct r7 as [[]|e7]; [|split; [exact G7|eauto]]);
    (assert (S7 : lookup_in (((TEMP_DIR ++ ["components"]) ++ [c]) ++ ["styles.css"]) (fs st7)
                  = lookup_in ["components"; c; "styles.css"] (remote E))
       by (rewrite F7 by (split; [split|]; reflexivity); rewrite H5;
           exact (lookup_put_top _ _ ["components"; c; "styles.css"] _)));
    apply wp_bind; unfold wp at 1; rewrite mergeStylesAt_eq, S7, G7;
    (destruct (lookup_in ["components"; c; "styles.css"] (remote E)) as [sn|] eqn:Hsn;
       [destruct (text_of sn) eqn:Htsn|]); cbn [fst snd];
    try (split; [exact G7|solve [eauto]]);
    (apply wp_emit; split; [exact G7|]);
    unfold styled_in; cbn [app]; intros [n' [Hn' Htn']]; congruence.
Qed.

Lemma mergeStylesAt_missing_global g cp E st :
  lookup_in g (fs st) = None ->
  lookup_in g (fs (snd (mergeStylesAt g cp E st))) = None /\
  (forall ns f, lookup_in (cp ++ ["styles.css"]) (fs st) = Some ns -> text_of ns = Some f ->
   mergeStylesAt g cp E st = (Err (ENOENT "open" g), st)).
Proof.
  intros Hg. rewrite !mergeStylesAt_eq, Hg. split.
  - destruct (lookup_in (cp ++ ["styles.css"]) (fs st)) as [ns|]; [|exact Hg].
    destruct (text_of ns); exact Hg.
  - intros ns f Hs Hf. rewrite Hs, Hf. reflexivity.
Qed.

(** ** C10 *)

(** C10: when the project's global stylesheet does not exist, the style
    merge of either source never creates it, and when the component's
    [styles.css] holds text it fails with the [ENOENT] error of reading the
    stylesheet, leaving the files as they were. At the level of the
    command, [add c] of either source leaves the global stylesheet absent,
    and for a component whose catalog entry has a [styles.css] file the
    command fails: its log records a spinner failure. *)
Theorem add_missing_global_stylesheet c E st :
  valid_segment c = true ->
  (forall g cp, lookup_in g (fs st) = None ->
     lookup_in g (fs (snd (mergeStylesAt g cp E st))) = None /\
     (forall ns f, lookup_in (cp ++ ["styles.css"]) (fs st) = Some ns -> text_of ns = Some f ->
      mergeStylesAt g cp E st = (Err (ENOENT "open" g), st))) /\
  (lookup_in CliPkg.globalStylePath (fs st) = None ->
     lookup_in CliPkg.globalStylePath (fs (snd (CliPkg.add c E st))) = None /\
     (styled_in ["components"] c E ->
      exists e, In (SpinFail ("Failed to add component: " +++ errorMessage e))
                   (log (snd (CliPkg.add c E st))))) /\
  (lookup_in CliSrc.globalStylePath (fs st) = None ->
     lookup_in CliSrc.globalStylePath (fs (snd (CliSrc.add c E st))) = None /\
     (styled_in ["packages"; "components"] c E ->
      exists e, In (SpinFail ("Failed to add component: " +++ errorMessage e))
                   (log (snd (CliSrc.add c E st))))).
Proof.
  intros Hv. split; [|split].
  - intros g cp Hg. exact (mergeStylesAt_missing_global g cp E st Hg).
  - intros Hg.
    pose proof (pkg_addBody_global c E
                  (mkState (fs st) (log st ++ [SpinStart "Fetching component..."])) Hv Hg) as W.
    split.
    + rewrite <- Hg.
      apply (action_frame "Fetching component..." "Failed to add component: " (CliPkg.addBody c)
               E st (fun q => q = CliPkg.globalStylePath)); [intros q ->; split; reflexivity| |reflexivity].
      eapply wp_conseq; [|exact W]. cbn [fs]. intros r st' [H _] q ->. rewrite H, Hg. reflexivity.
    + intros Hs. unfold wp in W. destruct W as [_ W]. destruct (W Hs) as [e He].
      exists e. exact (action_fail _ _ _ E st e He).
  - intros Hg.
    pose proof (src_addBody_global c E
                  (mkState (fs st) (log st ++ [SpinStart "Fetching component..."])) Hv Hg) as W.
    split.
    + rewrite <- Hg.
      apply (action_frame "Fetching component..." "Failed to add component: " (CliSrc.addBody c)
               E st (fun q => q = CliSrc.globalStylePath)); [intros q ->; split; reflexivity| |reflexivity].
      eapply wp_conseq; [|exact W]. cbn [fs]. intros r st' [H _] q ->. rewrite H, Hg. reflexivity.
    + intros Hs. unfold wp in W. destruct W as [_ W]. destruct (W Hs) as [e He].
      exists e. exact (action_fail _ _ _ E st e He).
Qed.

Lemma add_missing_global_stylesheet_witness :
  valid_segment "button" = true /\
  lookup_in CliSrc.globalStylePath (fs sample_state) = None /\
  styled_in ["packages"; "components"] "button" sample_env /\
  lookup_in CliSrc.globalStylePath (fs (snd (CliSrc.add "button" sample_env sample_state))) = None /\
  exists e, In (SpinFail ("Failed to add component: " +++ errorMessage e))
               (log (snd (CliSrc.add "button" sample_env sample_state))).
Proof.
  assert (Hv : valid_segment "button" = true) by reflexivity.
  assert (Hg : lookup_in CliSrc.globalStylePath (fs sample_state) = None) by reflexivity.
  assert (Hs : styled_in ["packages"; "components"] "button" sample_env)
    by (eexists; split; [reflexivity|discriminate]).
  destruct (add_missing_global_stylesheet "button" sample_env sample_state Hv) as [_ [_ H]].
  destruct (H Hg) as [H1 H2].
  split; [exact Hv|split; [exact Hg|split; [exact Hs|split; [exact H1|exact (H2 Hs)]]]].
Defined.

(** ** C5 *)

Lemma mkdirp_temp_dir d es :
  lookup_in TEMP_DIR es = Some (Dir d) -> mkdirp [] TEMP_DIR es = Ok es.
Proof. intros H. unfold TEMP_DIR in *. rewrite mkdirp_cons. cbn [app]. now rewrite H. Qed.

(** Every body runs into [git.clone] with the scratch directory as it was,
    and that clone refuses a non-empty destination: with a stale, non-empty
    scratch directory each body fails without logging anything, in
    particular before any network access. *)
Lemma body_stale_temp cmd E st0 x l :
  lookup_in TEMP_DIR (fs st0) = Some (Dir (x :: l)) ->
  wp E (body_of cmd) (fun r st' => (exists e, r = Err e) /\ log st' = log st0) st0.
Proof.
  intros Ht.
  set (Q := fun (r : res unit) (st' : state) => (exists e, r = Err e) /\ log st' = log st0).
  set (I := fun st => log st = log st0 /\ lookup_in TEMP_DIR (fs st) = Some (Dir (x :: l))).
  assert (Hc : forall st (k : unit -> M unit), I st -> wp E (bind (gitClone REPO_URL TEMP_DIR) k) Q st).
  { intros st k [Hl Ht']. apply wp_bind, wp_gitClone. rewrite Ht'. split; [eauto|exact Hl]. }
  assert (Hd : forall p st (k : unit -> M unit), is_prefix TEMP_DIR p = false -> I st ->
                 (forall st', I st' -> wp E (k tt) Q st') -> wp E (bind (ensureDir p) k) Q st).
  { intros p st k Hp [Hl Ht'] Hk. apply wp_bind, wp_ensureDir.
    destruct (mkdirp [] p (fs st)) as [es'|e] eqn:Hm; [|split; [eauto|exact Hl]].
    apply Hk. split; [exact Hl|]. cbn [fs]. rewrite (mkdirp_frame _ _ _ _ Hm) by exact Hp. exact Ht'. }
  assert (Hdt : forall st (k : unit -> M unit), I st ->
                 (forall st', I st' -> wp E (k tt) Q st') -> wp E (bind (ensureDir TEMP_DIR) k) Q st).
  { intros st k [Hl Ht'] Hk. apply wp_bind, wp_ensureDir.
    rewrite (mkdirp_temp_dir _ _ Ht'). apply Hk. split; assumption. }
  assert (Hp : forall st (k : unit -> M unit), I st ->
                 (forall st', I st' -> wp E (k tt) Q st') -> wp E (bind checkProjectConfig k) Q st).
  { intros st k [Hl Ht'] Hk. unfold wp.
    destruct (lookup_in ["package.json"] (fs st)) eqn:Hpk.
    - rewrite (bind_ok _ _ _ _ tt st (checkProjectConfig_present E st ltac:(congruence))).
      exact (Hk st (conj Hl Ht')).
    - rewrite (bind_err _ _ _ _ _ st (checkProjectConfig_missing E st Hpk)).
      split; [eexists; reflexivity|exact Hl]. }
  assert (H0 : I st0) by (split; [reflexivity|exact Ht]).
  destruct cmd; cbn [body_of];
    unfold CliPkg.addBody, CliPkg.initBody, CliPkg.listBody,
           CliSrc.addBody, CliSrc.initBody, CliSrc.listBody.
  - apply (Hp _ _ H0); intros st1 H1. apply (Hdt _ _ H1); intros st2 H2. exact (Hc _ _ H2).
  - apply (Hp _ _ H0); intros st1 H1. apply Hd; [reflexivity|exact H1|intros st2 H2].
    apply Hd; [reflexivity|exact H2|intros st3 H3]. exact (Hc _ _ H3).
  - apply (Hdt _ _ H0); intros st1 H1. exact (Hc _ _ H1).
  - apply (Hp _ _ H0); intros st1 H1. apply (Hdt _ _ H1); intros st2 H2.
    apply Hd; [reflexivity|exact H2|intros st3 H3]. exact (Hc _ _ H3).
  - apply (Hp _ _ H0); intros st1 H1. apply Hd; [reflexivity|exact H1|intros st2 H2].
    apply Hd; [reflexivity|exact H2|intros st3 H3]. exact (Hc _ _ H3).
  - apply (Hdt _ _ H0); intros st1 H1. exact (Hc _ _ H1).
Qed.

(** C5 (as the code has it): no command empties the scratch directory before
    [git.clone]; [fs.ensureDir] keeps a directory that is already there, and
    the clone refuses a non-empty destination. With a non-empty scratch
    directory left by an earlier run, every command of either source fails
    before any network access: its log gets the spinner's start and failure
    and, at most, the cleanup's warning, and nothing else (no fetch, no
    success). *)
Theorem stale_temp_blocks_fetch cmd E st x l :
  lookup_in TEMP_DIR (fs st) = Some (Dir (x :: l)) ->
  exists e,
    log (snd (run cmd E st)) =
      log st ++ [SpinStart (start_text cmd); SpinFail (fail_prefix cmd +++ errorMessage e)] \/
    log (snd (run cmd E st)) =
      log st ++ [SpinStart (start_text cmd); SpinFail (fail_prefix cmd +++ errorMessage e);
                 Warn "Failed to clean up temporary directory"].
Proof.
  intros Ht. rewrite run_action, action_eq.
  pose proof (body_stale_temp cmd E (mkState (fs st) (log st ++ [SpinStart (start_text cmd)])) x l Ht)
    as W.
  unfold wp in W.
  destruct (body_of cmd E (mkState (fs st) (log st ++ [SpinStart (start_text cmd)]))) as [r st1].
  cbn [fst snd log] in W. destruct W as [[e ->] Hl]. exists e. cbn [after_body].
  destruct (cleanupTemp_log E (mkState (fs st1) (log st1 ++ [SpinFail (fail_prefix cmd +++ errorMessage e)])))
    as [H|H]; rewrite H; cbn [log]; rewrite Hl, <- !app_assoc; [left|right]; reflexivity.
Qed.

Lemma stale_temp_blocks_fetch_witness :
  lookup_in TEMP_DIR (fs (mkState [(".solo-ui-temp", Dir [("stale", File "x")])] [])) =
    Some (Dir [("stale", File "x")]) /\
  exists e,
    log (snd (run (SrcAdd "button") sample_env (mkState [(".solo-ui-temp", Dir [("stale", File "x")])] []))) =
      [SpinStart "Fetching component..."; SpinFail ("Failed to add component: " +++ errorMessage e)] \/
    log (snd (run (SrcAdd "button") sample_env (mkState [(".solo-ui-temp", Dir [("stale", File "x")])] []))) =
      [SpinStart "Fetching component..."; SpinFail ("Failed to add component: " +++ errorMessage e);
       Warn "Failed to clean up temporary directory"].
Proof.
  split; [reflexivity|].
  exact (stale_temp_blocks_fetch (SrcAdd "button") sample_env
           (mkState [(".solo-ui-temp", Dir [("stale", File "x")])] []) ("stale", File "x") [] eq_refl).
Defined.

(** C5, on the sample project with a stale scratch directory: [add button]
    of [unnamed/part_001] reports the clone's refusal and installs nothing. *)
Lemma stale_temp_add_fails :
  let st := mkState (sample_project ++ [(".solo-ui-temp", Dir [("stale", File "x")])]) [] in
  lookup_in ["src"; "components"; "button"] (fs (snd (CliSrc.add "button" sample_env st))) = None /\
  log (snd (CliSrc.add "button" sample_env st)) =
    [SpinStart "Fetching component...";
     SpinFail ("Failed to add component: fatal: destination path '.solo-ui-temp' "
               +++ "already exists and is not an empty directory.")].
Proof. vm_compute. split; reflexivity. Qed.

(** * Further properties of the code *)

(** X1: [checkVersion] never fails and never touches the tree; it adds at
    most one warning: "Unable to check versions" when either manifest is
    missing, none when both versions agree (or both are absent), and the
    version-mismatch warning when they differ. *)
Theorem checkVersion_behaviour E st :
  exists w,
    CliPkg.checkVersion E st = (Ok tt, mkState (fs st) (log st ++ w)) /\
    (w = [] \/ exists msg, w = [Warn msg]) /\
    (lookup_in (TEMP_DIR ++ ["package.json"]) (fs st) = None \/
     lookup_in ["package.json"] (fs st) = None -> w = [Warn "Unable to check versions"]) /\
    (forall r l,
       lookup_in (TEMP_DIR ++ ["package.json"]) (fs st) = Some (Json (JObj r)) ->
       lookup_in ["package.json"] (fs st) = Some (Json (JObj l)) ->
       ((assoc "version" r = None /\ assoc "version" l = None) \/
        (exists v, assoc "version" r = Some (JStr v) /\ assoc "version" l = Some (JStr v)) -> w = []) /\
       (forall vr vl, assoc "version" r = Some (JStr vr) -> assoc "version" l = Some (JStr vl) -> vr <> vl ->
          w = [Warn ("Warning: Your local version (" +++ vl +++ ") differs from the remote version ("
                     +++ vr +++ ")")])).
Proof.
  destruct st as [es lg]. cbn [fs log].
  cbv [CliPkg.checkVersion tryCatch bind readJson get_fs ret throw prop consoleWarn emit fs log].
  destruct (lookup_in (TEMP_DIR ++ ["package.json"]) es) as [[t|j|d]|] eqn:Hr.
  2: destruct (lookup_in ["package.json"] es) as [[t'|j'|d']|] eqn:Hl.
  3: destruct j as [| | | | |r]; destruct j' as [| | | | |l].
  all: try (destruct (assoc "version" r) as [[| | |vr| |]|] eqn:Hvr).
  all: try (destruct (assoc "version" l) as [[| | |vl| |]|] eqn:Hvl).
  all: cbv beta iota zeta; cbn [js_strict_neq negb Bool.eqb fs log].
  all: try match goal with
      | |- context [String.eqb ?x ?y] => destruct (String.eqb_spec x y) as [Hxy|Hxy]; [subst|]
      | |- context [Z.eqb ?x ?y] => destruct (Z.eqb x y)
      | |- context [Bool.eqb ?x ?y] => destruct (Bool.eqb x y)
      end; cbn [negb].
  all: (first [ exists []; split; [cbn; rewrite app_nil_r; reflexivity|]
         | eexists; split; [reflexivity|] ]).
  all: (split; [first [left; reflexivity | right; eexists; reflexivity]|]).
  all: (split; [intros [H|H]; first [reflexivity | discriminate] |]).
  all: intros r0 l0 H1 H2; try discriminate.
  all: injection H1 as <-; injection H2 as <-.
  all: split; [intros [[H3 H4]|[v [H3 H4]]] | intros vr' vl' H3 H4 H5]; try congruence.
  all: rewrite Hvr in H3; rewrite Hvl in H4; injection H3 as <-; injection H4 as <-; reflexivity.
Qed.

Lemma wp_exact {A} E (m : M A) st X : wp E m (fun r st' => (r, st') = X) st -> m E st = X.
Proof. unfold wp. now rewrite <- surjective_pairing. Qed.

(** X2: [cleanupTemp] does nothing without a temporary directory; with one it
    removes exactly that directory when removal succeeds, and otherwise
    leaves the tree as it is and logs a single warning. *)
Theorem cleanupTemp_behaviour E st :
  (lookup_in TEMP_DIR (fs st) = None -> cleanupTemp E st = (Ok tt, st)) /\
  (lookup_in TEMP_DIR (fs st) <> None -> remove_ok E = true ->
     cleanupTemp E st = (Ok tt, mkState (put_in TEMP_DIR None (fs st)) (log st)) /\
     lookup_in TEMP_DIR (fs (snd (cleanupTemp E st))) = None /\
     forall q, apart TEMP_DIR q -> lookup_in q (fs (snd (cleanupTemp E st))) = lookup_in q (fs st)) /\
  (lookup_in TEMP_DIR (fs st) <> None -> remove_ok E = false ->
     cleanupTemp E st =
       (Ok tt, mkState (fs st) (log st ++ [Warn "Failed to clean up temporary directory"]))).
Proof.
  split; [apply cleanupTemp_absent|].
  split; intros Ht Hr.
  - assert (H : cleanupTemp E st = (Ok tt, mkState (put_in TEMP_DIR None (fs st)) (log st))).
    { apply wp_exact, wp_cleanupTemp.
      destruct (lookup_in TEMP_DIR (fs st)); [|congruence]. now rewrite Hr. }
    rewrite H. cbn [snd fs]. split; [reflexivity|split].
    + apply put_none_same. discriminate.
    + intros q [H1 H2]. apply put_frame; assumption.
  - apply wp_exact, wp_cleanupTemp.
    destruct (lookup_in TEMP_DIR (fs st)); [|congruence]. now rewrite Hr.
Qed.

(** X3: [checkComponentDependencies] only reads [components/<c>/types.ts] of
    the fetched copy: it changes nothing and fails only when that path is a
    directory. *)
Theorem checkComponentDependencies_behaviour c E st :
  checkComponentDependencies c E st =
    (if is_dir (lookup_in (join (TEMP_DIR ++ ["components"]) c ++ ["types.ts"]) (fs st))
     then Err (EISDIR (join (TEMP_DIR ++ ["components"]) c ++ ["types.ts"])) else Ok tt, st).
Proof.
  destruct (is_dir (lookup_in (join (TEMP_DIR ++ ["components"]) c ++ ["types.ts"]) (fs st))) eqn:Hd;
    [|exact (checkComponentDependencies_ok c E st Hd)].
  assert (Hw : wp E (checkComponentDependencies c)
                 (fun r st' => (r, st') = (Err (EISDIR (join (TEMP_DIR ++ ["components"]) c ++ ["types.ts"])), st)) st).
  { unfold checkComponentDependencies. apply wp_bind, wp_pathExists.
    destruct (lookup_in (join (TEMP_DIR ++ ["components"]) c ++ ["types.ts"]) (fs st))
      as [[t|j|ds]|] eqn:Hl; try discriminate. cbv beta iota.
    apply wp_bind, wp_readFile. rewrite Hl. reflexivity. }
  unfold wp in Hw. now rewrite <- surjective_pairing in Hw.
Qed.

(** X4: [mergeStyles] logs nothing, changes no path other than the global
    stylesheet, and either leaves an existing stylesheet as it is or appends
    a newline and the component's fragment, which it had not contained. *)
Theorem mergeStyles_append_only g cp E st :
  log (snd (mergeStylesAt g cp E st)) = log st /\
  (forall q, apart g q -> lookup_in q (fs (snd (mergeStylesAt g cp E st))) = lookup_in q (fs st)) /\
  (forall t, lookup_in g (fs st) = Some (File t) ->
     lookup_in g (fs (snd (mergeStylesAt g cp E st))) = Some (File t) \/
     exists ns f, lookup_in (cp ++ ["styles.css"]) (fs st) = Some ns /\ text_of ns = Some f /\
       includes t f = false /\
       lookup_in g (fs (snd (mergeStylesAt g cp E st))) = Some (File (t +++ nl +++ f))).
Proof.
  rewrite mergeStylesAt_eq.
  destruct (lookup_in (cp ++ ["styles.css"]) (fs st)) as [ns|] eqn:Hs;
    [|cbn [snd]; split; [reflexivity|split; [reflexivity|intros t Ht; left; exact Ht]]].
  destruct (text_of ns) as [f|] eqn:Hf;
    [|cbn [snd]; split; [reflexivity|split; [reflexivity|intros t Ht; left; exact Ht]]].
  destruct (lookup_in g (fs st)) as [ng|] eqn:Hg;
    [|cbn [snd]; split; [reflexivity|split; [reflexivity|intros t Ht; discriminate]]].
  destruct (text_of ng) as [t0|] eqn:Ht0;
    [|cbn [snd]; split; [reflexivity|split; [reflexivity|intros t Ht; injection Ht as ->; discriminate]]].
  destruct (includes t0 f) eqn:Hi;
    cbn [snd fs log]; [split; [reflexivity|split; [reflexivity|intros t Ht; left; congruence]]|].
  split; [reflexivity|split].
  - intros q [H1 H2]. apply put_frame; assumption.
  - intros t Ht. rewrite ?Hg in Ht. injection Ht as ->. cbn [text_of] in Ht0. injection Ht0 as ->.
    right. exists ns, f. split; [reflexivity|split; [exact Hf|split; [exact Hi|]]].
    assert (Hgn : g <> []) by (intros ->; discriminate).
    destruct (put_some_self g (File (t0 +++ nl +++ f)) (fs st) Hgn) as [H|[_ H]]; congruence.
Qed.

Lemma starts_with_app_l pre s : starts_with pre (pre +++ s) = true.
Proof. induction pre as [|a pre IH]; simpl; [reflexivity|]. now rewrite Ascii.eqb_refl, IH. Qed.

Lemma match_content_starts s r : CliSrc.match_content_at s = Some r -> starts_with "content:" s = true.
Proof. unfold CliSrc.match_content_at. destruct (starts_with "content:" s); congruence. Qed.

Lemma replace_content_cons a s :
  CliSrc.replace_content (String a s) =
  match CliSrc.match_content_at (String a s) with
  | Some rest => CliSrc.contentReplacement +++ rest
  | None => String a (CliSrc.replace_content s)
  end.
Proof. reflexivity. Qed.

(** X5: [modifyTailwindConfig]'s replacement leaves a configuration without
    ["content:"] unchanged. *)
Theorem replace_content_no_content s :
  includes s "content:" = false -> CliSrc.replace_content s = s.
Proof.
  induction s as [|a s IH]; intros H; [reflexivity|].
  cbn [includes] in H. apply Bool.orb_false_iff in H as [H1 H2].
  rewrite replace_content_cons.
  destruct (CliSrc.match_content_at (String a s)) eqn:Hm.
  - apply match_content_starts in Hm. congruence.
  - now rewrite IH.
Qed.


Lemma assoc_in_some {A} n (l : list (string * A)) : In n (map fst l) -> assoc n l <> None.
Proof.
  induction l as [|[y w] l IH]; simpl; [tauto|]. intros [->|H].
  - now rewrite String.eqb_refl.
  - destruct (String.eqb n y); [discriminate|]. exact (IH H).
Qed.

Lemma readonly_keepItem d n : readonly (CliSrc.keepItem d n).
Proof.
  unfold CliSrc.keepItem. destruct (starts_with "." n); [apply readonly_ret|].
  destruct (str_mem n _); [apply readonly_ret|apply readonly_statIsDirectory].
Qed.

Lemma readonly_filterM d l : readonly (CliSrc.filterM (CliSrc.keepItem d) l).
Proof.
  induction l as [|x l IH]; cbn [CliSrc.filterM]; [apply readonly_ret|].
  apply readonly_bind; [apply readonly_keepItem|intros b].
  apply readonly_bind; [exact IH|intros r; apply readonly_ret].
Qed.

Lemma filterM_keepItem d items E st :
  (forall n, In n items -> lookup_in (d ++ [n]) (fs st) <> None) ->
  CliSrc.filterM (CliSrc.keepItem d) items E st =
    (Ok (filter (fun n => negb (starts_with "." n)
                          && negb (str_mem n ["styles"; "package.json"; "node_modules"])
                          && is_dir (lookup_in (d ++ [n]) (fs st))) items), st).
Proof.
  induction items as [|x l IH]; intros H; [reflexivity|].
  assert (Hx : CliSrc.keepItem d x E st =
               (Ok (negb (starts_with "." x)
                    && negb (str_mem x ["styles"; "package.json"; "node_modules"])
                    && is_dir (lookup_in (d ++ [x]) (fs st))), st)).
  { unfold CliSrc.keepItem. destruct (starts_with "." x); [reflexivity|].
    destruct (str_mem x _); [reflexivity|]. cbn [negb andb].
    unfold statIsDirectory, bind, get_fs, ret, throw.
    destruct (lookup_in (d ++ [x]) (fs st)) eqn:Hl; [reflexivity|].
    exfalso. exact (H x (or_introl eq_refl) Hl). }
  cbn [CliSrc.filterM]. rewrite (bind_ok _ _ _ _ _ _ Hx).
  rewrite (bind_ok _ _ _ _ _ _ (IH (fun n Hn => H n (or_intror Hn)))).
  cbn [filter]. unfold ret. destruct (_ && _ && _); reflexivity.
Qed.

Lemma grows_bind {A B} (m : M A) (k : A -> M B) :
  grows m -> (forall a, grows (k a)) -> grows (bind m k).
Proof.
  intros Hm Hk E st. unfold bind. destruct (Hm E st) as [w1 H1].
  destruct (m E st) as [[a|e] st'] eqn:H; cbn [snd] in *; [|now exists w1].
  destruct (Hk a E st') as [w2 H2]. exists (w1 ++ w2). now rewrite H2, H1, app_assoc.
Qed.

Lemma grows_tryCatch {A} (m : M A) h :
  grows m -> (forall e, grows (h e)) -> grows (tryCatch m h).
Proof.
  intros Hm Hh E st. unfold tryCatch. destruct (Hm E st) as [w1 H1].
  destruct (m E st) as [[a|e] st'] eqn:H; cbn [snd] in *; [now exists w1|].
  destruct (Hh e E st') as [w2 H2]. exists (w1 ++ w2). now rewrite H2, H1, app_assoc.
Qed.

Lemma grows_tryFinally {A} (m : M A) f : grows m -> grows f -> grows (tryFinally m f).
Proof.
  intros Hm Hf E st. unfold tryFinally. destruct (Hm E st) as [w1 H1].
  destruct (m E st) as [r st1]. cbn [snd] in H1. destruct (Hf E st1) as [w2 H2].
  destruct (f E st1) as [[u|e] st2]; cbn [snd] in *;
    exists (w1 ++ w2); now rewrite H2, H1, app_assoc.
Qed.

Lemma grows_quiet {A} (m : M A) : quiet m -> grows m.
Proof. intros H E st. exists []. now rewrite app_nil_r, H. Qed.

Lemma grows_ret {A} (a : A) : grows (ret a).
Proof. intros E st. exists []. now rewrite app_nil_r. Qed.

Lemma grows_throw {A} e : grows (@throw A e).
Proof. intros E st. exists []. now rewrite app_nil_r. Qed.

Lemma grows_emit ev : grows (emit ev).
Proof. intros E st. now exists [ev]. Qed.

Lemma grows_get_fs : grows get_fs.
Proof. intros E st. exists []. now rewrite app_nil_r. Qed.

Lemma grows_set_fs es : grows (set_fs es).
Proof. intros E st. exists []. now rewrite app_nil_r. Qed.

Lemma grows_ask : grows ask.
Proof. intros E st. exists []. now rewrite app_nil_r. Qed.

Ltac solve_grows :=
  repeat first
    [ apply grows_bind; [|intros ?]
    | apply grows_tryCatch; [|intros ?]
    | apply grows_tryFinally
    | apply grows_ret | apply grows_throw | apply grows_emit
    | apply grows_get_fs | apply grows_set_fs | apply grows_ask
    | match goal with
      | |- grows (match ?x with _ => _ end) => destruct x
      | |- grows (if ?b then _ else _) => destruct b
      end ].

Lemma grows_ensureDir p : grows (ensureDir p).
Proof. unfold ensureDir. solve_grows. Qed.

Lemma grows_pathExists p : grows (pathExists p).
Proof. unfold pathExists. solve_grows. Qed.

Lemma grows_readFile p : grows (readFile p).
Proof. unfold readFile. solve_grows. Qed.

Lemma grows_appendFile p s : grows (appendFile p s).
Proof. unfold appendFile. solve_grows. Qed.

Lemma grows_copy s d : grows (copy s d).
Proof.
  unfold copy. apply grows_bind; [apply grows_get_fs|intros es].
  destruct (lookup_in s es) as [sn|]; [|apply grows_throw].
  destruct (is_prefix s d); [apply grows_throw|].
  destruct sn, (lookup_in d es) as [[]|]; solve_grows; apply grows_ensureDir.
Qed.

Lemma grows_mergeStylesAt g cp : grows (mergeStylesAt g cp).
Proof.
  unfold mergeStylesAt. apply grows_bind; [apply grows_pathExists|intros b].
  destruct b; [|apply grows_ret].
  apply grows_bind; [apply grows_readFile|intros ?].
  apply grows_bind; [apply grows_readFile|intros ?].
  destruct (negb _); [apply grows_appendFile|apply grows_ret].
Qed.

Lemma grows_cleanupTemp : grows cleanupTemp.
Proof. unfold cleanupTemp, pathExists, remove, consoleWarn. solve_grows. Qed.

Lemma grows_promptSelect l : grows (promptSelect l).
Proof. unfold promptSelect. solve_grows. Qed.

Lemma lookup_catalog_entry E cat n :
  lookup_in ["packages"; "components"] (remote E) = Some (Dir cat) ->
  lookup_in ["packages"; "components"; n] (remote E) =
    match assoc n cat with Some c => Some c | None => None end.
Proof.
  intros Hc. change ["packages"; "components"; n] with (["packages"; "components"] ++ [n]).
  unfold lookup_in in *. rewrite lookup_app, Hc. cbn [lookup].
  destruct (assoc n cat); reflexivity.
Qed.

Lemma lookup_fetched E es p :
  lookup_in (TEMP_DIR ++ p) (put_in TEMP_DIR (Some (Dir (remote E))) es) = lookup_in p (remote E).
Proof. exact (lookup_put_top ".solo-ui-temp" (Dir (remote E)) p es). Qed.

Lemma src_listBody_offer E st cat comps :
  lookup_in TEMP_DIR (fs st) = None -> network_up E = true ->
  lookup_in ["packages"; "components"] (remote E) = Some (Dir cat) ->
  comps = filter (fun n => negb (starts_with "." n)
                           && negb (str_mem n ["styles"; "package.json"; "node_modules"])
                           && is_dir (lookup_in ["packages"; "components"; n] (remote E)))
                 (map fst cat) ->
  wp E CliSrc.listBody (fun r st' =>
    exists w,
      log st' = log st ++ [Net REPO_URL; SpinStop;
                           if Nat.eqb (length comps) 0 then SpinInfo "No components available"
                           else Prompt comps] ++ w /\
      (comps = [] -> r = Ok tt /\ w = [] /\
                     forall q, apart TEMP_DIR q -> lookup_in q (fs st') = lookup_in q (fs st))) st.
Proof.
  intros Ht Hn Hc Hcomps. unfold CliSrc.listBody.
  apply wp_bind, wp_ensureDir. rewrite (mkdirp_temp _ Ht).
  apply wp_bind, wp_gitClone. cbn [fs log].
  rewrite (lookup_put_top ".solo-ui-temp" (Dir []) [] (fs st)
            : lookup_in TEMP_DIR (put_in TEMP_DIR (Some (Dir [])) (fs st)) = Some (Dir [])).
  rewrite Hn.
  set (es2 := put_in TEMP_DIR (Some (Dir (remote E))) (put_in TEMP_DIR (Some (Dir [])) (fs st))).
  apply wp_bind, wp_readdir. cbn [fs log]. unfold es2. rewrite lookup_fetched, Hc. fold es2.
  apply wp_bind. unfold wp at 1.
  rewrite filterM_keepItem.
  2:{ intros n Hin. cbn [fs]. unfold es2. rewrite <- app_assoc, lookup_fetched; cbn [app]; rewrite (lookup_catalog_entry _ _ _ Hc).
      pose proof (assoc_in_some n cat Hin). destruct (assoc n cat); congruence. }
  cbn [fst snd].
  erewrite filter_ext; [rewrite <- Hcomps|].
  2:{ intros n. cbn [fs]. unfold es2. rewrite <- app_assoc, lookup_fetched. reflexivity. }
  apply wp_bind, wp_emit. cbn [fs log].
  destruct (Nat.eqb (length comps) 0) eqn:Hl.
  - apply wp_emit. cbn [fs log]. exists []. split.
    + now rewrite <- !app_assoc.
    + intros _. split; [reflexivity|split; [reflexivity|]].
      intros q [H1 H2]. unfold es2. rewrite !put_frame by assumption. reflexivity.
  - assert (Hne : comps <> []) by (intros ->; discriminate).
    apply wp_bind, wp_promptSelect. cbn [fs log].
    set (st4 := mkState es2 (((log st ++ [Net REPO_URL]) ++ [SpinStop]) ++ [Prompt comps])).
    match goal with |- wp E ?k _ _ => assert (Hg : grows k) end.
    { destruct (match answer E with Some i => nth_error comps i | None => None end) as [c|];
        [|apply grows_ret].
      destruct (truthy_str (Some c)); [|apply grows_ret].
      unfold CliSrc.mergeStyles, spinSucceed.
      apply grows_bind; [apply grows_ensureDir|intros _].
      apply grows_bind; [apply grows_copy|intros _].
      apply grows_bind; [apply grows_mergeStylesAt|intros _]. apply grows_emit. }
    unfold wp. destruct (Hg E st4) as [w Hw]. rewrite Hw. exists w. split.
    + unfold st4. cbn [log]. now rewrite <- !app_assoc.
    + intros H. congruence.
Qed.

(** X7: with the catalog fetched, [list] of [part_001] offers exactly the
    catalog entries that are directories, do not start with a dot and are
    not [styles], [package.json] or [node_modules]; when none is left it
    reports "No components available" and changes nothing outside the
    temporary directory. *)
Theorem src_list_offers E st cat :
  lookup_in TEMP_DIR (fs st) = None -> network_up E = true ->
  lookup_in ["packages"; "components"] (remote E) = Some (Dir cat) ->
  let comps := filter (fun n => negb (starts_with "." n)
                                && negb (str_mem n ["styles"; "package.json"; "node_modules"])
                                && is_dir (lookup_in ["packages"; "components"; n] (remote E)))
                      (map fst cat) in
  (exists w, log (snd (CliSrc.list E st)) =
     log st ++ [SpinStart "Fetching components..."; Net REPO_URL; SpinStop;
                if Nat.eqb (length comps) 0 then SpinInfo "No components available"
                else Prompt comps] ++ w) /\
  (comps = [] ->
     (log (snd (CliSrc.list E st)) =
        log st ++ [SpinStart "Fetching components..."; Net REPO_URL; SpinStop;
                   SpinInfo "No components available"] \/
      log (snd (CliSrc.list E st)) =
        log st ++ [SpinStart "Fetching components..."; Net REPO_URL; SpinStop;
                   SpinInfo "No components available"; Warn "Failed to clean up temporary directory"]) /\
     forall q, apart TEMP_DIR q -> lookup_in q (fs (snd (CliSrc.list E st))) = lookup_in q (fs st)).
Proof.
  intros Ht Hn Hc comps. unfold CliSrc.list. rewrite action_eq.
  pose proof (src_listBody_offer E (mkState (fs st) (log st ++ [SpinStart "Fetching components..."]))
                cat comps Ht Hn Hc eq_refl) as H.
  unfold wp in H.
  destruct (CliSrc.listBody E (mkState (fs st) (log st ++ [SpinStart "Fetching components..."])))
    as [r st2]. cbn [fst snd log fs] in H. destruct H as [w [Hw Hemp]].
  split.
  - destruct r as [u|e]; cbn [after_body].
    all: match goal with |- context [cleanupTemp ?E0 ?s] =>
           destruct (cleanupTemp_log E0 s) as [Hl|Hl] end.
    all: rewrite Hl; cbn [log]; rewrite Hw.
    all: rewrite <- !app_assoc; cbn [app]; eexists; reflexivity.
  - intros He. destruct (Hemp He) as [-> [-> Hf]]. cbn [after_body]. split.
    + destruct (cleanupTemp_log E st2) as [Hl|Hl]; rewrite Hl, Hw; rewrite <- !app_assoc;
        [left|right]; subst comps; rewrite He; reflexivity.
    + intros q Hq. rewrite (cleanupTemp_frames E st2 q Hq). exact (Hf q Hq).
Qed.

Lemma pkg_listBody_offer E st cat :
  lookup_in TEMP_DIR (fs st) = None -> network_up E = true ->
  lookup_in ["packages"; "components"] (remote E) = Some (Dir cat) ->
  wp E CliPkg.listBody (fun r st' =>
    exists w, log st' = log st ++ [Net REPO_URL; SpinStop; Prompt (map fst cat)] ++ w) st.
Proof.
  intros Ht Hn Hc. unfold CliPkg.listBody.
  apply wp_bind, wp_ensureDir. rewrite (mkdirp_temp _ Ht).
  apply wp_bind, wp_gitClone. cbn [fs log].
  rewrite (lookup_put_top ".solo-ui-temp" (Dir []) [] (fs st)
            : lookup_in TEMP_DIR (put_in TEMP_DIR (Some (Dir [])) (fs st)) = Some (Dir [])).
  rewrite Hn.
  apply wp_bind, wp_readdir. cbn [fs log]. rewrite lookup_fetched, Hc.
  apply wp_bind, wp_emit. cbn [fs log].
  apply wp_bind, wp_promptSelect. cbn [fs log].
  match goal with |- wp E ?k _ ?s => assert (Hg : grows k); [|set (st4 := s)] end.
  { destruct (match answer E with Some i => nth_error (map fst cat) i | None => None end) as [c|];
      [|apply grows_ret].
    destruct (truthy_str (Some c)); [|apply grows_ret].
    unfold CliPkg.mergeStyles, spinSucceed.
    apply grows_bind; [apply grows_copy|intros _].
    apply grows_bind; [apply grows_mergeStylesAt|intros _]. apply grows_emit. }
  unfold wp. destruct (Hg E st4) as [w Hw]. rewrite Hw. exists w.
  unfold st4. cbn [log]. now rewrite <- !app_assoc.
Qed.

(** X8: with the catalog fetched, [list] of [packages/cli] offers every
    name of the catalog directory, in order, without filtering. *)
Theorem pkg_list_offers E st cat :
  lookup_in TEMP_DIR (fs st) = None -> network_up E = true ->
  lookup_in ["packages"; "components"] (remote E) = Some (Dir cat) ->
  exists w, log (snd (CliPkg.list E st)) =
    log st ++ [SpinStart "Fetching components..."; Net REPO_URL; SpinStop; Prompt (map fst cat)] ++ w.
Proof.
  intros Ht Hn Hc. unfold CliPkg.list. rewrite action_eq.
  pose proof (pkg_listBody_offer E (mkState (fs st) (log st ++ [SpinStart "Fetching components..."]))
                cat Ht Hn Hc) as H.
  unfold wp in H.
  destruct (CliPkg.listBody E (mkState (fs st) (log st ++ [SpinStart "Fetching components..."])))
    as [r st2]. cbn [fst snd log fs] in H. destruct H as [w Hw].
  destruct r as [u|e]; cbn [after_body].
  all: match goal with |- context [cleanupTemp ?E0 ?s] =>
         destruct (cleanupTemp_log E0 s) as [Hl|Hl] end.
  all: rewrite Hl; cbn [log]; rewrite Hw.
  all: rewrite <- !app_assoc; cbn [app]; eexists; reflexivity.
Qed.

Lemma frames_ensureDir p : frames (ensureDir p) (fun q => is_prefix q p = false).
Proof.
  apply frames_wp. intros E st q Hq. apply wp_ensureDir.
  destruct (mkdirp [] p (fs st)) as [es'|e] eqn:Hm; [|reflexivity].
  exact (mkdirp_frame p [] _ _ Hm q Hq).
Qed.

Lemma frames_gitClone url dst : frames (gitClone url dst) (apart dst).
Proof.
  apply frames_wp. intros E st q [H1 H2]. apply wp_gitClone.
  destruct (lookup_in dst (fs st)) as [[t|j|[|x es]]|]; try reflexivity;
    destruct (network_up E); cbn [fs]; try reflexivity; apply put_frame; assumption.
Qed.

Lemma wp_keep_bind {A B} E (m : M A) (k : A -> M B) (P : path -> Prop) st0 st :
  frames m P ->
  (forall q, P q -> lookup_in q (fs st) = lookup_in q (fs st0)) ->
  (forall a st1, (forall q, P q -> lookup_in q (fs st1) = lookup_in q (fs st0)) ->
     wp E (k a) (fun _ st' => forall q, P q -> lookup_in q (fs st') = lookup_in q (fs st0)) st1) ->
  wp E (bind m k) (fun _ st' => forall q, P q -> lookup_in q (fs st') = lookup_in q (fs st0)) st.
Proof.
  intros Hf H0 Hk. unfold wp, bind.
  assert (H1 : forall q, P q -> lookup_in q (fs (snd (m E st))) = lookup_in q (fs st0))
    by (intros q Hq; rewrite (Hf E st q Hq); exact (H0 q Hq)).
  destruct (m E st) as [[a|e] st1]; cbn [fst snd] in *; [exact (Hk a st1 H1)|exact H1].
Qed.

Lemma wp_keep_readonly {A} E (m : M A) (P : path -> Prop) st0 st :
  readonly m ->
  (forall q, P q -> lookup_in q (fs st) = lookup_in q (fs st0)) ->
  wp E m (fun _ st' => forall q, P q -> lookup_in q (fs st') = lookup_in q (fs st0)) st.
Proof. intros Hr H0. unfold wp. rewrite (Hr E st). exact H0. Qed.

(** X9: when the selection prompt is cancelled, neither [list] changes any
    path outside the temporary directory. *)
Theorem list_cancel_keeps_project E st :
  answer E = None ->
  (forall q, apart TEMP_DIR q -> lookup_in q (fs (snd (CliPkg.list E st))) = lookup_in q (fs st)) /\
  (forall q, apart TEMP_DIR q -> lookup_in q (fs (snd (CliSrc.list E st))) = lookup_in q (fs st)).
Proof.
  intros Ha. split; apply action_frame; try (intros q Hq; exact Hq).
  - unfold CliPkg.listBody.
    apply wp_keep_bind; [apply (frames_weaken _ _ _ (frames_ensureDir TEMP_DIR)); intros q [_ H]; exact H
                        |intros q _; reflexivity|intros _ st1 H1].
    apply wp_keep_bind; [apply frames_gitClone|exact H1|intros _ st2 H2].
    apply wp_keep_bind; [apply readonly_frames, readonly_readdir|exact H2|intros l st3 H3].
    apply wp_keep_bind; [apply readonly_frames, readonly_emit|exact H3|intros _ st4 H4].
    apply wp_bind, wp_promptSelect. rewrite Ha. apply wp_ret. exact H4.
  - unfold CliSrc.listBody.
    apply wp_keep_bind; [apply (frames_weaken _ _ _ (frames_ensureDir TEMP_DIR)); intros q [_ H]; exact H
                        |intros q _; reflexivity|intros _ st1 H1].
    apply wp_keep_bind; [apply frames_gitClone|exact H1|intros _ st2 H2].
    apply wp_keep_bind; [apply readonly_frames, readonly_readdir|exact H2|intros l st3 H3].
    apply wp_keep_bind; [apply readonly_frames, readonly_filterM|exact H3|intros l' st4 H4].
    apply wp_keep_bind; [apply readonly_frames, readonly_emit|exact H4|intros _ st5 H5].
    destruct (Nat.eqb (length l') 0).
    + apply wp_keep_readonly; [apply readonly_emit|exact H5].
    + apply wp_bind, wp_promptSelect. rewrite Ha. apply wp_ret. exact H5.
Qed.

Lemma put_some_parent p n es :
  p <> [] -> is_dir (lookup_in (removelast p) es) = true ->
  lookup_in p (put_in p (Some n) es) = Some n.
Proof.
  revert es. induction p as [|x p IH]; intros es Hp H; [congruence|].
  destruct p as [|z p'].
  - unfold lookup_in. simpl. now rewrite assoc_set_same.
  - change (removelast (x :: z :: p')) with (x :: removelast (z :: p')) in H.
    rewrite lookup_in_cons in H. rewrite put_in_deep, lookup_in_cons.
    destruct (assoc x es) as [[t|j|ces]|] eqn:Ha; try discriminate.
    + destruct (removelast (z :: p')); discriminate.
    + destruct (removelast (z :: p')); discriminate.
    + rewrite assoc_set_same. apply (IH ces); [discriminate|exact H].
Qed.

Lemma mkdirp_dir rest : forall pre es es',
  is_dir (lookup_in pre es) = true -> mkdirp pre rest es = Ok es' ->
  is_dir (lookup_in (pre ++ rest) es') = true.
Proof.
  induction rest as [|x rest IH]; intros pre es es' Hd H.
  - simpl in H. injection H as <-. now rewrite app_nil_r.
  - rewrite mkdirp_cons in H. change (pre ++ x :: rest) with (pre ++ [x] ++ rest). rewrite app_assoc.
    destruct (lookup_in (pre ++ [x]) es) as [[t|j|ces]|] eqn:Hl; try discriminate.
    + apply (IH _ es); [now rewrite Hl|exact H].
    + refine (IH _ _ _ _ H). rewrite put_some_parent; [reflexivity|now destruct pre|].
      now rewrite removelast_last.
Qed.

Lemma lookup_dir_prefix p q es :
  is_dir (lookup_in (p ++ q) es) = true -> is_dir (lookup_in p es) = true.
Proof.
  unfold lookup_in. rewrite lookup_app. destruct (lookup p (Dir es)) as [[t|j|ces]|]; try reflexivity.
  all: destruct q; simpl; congruence.
Qed.

Lemma mkdirp_existing rest : forall pre es,
  is_dir (lookup_in (pre ++ rest) es) = true -> mkdirp pre rest es = Ok es.
Proof.
  induction rest as [|x rest IH]; intros pre es H; [reflexivity|].
  rewrite mkdirp_cons. change (pre ++ x :: rest) with (pre ++ [x] ++ rest) in H.
  rewrite app_assoc in H. pose proof (lookup_dir_prefix _ _ _ H) as Hx.
  destruct (lookup_in (pre ++ [x]) es) as [[t|j|ces]|]; try discriminate. exact (IH _ _ H).
Qed.

Lemma ensureDir_ok p es' E st :
  mkdirp [] p (fs st) = Ok es' -> ensureDir p E st = (Ok tt, mkState es' (log st)).
Proof. intros H. unfold ensureDir, bind, get_fs. now rewrite H. Qed.

Lemma gitClone_ok url dst E st :
  lookup_in dst (fs st) = None -> network_up E = true ->
  gitClone url dst E st =
    (Ok tt, mkState (put_in dst (Some (Dir (remote E))) (fs st)) (log st ++ [Net url])).
Proof. intros H Hn. apply wp_exact, wp_gitClone. now rewrite H, Hn. Qed.

Lemma copy_file_ok src dst n E st :
  lookup_in src (fs st) = Some n -> is_dir (Some n) = false -> is_prefix src dst = false ->
  is_dir (lookup_in dst (fs st)) = false -> is_dir (lookup_in (removelast dst) (fs st)) = true ->
  copy src dst E st = (Ok tt, mkState (put_in dst (Some n) (fs st)) (log st)).
Proof.
  intros Hs Hn Hp Hd Hr. unfold copy. unfold bind at 1, get_fs at 1. rewrite Hs, Hp.
  destruct n as [t|j|ces]; try discriminate;
    destruct (lookup_in dst (fs st)) as [[t'|j'|ds]|] eqn:Hl; try discriminate;
    unfold ensureDir, throw; unfold bind, get_fs, set_fs, ret;
    cbv beta iota zeta; rewrite (mkdirp_existing (removelast dst) [] (fs st) Hr); cbn [fst snd fs log];
    cbv beta iota zeta; cbn [fs log]; rewrite Hl; cbn [copy_node]; reflexivity.
Qed.

Lemma write_node_ok p n E st :
  is_dir (lookup_in p (fs st)) = false -> is_dir (lookup_in (removelast p) (fs st)) = true ->
  write_node p n E st = (Ok tt, mkState (put_in p (Some n) (fs st)) (log st)).
Proof.
  intros Hd Hr. unfold write_node, bind, get_fs, set_fs.
  destruct (lookup_in p (fs st)) as [[]|]; try discriminate; rewrite Hr; reflexivity.
Qed.


Lemma readJson_ok p j E st :
  lookup_in p (fs st) = Some (Json j) -> readJson p E st = (Ok j, st).
Proof. intros H. unfold readJson, bind, get_fs, ret. now rewrite H. Qed.

Lemma mkdirp_two a b es :
  blocks (lookup_in [a] es) = false -> blocks (lookup_in [a; b] es) = false ->
  exists es', mkdirp [] [a; b] es = Ok es'.
Proof.
  intros H1 H2. apply mkdirp_ok. intros q Hq _ Hne. simpl in Hq.
  destruct q as [|x [|y [|d q']]]; [congruence| | |].
  - simpl in Hq. rewrite Bool.andb_true_r in Hq. apply String.eqb_eq in Hq. now subst.
  - simpl in Hq. rewrite Bool.andb_true_r in Hq. apply Bool.andb_true_iff in Hq as [Ha Hb].
    apply String.eqb_eq in Ha, Hb. now subst.
  - simpl in Hq. rewrite !Bool.andb_false_r in Hq. discriminate.
Qed.

Lemma is_dir_blocks v : is_dir v = true -> blocks v = false.
Proof. destruct v as [[]|]; easy. Qed.

Lemma emit_eq ev E st : emit ev E st = (Ok tt, mkState (fs st) (log st ++ [ev])).
Proof. reflexivity. Qed.


Ltac step H := rewrite (bind_ok _ _ _ _ _ _ H); cbv beta.

Ltac frame := rewrite !put_frame by reflexivity.


Lemma checkVersion_shape E st :
  exists w, CliPkg.checkVersion E st = (Ok tt, mkState (fs st) (log st ++ w)) /\
            (w = [] \/ exists msg, w = [Warn msg]).
Proof.
  unfold CliPkg.checkVersion, tryCatch, consoleWarn.
  pose proof (readonly_checkVersion E st) as Hr. unfold CliPkg.checkVersion, tryCatch, consoleWarn in Hr.
  destruct st as [es lg].
  cbv [bind readJson get_fs ret throw prop emit fs log] in *.
  destruct (lookup_in (TEMP_DIR ++ ["package.json"]) es) as [[t|j|d]|].
  2: destruct (lookup_in ["package.json"] es) as [[t'|j'|d']|].
  3: destruct j as [| | | | |r]; destruct j' as [| | | | |l].
  all: cbv beta iota zeta.
  all: try (destruct (js_strict_neq _ _)).
  all: first [ exists []; split; [cbn; rewrite app_nil_r; reflexivity|left; reflexivity]
             | eexists; split; [reflexivity|right; eexists; reflexivity] ].
Qed.

Lemma mkdirp_one a es : blocks (lookup_in [a] es) = false -> exists es', mkdirp [] [a] es = Ok es'.
Proof.
  intros H. apply mkdirp_ok. intros q Hq _ Hne. simpl in Hq.
  destruct q as [|x [|y q']]; [congruence| |].
  - simpl in Hq. rewrite Bool.andb_true_r in Hq. apply String.eqb_eq in Hq. now subst.
  - simpl in Hq. rewrite !Bool.andb_false_r in Hq. discriminate.
Qed.

(** X11: under the same conditions, [init] of [packages/cli] installs the
    three files unchanged under [styles/] and the root, updates the
    manifest, creates [components] and logs success after the version
    check's warning, if any. *)
Theorem pkg_init_success E st fs0 g tw pc :
  lookup_in ["package.json"] (fs st) = Some (Json (JObj fs0)) ->
  lookup_in TEMP_DIR (fs st) = None -> network_up E = true ->
  blocks (lookup_in ["styles"] (fs st)) = false ->
  blocks (lookup_in ["components"] (fs st)) = false ->
  is_dir (lookup_in ["styles"; "globals.css"] (fs st)) = false ->
  is_dir (lookup_in ["tailwind.config.js"] (fs st)) = false ->
  is_dir (lookup_in ["postcss.config.js"] (fs st)) = false ->
  lookup_in ["packages"; "components"; "styles"; "globals.css"] (remote E) = Some (File g) ->
  lookup_in ["tailwind.config.js"] (remote E) = Some (File tw) ->
  lookup_in ["postcss.config.js"] (remote E) = Some (File pc) ->
  let st' := snd (CliPkg.init E st) in
  lookup_in ["styles"; "globals.css"] (fs st') = Some (File g) /\
  lookup_in ["tailwind.config.js"] (fs st') = Some (File tw) /\
  lookup_in ["postcss.config.js"] (fs st') = Some (File pc) /\
  (exists j, updateManifest (JObj fs0) = Ok j /\ lookup_in ["package.json"] (fs st') = Some (Json j)) /\
  is_dir (lookup_in ["components"] (fs st')) = true /\
  exists w1 w2, (w1 = [] \/ exists msg, w1 = [Warn msg]) /\
    (w2 = [] \/ w2 = [Warn "Failed to clean up temporary directory"]) /\
    log st' = log st ++ [SpinStart "Initializing solo-ui..."; Net REPO_URL] ++ w1 ++
                        [SpinSucceed "Successfully initialized solo-ui!";
                         Log (nl +++ "Next steps:");
                         Log "1. Run 'npm install' or 'pnpm install' to install dependencies";
                         Log "2. Import 'styles/globals.css' in your main application file";
                         Log "3. Start using solo-ui components with 'solo-ui add <component>'"] ++ w2.
Proof.
  intros Hp HT Hn Hb1 Hb2 Hd1 Hd2 Hd3 Hr1 Hr2 Hr3 st'.
  destruct (mkdirp_one "styles" (fs st) Hb1) as [es1 Hm1].
  pose proof (mkdirp_frame _ _ _ _ Hm1) as Hf1.
  pose proof (mkdirp_dir _ [] _ _ eq_refl Hm1) as Hs1. cbn [app] in Hs1.
  assert (Hb2' : blocks (lookup_in ["components"] es1) = false) by (rewrite Hf1; auto).
  destruct (mkdirp_one "components" es1 Hb2') as [es2 Hm2].
  pose proof (mkdirp_frame _ _ _ _ Hm2) as Hf2.
  pose proof (mkdirp_dir _ [] _ _ eq_refl Hm2) as Hc2. cbn [app] in Hc2.
  assert (Hf12 : forall q, is_prefix q ["styles"] = false ->
                   is_prefix q ["components"] = false -> lookup_in q es2 = lookup_in q (fs st))
    by (intros q H1 H2; rewrite Hf2, Hf1 by assumption; reflexivity).
  assert (HT2 : lookup_in TEMP_DIR es2 = None) by (rewrite Hf12 by reflexivity; exact HT).
  assert (Hs2 : is_dir (lookup_in ["styles"] es2) = true) by (rewrite Hf2 by reflexivity; exact Hs1).
  set (es3 := put_in TEMP_DIR (Some (Dir (remote E))) es2).
  set (es4 := put_in ["styles"; "globals.css"] (Some (File g)) es3).
  set (es5 := put_in ["tailwind.config.js"] (Some (File tw)) es4).
  set (es6 := put_in ["postcss.config.js"] (Some (File pc)) es5).
  assert (Hu : exists j, updateManifest (JObj fs0) = Ok j) by (eexists; reflexivity).
  destruct Hu as [j Hu].
  set (es7 := put_in ["package.json"] (Some (Json j)) es6).
  set (st1 := mkState (fs st) (log st ++ [SpinStart "Initializing solo-ui..."])).
  destruct (checkVersion_shape E (mkState es3 (log st1 ++ [Net REPO_URL]))) as [w1 [Hcv Hw1]].
  cbn [fs log] in Hcv.
  assert (Hbody : CliPkg.initBody E st1 =
    (Ok tt, mkState es7 (((log st1 ++ [Net REPO_URL]) ++ w1) ++
                        [SpinSucceed "Successfully initialized solo-ui!";
                         Log (nl +++ "Next steps:");
                         Log "1. Run 'npm install' or 'pnpm install' to install dependencies";
                         Log "2. Import 'styles/globals.css' in your main application file";
                         Log "3. Start using solo-ui components with 'solo-ui add <component>'"]))).
  { unfold CliPkg.initBody.
    step (checkProjectConfig_present E st1 ltac:(cbn [st1 fs]; rewrite Hp; discriminate)).
    step (ensureDir_ok _ _ E st1 Hm1).
    step (ensureDir_ok _ _ E (mkState es1 (log st1)) Hm2).
    step (gitClone_ok REPO_URL TEMP_DIR E (mkState es2 (log st1)) HT2 Hn). fold es3.
    step Hcv.
    step (copy_file_ok (TEMP_DIR ++ ["packages"; "components"; "styles"; "globals.css"])
            ["styles"; "globals.css"] (File g) E (mkState es3 ((log st1 ++ [Net REPO_URL]) ++ w1))
            ltac:(cbn [fs]; unfold es3; rewrite lookup_fetched; exact Hr1) eq_refl eq_refl
            ltac:(cbn [fs]; unfold es3; frame; rewrite Hf12 by reflexivity; exact Hd1)
            ltac:(cbn [fs removelast]; unfold es3; frame; exact Hs2)). fold es4.
    step (copy_file_ok (TEMP_DIR ++ ["tailwind.config.js"]) ["tailwind.config.js"] (File tw) E
            (mkState es4 ((log st1 ++ [Net REPO_URL]) ++ w1))
            ltac:(cbn [fs]; unfold es4; frame; unfold es3; rewrite lookup_fetched; exact Hr2) eq_refl eq_refl
            ltac:(cbn [fs]; unfold es4, es3; frame; rewrite Hf12 by reflexivity; exact Hd2)
            eq_refl). fold es5.
    step (copy_file_ok (TEMP_DIR ++ ["postcss.config.js"]) ["postcss.config.js"] (File pc) E
            (mkState es5 ((log st1 ++ [Net REPO_URL]) ++ w1))
            ltac:(cbn [fs]; unfold es5, es4; frame; unfold es3; rewrite lookup_fetched; exact Hr3)
            eq_refl eq_refl
            ltac:(cbn [fs]; unfold es5, es4, es3; frame; rewrite Hf12 by reflexivity; exact Hd3)
            eq_refl). fold es6.
    step (readJson_ok ["package.json"] (JObj fs0) E (mkState es6 ((log st1 ++ [Net REPO_URL]) ++ w1))
            ltac:(cbn [fs]; unfold es6, es5, es4, es3; frame; rewrite Hf12 by reflexivity; exact Hp)).
    unfold writeManifest. rewrite Hu. unfold writeJson.
    step (write_node_ok ["package.json"] (Json j) E (mkState es6 ((log st1 ++ [Net REPO_URL]) ++ w1))
            ltac:(cbn [fs]; unfold es6, es5, es4, es3; frame; rewrite Hf12 by reflexivity; rewrite Hp; reflexivity)
            eq_refl). fold es7.
    unfold spinSucceed, consoleLog. rewrite !(bind_ok _ _ _ _ _ _ (emit_eq _ _ _)). cbv beta.
    rewrite emit_eq. cbn [fs log]. rewrite <- !app_assoc. reflexivity. }
  unfold st', CliPkg.init. rewrite action_eq. fold st1. rewrite Hbody. cbn [after_body].
  set (st9 := mkState es7 _).
  assert (Hk : forall q, apart TEMP_DIR q -> lookup_in q (fs (snd (cleanupTemp E st9))) = lookup_in q es7)
    by (intros q Hq; exact (cleanupTemp_frames E st9 q Hq)).
  split; [|split; [|split; [|split; [|split]]]].
  - rewrite Hk by (split; reflexivity). unfold es7, es6, es5, es4. frame.
    apply put_some_parent; [discriminate|]. cbn [removelast]. unfold es3. frame. exact Hs2.
  - rewrite Hk by (split; reflexivity). unfold es7, es6, es5. frame.
    apply put_some_parent; [discriminate|reflexivity].
  - rewrite Hk by (split; reflexivity). unfold es7, es6. frame.
    apply put_some_parent; [discriminate|reflexivity].
  - exists j. split; [exact Hu|]. rewrite Hk by (split; reflexivity). unfold es7.
    apply put_some_parent; [discriminate|reflexivity].
  - rewrite Hk by (split; reflexivity). unfold es7, es6, es5, es4, es3. frame. exact Hc2.
  - exists w1. destruct (cleanupTemp_log E st9) as [Hl|Hl]; rewrite Hl; unfold st9, st1; cbn [log].
    + exists []. split; [exact Hw1|split; [left; reflexivity|]]. rewrite <- !app_assoc. reflexivity.
    + eexists. split; [exact Hw1|split; [right; reflexivity|]]. rewrite <- !app_assoc. reflexivity.
Qed.

Lemma set_entry_absent {A} x (v : A) l : assoc x l = None -> set_entry x v l = l ++ [(x, v)].
Proof.
  induction l as [|[y w] l IH]; simpl; [reflexivity|].
  destruct (String.eqb x y); [discriminate|]. intros H. now rewrite IH.
Qed.

Lemma assoc_app_none {A} x (l1 l2 : list (string * A)) :
  assoc x l1 = None -> assoc x l2 = None -> assoc x (l1 ++ l2) = None.
Proof.
  induction l1 as [|[y w] l1 IH]; simpl; [tauto|].
  destruct (String.eqb x y); [discriminate|]. exact IH.
Qed.

Lemma str_mem_false x l : str_mem x l = false -> ~ In x l.
Proof.
  unfold str_mem. induction l as [|y l IH]; simpl; [tauto|].
  intros H [->|Hin]; apply Bool.orb_false_iff in H as [H1 H2].
  - now rewrite String.eqb_refl in H1.
  - exact (IH H2 Hin).
Qed.

Lemma copy_node_fresh : forall n, wf_node n = true -> copy_node n None = (Some n, None).
Proof.
  fix IH 1. intros n Hw. destruct n as [t|j|ses]; [reflexivity|reflexivity|].
  cbn [copy_node]. cbn [wf_node] in Hw.
  match goal with |- (let '(_, _) := ?GO ses [] in _) = _ =>
    enough (Hgo : forall des, (forall x, In x (map fst ses) -> assoc x des = None) ->
                              GO ses des = (des ++ ses, None))
      by (rewrite (Hgo [] (fun _ _ => eq_refl)); reflexivity) end.
  clear -IH Hw. revert ses Hw. fix IHl 1. intros [|[x c] ses'] Hw des Hd.
  - cbn. now rewrite app_nil_r.
  - cbn [wf_node] in Hw. apply andb_prop in Hw as [Hw Hw']. apply andb_prop in Hw as [Hx Hc].
    cbn beta iota.
    rewrite (Hd x (or_introl eq_refl)), (IH c Hc), set_entry_absent by exact (Hd x (or_introl eq_refl)).
    rewrite (IHl ses' Hw'), <- app_assoc; [reflexivity|].
    intros y Hy. apply assoc_app_none; [exact (Hd y (or_intror Hy))|]. cbn.
    destruct (String.eqb_spec y x) as [->|]; [|reflexivity].
    apply Bool.negb_true_iff, str_mem_false in Hx. contradiction.
Qed.

Lemma copy_fresh_ok src dst n es' E st :
  lookup_in src (fs st) = Some n -> wf_node n = true -> is_prefix src dst = false ->
  lookup_in dst (fs st) = None -> is_prefix dst (removelast dst) = false ->
  mkdirp [] (removelast dst) (fs st) = Ok es' ->
  copy src dst E st = (Ok tt, mkState (put_in dst (Some n) es') (log st)).
Proof.
  intros Hs Hw Hp Hd Hdr Hm. unfold copy. unfold bind at 1, get_fs at 1. rewrite Hs, Hp.
  assert (Hd' : lookup_in dst es' = None) by (rewrite (mkdirp_frame _ _ _ _ Hm dst Hdr); exact Hd).
  destruct n as [t|j|ces]; rewrite Hd; unfold ensureDir, throw; unfold bind, get_fs, set_fs, ret;
    cbv beta iota zeta; rewrite Hm; cbv beta iota zeta; cbn [fs log]; rewrite Hd';
    rewrite (copy_node_fresh _ Hw); reflexivity.
Qed.

Lemma put_lookup_below dst n p es :
  dst <> [] -> is_dir (lookup_in (removelast dst) es) = true ->
  lookup_in (dst ++ p) (put_in dst (Some n) es) = lookup p n.
Proof.
  intros Hd Hr. unfold lookup_in at 1. rewrite lookup_app. fold (lookup_in dst (put_in dst (Some n) es)).
  now rewrite put_some_parent.
Qed.

Lemma gitClone_fresh_ok url dst E st :
  match lookup_in dst (fs st) with None | Some (Dir []) => True | _ => False end ->
  network_up E = true ->
  gitClone url dst E st =
    (Ok tt, mkState (put_in dst (Some (Dir (remote E))) (fs st)) (log st ++ [Net url])).
Proof.
  intros H Hn. apply wp_exact, wp_gitClone.
  destruct (lookup_in dst (fs st)) as [[t|j|[|x es]]|]; try contradiction; now rewrite Hn.
Qed.

Lemma pathExists_some p n E st : lookup_in p (fs st) = Some n -> pathExists p E st = (Ok true, st).
Proof. intros H. unfold pathExists, bind, get_fs, ret. now rewrite H. Qed.

Lemma mergeStylesAt_ok g cp E st :
  (forall ns, lookup_in (cp ++ ["styles.css"]) (fs st) = Some ns ->
     text_of ns <> None /\ exists ng, lookup_in g (fs st) = Some ng /\ text_of ng <> None) ->
  exists es', mergeStylesAt g cp E st = (Ok tt, mkState es' (log st)) /\
              forall q, apart g q -> lookup_in q es' = lookup_in q (fs st).
Proof.
  intros H. rewrite mergeStylesAt_eq.
  destruct (lookup_in (cp ++ ["styles.css"]) (fs st)) as [ns|] eqn:Hs.
  2:{ exists (fs st). destruct st; split; reflexivity. }
  destruct (H ns eq_refl) as [Hf [ng [Hg Ht]]].
  destruct (text_of ns) as [f|]; [|congruence]. rewrite Hg.
  destruct (text_of ng) as [t|]; [|congruence].
  destruct (includes t f).
  - exists (fs st). destruct st; split; reflexivity.
  - eexists. split; [reflexivity|]. intros q [H1 H2]. apply put_frame; assumption.
Qed.

(** X12: when the component exists in the catalog, is not yet installed and
    every precondition of [add] of [part_001] holds, the installed
    [src/components/<c>] is a copy of the catalog's directory and the log
    reports success. *)
Theorem src_add_success c E st ces :
  valid_segment c = true ->
  lookup_in ["package.json"] (fs st) <> None ->
  lookup_in TEMP_DIR (fs st) = None -> network_up E = true ->
  blocks (lookup_in ["src"] (fs st)) = false ->
  blocks (lookup_in ["src"; "components"] (fs st)) = false ->
  lookup_in ["src"; "components"; c] (fs st) = None ->
  is_dir (lookup_in ["components"; c; "types.ts"] (remote E)) = false ->
  lookup_in ["packages"; "components"; c] (remote E) = Some (Dir ces) ->
  wf_node (Dir ces) = true ->
  (forall ns, lookup_in ["packages"; "components"; c; "styles.css"] (remote E) = Some ns ->
     text_of ns <> None /\
     exists ng, lookup_in CliSrc.globalStylePath (fs st) = Some ng /\ text_of ng <> None) ->
  let st' := snd (CliSrc.add c E st) in
  (forall p, lookup_in (["src"; "components"; c] ++ p) (fs st') = lookup p (Dir ces)) /\
  exists w, (w = [] \/ w = [Warn "Failed to clean up temporary directory"]) /\
    log st' = log st ++ [SpinStart "Fetching component..."; Net REPO_URL;
                         SpinSucceed ("Successfully added " +++ c +++ " component to src/components/" +++ c)] ++ w.
Proof.
  intros Hv Hp HT Hn Hb1 Hb2 Hd Hty Hc Hw Hsty st'.
  set (st1 := mkState (fs st) (log st ++ [SpinStart "Fetching component..."])).
  set (es1 := put_in TEMP_DIR (Some (Dir [])) (fs st)).
  assert (Hb1' : blocks (lookup_in ["src"] es1) = false)
    by (unfold es1; rewrite put_frame by reflexivity; exact Hb1).
  assert (Hb2' : blocks (lookup_in ["src"; "components"] es1) = false)
    by (unfold es1; rewrite put_frame by reflexivity; exact Hb2).
  destruct (mkdirp_two "src" "components" es1 Hb1' Hb2') as [es2 Hm2].
  pose proof (mkdirp_frame _ _ _ _ Hm2) as Hf2.
  pose proof (mkdirp_dir _ [] _ _ eq_refl Hm2) as Hc2. cbn [app] in Hc2.
  assert (HT2 : lookup_in TEMP_DIR es2 = Some (Dir [])).
  { rewrite Hf2 by reflexivity. exact (lookup_put_top _ _ [] _). }
  set (es3 := put_in TEMP_DIR (Some (Dir (remote E))) es2).
  set (dst := ["src"; "components"; c]).
  set (es4 := put_in dst (Some (Dir ces)) es3).
  set (cp := (TEMP_DIR ++ ["packages"; "components"]) ++ [c]).
  assert (Hdst3 : lookup_in dst es3 = None).
  { unfold es3, dst. rewrite put_frame, Hf2 by reflexivity. unfold es1. rewrite put_frame by reflexivity.
    exact Hd. }
  assert (Hpar3 : is_dir (lookup_in (removelast dst) es3) = true).
  { unfold dst. cbn [removelast]. unfold es3. rewrite put_frame by reflexivity. exact Hc2. }
  destruct (mergeStylesAt_ok CliSrc.globalStylePath cp E
              (mkState es4 (log st1 ++ [Net REPO_URL]))) as [es5 [Hme Hf5]].
  { intros ns Hns. cbn [fs] in Hns |- *. unfold es4, cp in Hns. rewrite put_frame in Hns by reflexivity.
    unfold es3 in Hns. rewrite <- !app_assoc, lookup_fetched in Hns. cbn [app] in Hns.
    destruct (Hsty ns Hns) as [H1 [ng [H2 H3]]]. split; [exact H1|]. exists ng. split; [|exact H3].
    unfold es4, es3. rewrite !put_frame, Hf2 by reflexivity. unfold es1. rewrite put_frame by reflexivity.
    exact H2. }
  assert (Hbody : CliSrc.addBody c E st1 =
    (Ok tt, mkState es5 (log st1 ++ [Net REPO_URL;
                         SpinSucceed ("Successfully added " +++ c +++ " component to src/components/" +++ c)]))).
  { unfold CliSrc.addBody.
    step (checkProjectConfig_present E st1 Hp).
    step (ensureDir_ok _ _ E st1 (mkdirp_temp _ HT)). fold es1.
    step (ensureDir_ok _ _ E (mkState es1 (log st1)) Hm2).
    step (gitClone_fresh_ok REPO_URL TEMP_DIR E (mkState es2 (log st1)) ltac:(cbn [fs]; rewrite HT2; exact I) Hn).
    fold es3.
    step (checkComponentDependencies_ok c E (mkState es3 (log st1 ++ [Net REPO_URL]))
            ltac:(cbn [fs]; rewrite join_segment by exact Hv; unfold es3;
                  rewrite <- !app_assoc, lookup_fetched; exact Hty)).
    rewrite !join_segment by exact Hv. fold cp.
    step (pathExists_some cp (Dir ces) E (mkState es3 (log st1 ++ [Net REPO_URL]))
            ltac:(cbn [fs]; unfold cp, es3; rewrite <- !app_assoc, lookup_fetched; exact Hc)).
    cbn [negb].
    step (copy_fresh_ok cp dst (Dir ces) es3 E (mkState es3 (log st1 ++ [Net REPO_URL]))
            ltac:(cbn [fs]; unfold cp, es3; rewrite <- !app_assoc, lookup_fetched; exact Hc)
            Hw eq_refl Hdst3 eq_refl (mkdirp_existing _ [] _ Hpar3)). fold es4.
    unfold CliSrc.mergeStyles. step Hme.
    unfold spinSucceed. rewrite emit_eq. cbn [fs log]. rewrite <- !app_assoc. reflexivity. }
  unfold st', CliSrc.add. rewrite action_eq. fold st1. rewrite Hbody. cbn [after_body].
  set (st9 := mkState es5 _).
  split.
  - intros p. rewrite (cleanupTemp_frames E st9) by (split; reflexivity). cbn [fs st9].
    rewrite Hf5 by (split; reflexivity). unfold es4.
    apply put_lookup_below; [discriminate|exact Hpar3].
  - destruct (cleanupTemp_log E st9) as [Hl|Hl]; rewrite Hl; unfold st9, st1; cbn [log].
    + exists []. split; [left; reflexivity|]. rewrite <- !app_assoc. reflexivity.
    + eexists. split; [right; reflexivity|]. rewrite <- !app_assoc. reflexivity.
Qed.

(** X13: the same for [add] of [packages/cli], which installs into
    [components/<c>] and logs after the version check. *)
Theorem pkg_add_success c E st ces :
  valid_segment c = true ->
  lookup_in ["package.json"] (fs st) <> None ->
  lookup_in TEMP_DIR (fs st) = None -> network_up E = true ->
  blocks (lookup_in ["components"] (fs st)) = false ->
  lookup_in ["components"; c] (fs st) = None ->
  is_dir (lookup_in ["components"; c; "types.ts"] (remote E)) = false ->
  lookup_in ["components"; c] (remote E) = Some (Dir ces) ->
  wf_node (Dir ces) = true ->
  (forall ns, lookup_in ["components"; c; "styles.css"] (remote E) = Some ns ->
     text_of ns <> None /\
     exists ng, lookup_in CliPkg.globalStylePath (fs st) = Some ng /\ text_of ng <> None) ->
  let st' := snd (CliPkg.add c E st) in
  (forall p, lookup_in (["components"; c] ++ p) (fs st') = lookup p (Dir ces)) /\
  exists w1 w2, (w1 = [] \/ exists msg, w1 = [Warn msg]) /\
    (w2 = [] \/ w2 = [Warn "Failed to clean up temporary directory"]) /\
    log st' = log st ++ [SpinStart "Fetching component..."; Net REPO_URL] ++ w1 ++
                        [SpinSucceed ("Successfully added " +++ c +++ " component")] ++ w2.
Proof.
  intros Hv Hp HT Hn Hb Hd Hty Hc Hw Hsty st'.
  set (st1 := mkState (fs st) (log st ++ [SpinStart "Fetching component..."])).
  set (es1 := put_in TEMP_DIR (Some (Dir [])) (fs st)).
  set (es3 := put_in TEMP_DIR (Some (Dir (remote E))) es1).
  assert (Hb3 : blocks (lookup_in ["components"] es3) = false)
    by (unfold es3, es1; rewrite !put_frame by reflexivity; exact Hb).
  destruct (mkdirp_one "components" es3 Hb3) as [es3' Hm3].
  pose proof (mkdirp_frame _ _ _ _ Hm3) as Hf3.
  pose proof (mkdirp_dir _ [] _ _ eq_refl Hm3) as Hc3. cbn [app] in Hc3.
  set (dst := ["components"; c]).
  set (es4 := put_in dst (Some (Dir ces)) es3').
  set (cp := (TEMP_DIR ++ ["components"]) ++ [c]).
  assert (Hdst3 : lookup_in dst es3 = None)
    by (unfold es3, es1, dst; rewrite !put_frame by reflexivity; exact Hd).
  destruct (checkVersion_shape E (mkState es3 (log st1 ++ [Net REPO_URL]))) as [w1 [Hcv Hw1]].
  cbn [fs log] in Hcv.
  destruct (mergeStylesAt_ok CliPkg.globalStylePath cp E
              (mkState es4 ((log st1 ++ [Net REPO_URL]) ++ w1))) as [es5 [Hme Hf5]].
  { intros ns Hns. cbn [fs] in Hns |- *. unfold es4, cp in Hns. rewrite put_frame in Hns by reflexivity.
    rewrite Hf3 in Hns by reflexivity.
    unfold es3 in Hns. rewrite <- !app_assoc, lookup_fetched in Hns. cbn [app] in Hns.
    destruct (Hsty ns Hns) as [H1 [ng [H2 H3]]]. split; [exact H1|]. exists ng. split; [|exact H3].
    unfold es4. rewrite put_frame, Hf3 by reflexivity. unfold es3, es1. rewrite !put_frame by reflexivity.
    exact H2. }
  assert (Hbody : CliPkg.addBody c E st1 =
    (Ok tt, mkState es5 (((log st1 ++ [Net REPO_URL]) ++ w1) ++
                         [SpinSucceed ("Successfully added " +++ c +++ " component")]))).
  { unfold CliPkg.addBody.
    step (checkProjectConfig_present E st1 Hp).
    step (ensureDir_ok _ _ E st1 (mkdirp_temp _ HT)). fold es1.
    step (gitClone_fresh_ok REPO_URL TEMP_DIR E (mkState es1 (log st1))
            ltac:(cbn [fs]; unfold es1;
                  rewrite (lookup_put_top ".solo-ui-temp" (Dir []) [] (fs st)
                           : lookup_in TEMP_DIR (put_in TEMP_DIR (Some (Dir [])) (fs st)) = Some (Dir []));
                  exact I) Hn).
    fold es3.
    step Hcv.
    step (checkComponentDependencies_ok c E (mkState es3 ((log st1 ++ [Net REPO_URL]) ++ w1))
            ltac:(cbn [fs]; rewrite join_segment by exact Hv; unfold es3;
                  rewrite <- !app_assoc, lookup_fetched; exact Hty)).
    rewrite !join_segment by exact Hv. fold cp.
    step (pathExists_some cp (Dir ces) E (mkState es3 ((log st1 ++ [Net REPO_URL]) ++ w1))
            ltac:(cbn [fs]; unfold cp, es3; rewrite <- !app_assoc, lookup_fetched; exact Hc)).
    cbn [negb].
    step (copy_fresh_ok cp dst (Dir ces) es3' E (mkState es3 ((log st1 ++ [Net REPO_URL]) ++ w1))
            ltac:(cbn [fs]; unfold cp, es3; rewrite <- !app_assoc, lookup_fetched; exact Hc)
            Hw eq_refl Hdst3 eq_refl Hm3). fold es4.
    unfold CliPkg.mergeStyles. step Hme.
    unfold spinSucceed. rewrite emit_eq. reflexivity. }
  unfold st', CliPkg.add. rewrite action_eq. fold st1. rewrite Hbody. cbn [after_body].
  set (st9 := mkState es5 _).
  split.
  - intros p. rewrite (cleanupTemp_frames E st9) by (split; reflexivity). cbn [fs st9].
    rewrite Hf5 by (split; reflexivity). unfold es4.
    apply put_lookup_below; [discriminate|exact Hc3].
  - exists w1. destruct (cleanupTemp_log E st9) as [Hl|Hl]; rewrite Hl; unfold st9, st1; cbn [log].
    + exists []. split; [exact Hw1|split; [left; reflexivity|]]. rewrite <- !app_assoc. reflexivity.
    + eexists. split; [exact Hw1|split; [right; reflexivity|]]. rewrite <- !app_assoc. reflexivity.
Qed.

Lemma set_entry_same {A} x (v : A) l : assoc x l = Some v -> set_entry x v l = l.
Proof.
  induction l as [|[y w] l IH]; simpl; [discriminate|].
  destruct (String.eqb_spec x y) as [->|]; [congruence|]. intros H. now rewrite IH.
Qed.

Lemma set_entry_keys {A} x (v : A) l : NoDup (map fst l) -> NoDup (map fst (set_entry x v l)).
Proof.
  induction l as [|[y w] l IH]; simpl; intros H.
  - constructor; [tauto|constructor].
  - inversion H as [|? ? Hy Hl]; subst.
    destruct (String.eqb_spec x y) as [->|Hne]; simpl; [constructor; assumption|].
    constructor; [|exact (IH Hl)].
    assert (Hk : forall z, In z (map fst (set_entry x v l)) -> z = x \/ In z (map fst l)).
    { clear. induction l as [|[y' w'] l IH]; simpl; [intuition|].
      destruct (String.eqb x y'); simpl; intros z [->|Hz]; auto.
      destruct (IH z Hz); auto. }
    intros Hin. destruct (Hk y Hin) as [->|]; [congruence|tauto].
Qed.

Lemma assign_all_keys l into : NoDup (map fst into) -> NoDup (map fst (assign_all l into)).
Proof.
  unfold assign_all. revert into. induction l as [|[x v] l IH]; intros into H; simpl; [exact H|].
  apply IH, set_entry_keys, H.
Qed.

Lemma assoc_In {A} x (v : A) l : assoc x l = Some v -> In (x, v) l.
Proof.
  induction l as [|[y w] l IH]; simpl; [discriminate|].
  destruct (String.eqb_spec x y) as [->|]; [intros [= ->]; now left|intros H; right; exact (IH H)].
Qed.

Lemma In_assoc_nodup {A} x (v : A) l : NoDup (map fst l) -> In (x, v) l -> assoc x l = Some v.
Proof.
  induction l as [|[y w] l IH]; simpl; [tauto|]. intros Hnd [Heq|Hin]; inversion Hnd; subst.
  - injection Heq as -> ->. now rewrite String.eqb_refl.
  - destruct (String.eqb_spec x y) as [->|]; [|exact (IH H2 Hin)].
    exfalso. apply H1. apply (in_map fst) in Hin. exact Hin.
Qed.

(** Assigning entries an object already holds leaves it unchanged. *)
Lemma assign_all_held l into :
  (forall k v, In (k, v) l -> assoc k into = Some v) -> assign_all l into = into.
Proof.
  unfold assign_all. revert into. induction l as [|[x v] l IH]; intros into H; simpl; [reflexivity|].
  rewrite set_entry_same by (apply H; now left). apply IH. intros k w Hk. apply H. now right.
Qed.

Lemma assign_all_nil l : NoDup (map fst l) -> assign_all l [] = l.
Proof.
  intros Hnd. unfold assign_all.
  assert (Hg : forall acc, NoDup (map fst (acc ++ l)) ->
             fold_left (fun acc kv => set_entry (fst kv) (snd kv) acc) l acc = acc ++ l).
  { clear Hnd. induction l as [|[x v] l IH]; intros acc H; simpl; [now rewrite app_nil_r|].
    rewrite set_entry_absent.
    - rewrite IH; [now rewrite <- app_assoc|now rewrite <- app_assoc].
    - apply assoc_not_in. rewrite map_app in H. simpl in H.
      intros Hin. apply NoDup_remove_2 in H. apply H. apply in_or_app. now left. }
  exact (Hg [] Hnd).
Qed.

(** X14: running [updateManifest] again on its own result changes nothing. *)
Theorem updateManifest_idempotent j j' : updateManifest j = Ok j' -> updateManifest j' = Ok j'.
Proof.
  intros H. destruct j as [| | | |l|fs0]; try discriminate H.
  - injection H as <-. reflexivity.
  - injection H as <-.
    set (fs1 := if truthy (assoc "dependencies" fs0) then fs0
                else set_entry "dependencies" (JObj []) fs0).
    set (fs2 := if truthy (assoc "devDependencies" fs1) then fs1
                else set_entry "devDependencies" (JObj []) fs1).
    rewrite <- assign_devPins.
    set (dev := assign_all devPins (assign_all (spread (assoc "devDependencies" fs2)) [])).
    assert (Hd1 : truthy (assoc "dependencies" fs1) = true).
    { unfold fs1. destruct (truthy (assoc "dependencies" fs0)) eqn:H; [exact H|].
      now rewrite assoc_set_same. }
    assert (Hd2 : truthy (assoc "dependencies" fs2) = true).
    { unfold fs2. destruct (truthy (assoc "devDependencies" fs1)); [exact Hd1|].
      now rewrite assoc_set_other by discriminate. }
    set (R := set_entry "devDependencies" (JObj dev) fs2).
    assert (HR1 : truthy (assoc "dependencies" R) = true)
      by (unfold R; rewrite assoc_set_other by discriminate; exact Hd2).
    assert (HR2 : assoc "devDependencies" R = Some (JObj dev)) by apply assoc_set_same.
    assert (Hnd : NoDup (map fst dev)) by (apply assign_all_keys, assign_all_keys; constructor).
    assert (Hdev : assign_all devPins (assign_all (spread (Some (JObj dev))) []) = dev).
    { cbn [spread]. rewrite assign_all_nil by exact Hnd. apply assign_all_held.
      intros k v Hk. unfold dev.
      destruct (devPins_values (assign_all (spread (assoc "devDependencies" fs2)) [])) as [H1 [H2 H3]].
      cbn [devPins In] in Hk. destruct Hk as [[= <- <-]|[[= <- <-]|[[= <- <-]|[]]]]; assumption. }
    unfold updateManifest at 1. lazy beta iota zeta. rewrite HR1, HR2. cbn [truthy]. rewrite HR2, Hdev.
    rewrite set_entry_same by exact HR2. reflexivity.
Qed.

Lemma gitClone_down url dst E st :
  match lookup_in dst (fs st) with None | Some (Dir []) => True | _ => False end ->
  network_up E = false ->
  gitClone url dst E st = (Err (NetworkError url), mkState (fs st) (log st ++ [Net url])).
Proof.
  intros H Hn. apply wp_exact, wp_gitClone.
  destruct (lookup_in dst (fs st)) as [[t|j|[|x es]]|]; try contradiction; now rewrite Hn.
Qed.

Lemma temp_fresh es :
  lookup_in TEMP_DIR (put_in TEMP_DIR (Some (Dir [])) es) = Some (Dir []).
Proof. exact (lookup_put_top ".solo-ui-temp" (Dir []) [] es). Qed.

Ltac clone_down Hn tac :=
  match goal with
  | |- context [bind (gitClone ?u ?d) ?k ?E0 ?s] =>
      let H := fresh in
      assert (H : match lookup_in d (fs s) with None | Some (Dir []) => True | _ => False end) by tac;
      rewrite (bind_err (gitClone u d) k E0 s _ _ (gitClone_down u d E0 s H Hn))
  end.

Lemma body_network_down cmd E st :
  network_up E = false ->
  (needs_project cmd = true -> lookup_in ["package.json"] (fs st) <> None) ->
  lookup_in TEMP_DIR (fs st) = None ->
  blocks (lookup_in ["src"] (fs st)) = false ->
  blocks (lookup_in ["src"; "styles"] (fs st)) = false ->
  blocks (lookup_in ["src"; "components"] (fs st)) = false ->
  blocks (lookup_in ["styles"] (fs st)) = false ->
  blocks (lookup_in ["components"] (fs st)) = false ->
  exists es, body_of cmd E st = (Err (NetworkError REPO_URL), mkState es (log st ++ [Net REPO_URL])).
Proof.
  intros Hn Hp HT Hs Hss Hsc Hst Hc.
  destruct cmd as [c| | |c| |]; cbn [body_of].
  - unfold CliPkg.addBody.
    step (checkProjectConfig_present E st (Hp eq_refl)).
    step (ensureDir_ok _ _ E st (mkdirp_temp _ HT)).
    clone_down Hn ltac:(cbn [fs]; rewrite temp_fresh; exact I).
    eexists; reflexivity.
  - unfold CliPkg.initBody.
    destruct (mkdirp_one "styles" (fs st) Hst) as [es1 Hm1].
    assert (Hc1 : blocks (lookup_in ["components"] es1) = false)
      by (rewrite (mkdirp_frame _ _ _ _ Hm1) by reflexivity; exact Hc).
    destruct (mkdirp_one "components" es1 Hc1) as [es2 Hm2].
    step (checkProjectConfig_present E st (Hp eq_refl)).
    step (ensureDir_ok _ _ E st Hm1).
    step (ensureDir_ok _ _ E (mkState es1 (log st)) Hm2).
    clone_down Hn ltac:(cbn [fs]; rewrite (mkdirp_frame _ _ _ _ Hm2), (mkdirp_frame _ _ _ _ Hm1)
                       by reflexivity; rewrite HT; exact I).
    eexists; reflexivity.
  - unfold CliPkg.listBody.
    step (ensureDir_ok _ _ E st (mkdirp_temp _ HT)).
    clone_down Hn ltac:(cbn [fs]; rewrite temp_fresh; exact I).
    eexists; reflexivity.
  - unfold CliSrc.addBody.
    set (es1 := put_in TEMP_DIR (Some (Dir [])) (fs st)).
    assert (Hs1 : blocks (lookup_in ["src"] es1) = false)
      by (unfold es1; rewrite put_frame by reflexivity; exact Hs).
    assert (Hsc1 : blocks (lookup_in ["src"; "components"] es1) = false)
      by (unfold es1; rewrite put_frame by reflexivity; exact Hsc).
    destruct (mkdirp_two "src" "components" es1 Hs1 Hsc1) as [es2 Hm2].
    step (checkProjectConfig_present E st (Hp eq_refl)).
    step (ensureDir_ok _ _ E st (mkdirp_temp _ HT)). fold es1.
    step (ensureDir_ok _ _ E (mkState es1 (log st)) Hm2).
    clone_down Hn ltac:(cbn [fs]; rewrite (mkdirp_frame _ _ _ _ Hm2) by reflexivity;
                     unfold es1; rewrite temp_fresh; exact I).
    eexists; reflexivity.
  - unfold CliSrc.initBody.
    destruct (mkdirp_two "src" "styles" (fs st) Hs Hss) as [es1 Hm1].
    pose proof (mkdirp_dir _ [] _ _ eq_refl Hm1) as Hd1. cbn [app] in Hd1.
    assert (Hs1 : blocks (lookup_in ["src"] es1) = false)
      by (apply is_dir_blocks; exact (lookup_dir_prefix ["src"] ["styles"] es1 Hd1)).
    assert (Hsc1 : blocks (lookup_in ["src"; "components"] es1) = false)
      by (rewrite (mkdirp_frame _ _ _ _ Hm1) by reflexivity; exact Hsc).
    destruct (mkdirp_two "src" "components" es1 Hs1 Hsc1) as [es2 Hm2].
    step (checkProjectConfig_present E st (Hp eq_refl)).
    step (ensureDir_ok _ _ E st Hm1).
    step (ensureDir_ok _ _ E (mkState es1 (log st)) Hm2).
    clone_down Hn ltac:(cbn [fs]; rewrite (mkdirp_frame _ _ _ _ Hm2), (mkdirp_frame _ _ _ _ Hm1)
                       by reflexivity; rewrite HT; exact I).
    eexists; reflexivity.
  - unfold CliSrc.listBody.
    step (ensureDir_ok _ _ E st (mkdirp_temp _ HT)).
    clone_down Hn ltac:(cbn [fs]; rewrite temp_fresh; exact I).
    eexists; reflexivity.
Qed.

(** X15: when the repository cannot be reached, every command fails right
    after its single clone attempt with the network error, after which only
    the cleanup warning may follow. *)
Theorem commands_network_down cmd E st :
  network_up E = false ->
  (needs_project cmd = true -> lookup_in ["package.json"] (fs st) <> None) ->
  lookup_in TEMP_DIR (fs st) = None ->
  blocks (lookup_in ["src"] (fs st)) = false ->
  blocks (lookup_in ["src"; "styles"] (fs st)) = false ->
  blocks (lookup_in ["src"; "components"] (fs st)) = false ->
  blocks (lookup_in ["styles"] (fs st)) = false ->
  blocks (lookup_in ["components"] (fs st)) = false ->
  exists w, (w = [] \/ w = [Warn "Failed to clean up temporary directory"]) /\
    log (snd (run cmd E st)) =
      log st ++ [SpinStart (start_text cmd); Net REPO_URL;
                 SpinFail (fail_prefix cmd +++ errorMessage (NetworkError REPO_URL))] ++ w.
Proof.
  intros Hn Hp HT Hs Hss Hsc Hst Hc.
  destruct (body_network_down cmd E (mkState (fs st) (log st ++ [SpinStart (start_text cmd)]))
              Hn Hp HT Hs Hss Hsc Hst Hc) as [es Hb].
  rewrite run_action, action_eq, Hb. cbn [after_body fs log].
  match goal with |- context [cleanupTemp ?E0 ?s] => destruct (cleanupTemp_log E0 s) as [Hl|Hl] end;
    rewrite Hl; cbn [log].
  - exists []. split; [left; reflexivity|]. rewrite <- !app_assoc. reflexivity.
  - eexists. split; [right; reflexivity|]. rewrite <- !app_assoc. reflexivity.
Qed.

Lemma replace_content_no_content_witness :
  includes "module.exports = {}" "content:" = false /\
  CliSrc.replace_content "module.exports = {}" = "module.exports = {}".
Proof.
  split; [reflexivity|]. apply replace_content_no_content. reflexivity.
Defined.

Lemma updateManifest_idempotent_witness :
  exists j', updateManifest (JObj [("name", JStr "app")]) = Ok j' /\ updateManifest j' = Ok j'.
Proof.
  eexists. split; [vm_compute; reflexivity|].
  apply (updateManifest_idempotent (JObj [("name", JStr "app")])). vm_compute. reflexivity.
Defined.

Lemma list_cancel_keeps_project_witness :
  answer (mkEnv sample_remote true true None) = None /\
  lookup_in ["package.json"] (fs (snd (CliSrc.list (mkEnv sample_remote true true None) sample_state))) =
    lookup_in ["package.json"] (fs sample_state).
Proof.
  split; [reflexivity|].
  apply (proj2 (list_cancel_keeps_project (mkEnv sample_remote true true None) sample_state eq_refl)).
  split; reflexivity.
Defined.

Lemma src_list_offers_witness :
  lookup_in TEMP_DIR (fs sample_state) = None /\ network_up sample_env = true /\
  lookup_in ["packages"; "components"] (remote sample_env) = Some (Dir sample_catalog) /\
  exists w, log (snd (CliSrc.list sample_env sample_state)) =
    log sample_state ++ [SpinStart "Fetching components..."; Net REPO_URL; SpinStop; Prompt ["button"]] ++ w.
Proof.
  split; [reflexivity|split; [reflexivity|split; [reflexivity|]]].
  exact (proj1 (src_list_offers sample_env sample_state sample_catalog eq_refl eq_refl eq_refl)).
Defined.

Lemma pkg_list_offers_witness :
  lookup_in TEMP_DIR (fs sample_state) = None /\ network_up sample_env = true /\
  lookup_in ["packages"; "components"] (remote sample_env) = Some (Dir sample_catalog) /\
  exists w, log (snd (CliPkg.list sample_env sample_state)) =
    log sample_state ++ [SpinStart "Fetching components..."; Net REPO_URL; SpinStop;
                         Prompt ["button"; "styles"; "package.json"]] ++ w.
Proof.
  split; [reflexivity|split; [reflexivity|split; [reflexivity|]]].
  exact (pkg_list_offers sample_env sample_state sample_catalog eq_refl eq_refl eq_refl).
Defined.


Lemma pkg_init_success_witness :
  lookup_in ["styles"; "globals.css"] (fs (snd (CliPkg.init sample_env sample_state))) =
    Some (File "@tailwind base;") /\
  lookup_in ["postcss.config.js"] (fs (snd (CliPkg.init sample_env sample_state))) = Some (File "pc").
Proof.
  destruct (pkg_init_success sample_env sample_state [("name", JStr "app")] "@tailwind base;"
              "module.exports = { content: [ './x' ], theme: {} }" "pc"
              eq_refl eq_refl eq_refl eq_refl eq_refl eq_refl eq_refl eq_refl eq_refl
              eq_refl eq_refl) as [H1 [_ [H3 _]]].
  split; [exact H1|exact H3].
Defined.

Lemma src_add_success_witness :
  lookup_in ["src"; "components"; "button"; "styles.css"]
    (fs (snd (CliSrc.add "button" sample_flat_env sample_styled_state))) = Some (File ".btn{}").
Proof.
  refine (proj1 (src_add_success "button" sample_flat_env sample_styled_state
            [("index.tsx", File "btn"); ("styles.css", File ".btn{}")]
            eq_refl ltac:(discriminate) eq_refl eq_refl eq_refl eq_refl eq_refl eq_refl eq_refl eq_refl _)
            ["styles.css"]).
  intros ns H. injection H as <-. split; [discriminate|].
  eexists. split; [reflexivity|discriminate].
Defined.

Lemma pkg_add_success_witness :
  lookup_in ["components"; "button"; "styles.css"]
    (fs (snd (CliPkg.add "button" sample_flat_env sample_styled_state))) = Some (File ".btn{}").
Proof.
  refine (proj1 (pkg_add_success "button" sample_flat_env sample_styled_state
            [("index.tsx", File "btn"); ("styles.css", File ".btn{}")]
            eq_refl ltac:(discriminate) eq_refl eq_refl eq_refl eq_refl eq_refl eq_refl eq_refl _)
            ["styles.css"]).
  intros ns H. injection H as <-. split; [discriminate|].
  eexists. split; [reflexivity|discriminate].
Defined.

Lemma commands_network_down_witness :
  exists w, log (snd (run SrcInit (mkEnv sample_remote false true (Some 0)) sample_state)) =
    [SpinStart "Initializing solo-ui..."; Net REPO_URL;
     SpinFail ("Failed to initialize: " +++ errorMessage (NetworkError REPO_URL))] ++ w.
Proof.
  destruct (commands_network_down SrcInit (mkEnv sample_remote false true (Some 0)) sample_state
              eq_refl ltac:(intros _; discriminate) eq_refl eq_refl eq_refl eq_refl eq_refl eq_refl)
    as [w [_ Hw]].
  exists w. exact Hw.
Defined.
